(** * Watch-time booster: a shallow embedding of the scoring core

    The definitions follow the Python sources function by function:
    - [Py]           the fragment of Python's runtime the sources rely on:
                     exceptions, [try/except], [dict.get], [int / int],
                     [int(float)], [len];
    - [Analytics]    [src/analytics.py]: the engagement rate of
                     [analyze_single_video], [calculate_optimization_score],
                     [generate_action_items];
    - [Pandas]       the fragment of pandas used by the batch functions;
    - [Ranker]       [src/analytics.py]: [compute_potential];
    - [YtFetch]      [src/yt_fetch.py]: [parse_iso8601_duration];
    - [Recommender]  [src/recommender.py]: [cluster_videos], over a store of
                     frames.
    Python [int]s are [Z]; Python [float]s are binary64 values ([float]);
    code of third-party libraries ([isodate], [sort_values], the embedding
    model, the clustering) enters as section variables.  The second half of
    the file states and proves the properties. *)

From Stdlib Require Import ZArith List String Lia Bool Floats.
From stdpp Require Import base option list gmap strings sorting.
Import ListNotations.

Set Warnings "-inexact-float".
Local Open Scope Z_scope.

(** ** Python runtime fragment *)

Module Py.

(** The exceptions that the modelled code can meet. *)
Inductive exn : Type :=
| ZeroDivisionError
| OverflowError
| ValueError
| TypeError
| KeyError
| LibraryError.  (* any exception raised inside third-party code *)

(** A Python expression either produces a value or raises. *)
Inductive outcome (A : Type) : Type :=
| Value (a : A)
| Raises (e : exn).
Arguments Value {A} a.
Arguments Raises {A} e.

#[export] Instance outcome_ret : MRet outcome := fun A a => Value a.

(** Sequencing: the first exception raised ends the computation. *)
#[export] Instance outcome_bind : MBind outcome := fun A B k m =>
  match m with
  | Value a => k a
  | Raises e => Raises e
  end.

(** [try: body  except: handler] with a bare [except]. *)
Definition try_except {A} (body : outcome A) (handler : outcome A) : outcome A :=
  match body with
  | Value a => Value a
  | Raises _ => handler
  end.

(** [d.get(key, default)]: a field that is [None] stands for an absent key. *)
Definition get {A} (field : option A) (default : A) : A :=
  match field with
  | Some x => x
  | None => default
  end.

(** Python's [int] seen as an unrounded binary float: mantissa [|a|], exponent 0. *)
Definition SF_of_int (a : Z) : spec_float :=
  match a with
  | Z0 => S754_zero false
  | Zpos p => S754_finite false p 0
  | Zneg p => S754_finite true p 0
  end.

(** [a / b] on Python ints (true division): the exact quotient rounded once
    to the nearest binary64 value, [ZeroDivisionError] for [b = 0] and
    [OverflowError] when the rounded quotient leaves the binary64 range. *)
Definition truediv (a b : Z) : outcome float :=
  if b =? 0 then Raises ZeroDivisionError
  else
    match SFdiv prec emax (SF_of_int a) (SF_of_int b) with
    | S754_infinity _ => Raises OverflowError
    | q => Value (SF2Prim q)
    end.

(** [int(x)] on a float: truncation toward zero; [ValueError] on NaN and
    [OverflowError] on an infinity. *)
Definition int_of_float (x : float) : outcome Z :=
  match Prim2SF x with
  | S754_nan => Raises ValueError
  | S754_infinity _ => Raises OverflowError
  | S754_zero _ => Value 0
  | S754_finite s m e =>
      let magnitude := Z.shiftl (Zpos m) e in
      Value (if s then - magnitude else magnitude)
  end.

(** [len(s)] on a [str]. *)
Definition len (s : string) : Z := Z.of_nat (String.length s).

End Py.

(** ** src/analytics.py: single-video analysis *)

Module Analytics.
Import Py.

(** The [video_data] dict, restricted to the keys the analysis reads.  Every
    value is an [int] (a [str] for the title, one [ascii] per character);
    [None] is an absent key. *)
Record VideoData : Type := mkVideoData {
  duration_s : option Z;
  views : option Z;
  likes : option Z;
  comments : option Z;
  title : option string
}.

(** Lines 33-41 of [analyze_single_video]: the derived engagement rate.  The
    [int] 0 of the [else] branch is the float 0.0 in every later comparison. *)
Definition analyze_single_video_engagement_rate (video_data : VideoData) : outcome float :=
  let views := get (views video_data) 0 in
  let likes := get (likes video_data) 0 in
  let comments := get (comments video_data) 0 in
  if 0 <? views then truediv (likes + comments) (Z.max views 1)
  else Value 0%float.

Definition calculate_optimization_score (video_data : VideoData) (engagement_rate : float) : Z :=
  let score := 50 in
  let duration := get (duration_s video_data) 0 in
  let views := get (views video_data) 0 in
  let title := get (title video_data) EmptyString in
  (* Duration optimization *)
  let score :=
    if duration <? 120 then score - 10
    else if (480 <=? duration) && (duration <=? 900) then score + 10
    else if 1800 <? duration then score - 15
    else score in
  (* Engagement score *)
  let score :=
    if (0.05 <? engagement_rate)%float then score + 15
    else if (0.02 <? engagement_rate)%float then score + 5
    else if (engagement_rate <? 0.005)%float then score - 20
    else score in
  (* Title analysis *)
  let score :=
    if 60 <? len title then score - 5
    else if len title <? 30 then score - 5
    else score in
  (* View count factor *)
  let score :=
    if 100000 <? views then score + 10
    else if 10000 <? views then score + 5
    else if views <? 1000 then score - 10
    else score in
  Z.max 0 (Z.min 100 score).

(** The message literals of [generate_action_items], in source order. *)
Definition HIGH_PRIORITY_RETENTION : string :=
  "üî¥ High Priority: Major optimization needed. Focus on improving retention in the first 30 seconds.".
Definition HIGH_PRIORITY_TITLE : string :=
  "üî¥ High Priority: Review your title and thumbnail for clarity and appeal.".
Definition MEDIUM_PRIORITY : string :=
  "üü° Medium Priority: Moderate optimization opportunities. Focus on engagement improvements.".
Definition GOOD : string :=
  "üü¢ Good: Your video is well-optimized. Focus on maintaining current strategies.".
Definition TEST_LONGER_FORMAT : string :=
  "üìà Test longer format content (8-15 minutes) to increase watch time potential.".
Definition CONDENSED_VERSION : string :=
  "‚úÇÔ∏è Consider creating a condensed version or adding chapter markers.".
Definition INTERACTIVE_ELEMENTS : string :=
  "üí¨ Add more interactive elements: questions, polls, or calls-to-action to boost engagement.".
Definition MONITOR_RETENTION : string :=
  "üìä Monitor audience retention graphs in YouTube Analytics to identify drop-off points.".
Definition AB_TEST_THUMBNAILS : string :=
  "üéØ A/B test different thumbnails for future videos based on what works best.".

(** [generate_action_items]; the [suggestions] argument is accepted and never
    read, as in the source.  The engagement rate is recomputed here, without
    the [views > 0] guard of [analyze_single_video]. *)
Definition generate_action_items (video_data : VideoData) (optimization_score : Z)
    (suggestions : list string) : outcome (list string) :=
  let action_items : list string := [] in
  let action_items :=
    if optimization_score <? 30 then
      (action_items ++ [HIGH_PRIORITY_RETENTION]) ++ [HIGH_PRIORITY_TITLE]
    else if optimization_score <? 60 then action_items ++ [MEDIUM_PRIORITY]
    else action_items ++ [GOOD] in
  let duration := get (duration_s video_data) 0 in
  let action_items :=
    if duration <? 120 then action_items ++ [TEST_LONGER_FORMAT]
    else if 1800 <? duration then action_items ++ [CONDENSED_VERSION]
    else action_items in
  engagement_rate ←
    truediv (get (likes video_data) 0 + get (comments video_data) 0)
            (Z.max (get (views video_data) 1) 1);
  let action_items :=
    if (engagement_rate <? 0.02)%float then action_items ++ [INTERACTIVE_ELEMENTS]
    else action_items in
  mret ((action_items ++ [MONITOR_RETENTION]) ++ [AB_TEST_THUMBNAILS]).

End Analytics.

(** ** The rule table of the specification (section 4.1)

    Written from the specification's table, one summand per row, each row
    tested on its own; compared with [calculate_optimization_score] below. *)

Module ScoreSpec.

Definition adjust (condition : bool) (adjustment : Z) : Z :=
  if condition then adjustment else 0.

Definition spec_duration_adjustments (duration : Z) : Z :=
  adjust (duration <? 120) (-10)
  + adjust ((480 <=? duration) && (duration <=? 900)) 10
  + adjust (1800 <? duration) (-15).

Definition spec_engagement_adjustments (engagement_rate : float) : Z :=
  adjust (0.05 <? engagement_rate)%float 15
  + adjust ((0.02 <? engagement_rate)%float && negb (0.05 <? engagement_rate)%float) 5
  + adjust (engagement_rate <? 0.005)%float (-20).

Definition spec_title_adjustments (title_length : Z) : Z :=
  adjust (60 <? title_length) (-5)
  + adjust (title_length <? 30) (-5).

Definition spec_views_adjustments (views : Z) : Z :=
  adjust (100000 <? views) 10
  + adjust ((10000 <? views) && negb (100000 <? views)) 5
  + adjust (views <? 1000) (-10).

Definition spec_adjustments (duration : Z) (engagement_rate : float)
    (title_length views : Z) : Z :=
  spec_duration_adjustments duration
  + spec_engagement_adjustments engagement_rate
  + spec_title_adjustments title_length
  + spec_views_adjustments views.

Definition clamp_0_100 (score : Z) : Z := Z.max 0 (Z.min 100 score).

Definition spec_score (duration : Z) (engagement_rate : float)
    (title_length views : Z) : Z :=
  clamp_0_100 (50 + spec_adjustments duration engagement_rate title_length views).

End ScoreSpec.

(** ** Names used in the statements about [src/analytics.py] *)

Module AnalyticsSpec.
Import Py Analytics.

(** The premises of the worked example of section 8. *)
Definition worked_example (v : VideoData) : Prop :=
  duration_s v = Some 600 /\ views v = Some 50000
  /\ likes v = Some 1000 /\ comments v = Some 200.

(** The engagement rate as line 184 of [generate_action_items] recomputes it. *)
Definition action_engagement_rate (v : VideoData) : outcome float :=
  truediv (get (likes v) 0 + get (comments v) 0) (Z.max (get (views v) 1) 1).

(** The items chosen by the score, and those chosen by duration and engagement. *)
Definition score_bucket_items : list string :=
  [HIGH_PRIORITY_RETENTION; HIGH_PRIORITY_TITLE; MEDIUM_PRIORITY; GOOD].

Definition conditional_items : list string :=
  [TEST_LONGER_FORMAT; CONDENSED_VERSION; INTERACTIVE_ELEMENTS].

End AnalyticsSpec.

(** ** The fragment of pandas the sources rely on

    A frame is a list of column names and a list of rows, each row a finite
    map from column name to cell.  Frames carry the default positional index,
    so that column arithmetic is element by element.  A numeric column has
    one dtype: [int64] when every cell is an integer (a value of 64 bits),
    [float64] as soon as one cell is a float or is missing.  [int64]
    arithmetic keeps the low 64 bits of a result; float cells are binary64. *)

Module Pandas.
Import Py.

Inductive cell : Type :=
| Int (z : Z)
| Float (f : float)
| Str (s : string)
| PyNone.

Record DataFrame : Type := mkDataFrame {
  columns : list string;
  rows : list (gmap string cell)
}.

(** [len(df)] *)
Definition len_df (df : DataFrame) : Z := Z.of_nat (length (rows df)).

(** [c in df.columns] *)
Definition has_column (c : string) (df : DataFrame) : bool :=
  bool_decide (c ∈ columns df).

(** The cell of row [r] in column [c]. *)
Definition at_column (c : string) (r : gmap string cell) : cell :=
  default PyNone (r !! c).

(** [df[c]] as a right-hand side. *)
Definition getitem (df : DataFrame) (c : string) : outcome (list cell) :=
  if has_column c df then Value (at_column c <$> rows df) else Raises KeyError.

(** [df[c] = series]: replaces the column, or appends it when it is new; a
    series of the wrong length is refused. *)
Definition setitem (df : DataFrame) (c : string) (series : list cell) : outcome DataFrame :=
  if (length series =? length (rows df))%nat then
    Value {| columns := if has_column c df then columns df else columns df ++ [c];
             rows := zip_with (fun r x => <[c := x]> r) (rows df) series |}
  else Raises ValueError.

(** [df.copy()]: a frame with the same contents (a new object, see the store
    of [Recommender] for object identity). *)
Definition copy (df : DataFrame) : DataFrame := df.

(** numpy's conversion of an [int64] to [float64]: round to nearest even. *)
Definition float_of_int (z : Z) : float := SF2Prim (binary_normalize prec emax z 0 false).

(** An [int64] result keeps its low 64 bits, read in two's complement: the
    arithmetic of an integer column wraps silently. *)
Definition wrap_int64 (z : Z) : Z := (z + 2 ^ 63) mod 2 ^ 64 - 2 ^ 63.

(** The dtype of a numeric series: [int64] when every cell is an integer. *)
Definition is_int (a : cell) : bool :=
  match a with
  | Int _ => true
  | _ => false
  end.

Definition int64_series (series : list cell) : bool := forallb is_int series.

(** The [float64] reading of a cell: an integer is converted, a missing cell
    is NaN; text has none. *)
Definition as_float64 (a : cell) : outcome float :=
  match a with
  | Int z => Value (float_of_int z)
  | Float f => Value f
  | PyNone => Value nan
  | Str _ => Raises TypeError
  end.

(** The cell of a [float64] column that holds [a]; what is not a number is NaN. *)
Definition float64_cell (a : cell) : cell :=
  match a with
  | Int z => Float (float_of_int z)
  | Float f => Float f
  | Str _ | PyNone => Float nan
  end.

(** One cell of [a op b] on two numeric series: in wrapping [int64] when
    both series are [int64], in [float64] otherwise. *)
Definition num_binop (int64 : bool) (on_int : Z -> Z -> Z)
    (on_float : float -> float -> float) (a b : cell) : outcome cell :=
  if int64 then
    match a, b with
    | Int x, Int y => Value (Int (wrap_int64 (on_int x y)))
    | _, _ => Raises TypeError
    end
  else
    x ← as_float64 a;
    y ← as_float64 b;
    mret (Float (on_float x y)).

Definition num_sub (int64 : bool) : cell -> cell -> outcome cell :=
  num_binop int64 Z.sub PrimFloat.sub.
Definition num_mul (int64 : bool) : cell -> cell -> outcome cell :=
  num_binop int64 Z.mul PrimFloat.mul.

(** [/] is true division: both cells are read as [float64]. *)
Definition num_truediv (a b : cell) : outcome cell :=
  x ← as_float64 a;
  y ← as_float64 b;
  mret (Float (x / y)).

(** [a op b] on two series of one frame, cell by cell. *)
Definition series_binop (op : cell -> cell -> outcome cell) (a b : list cell)
    : outcome (list cell) :=
  mapM (fun p => op p.1 p.2) (zip a b).

(** [a - b], [a * b] and [a / b] on two numeric series. *)
Definition series_sub (a b : list cell) : outcome (list cell) :=
  series_binop (num_sub (int64_series a && int64_series b)) a b.
Definition series_mul (a b : list cell) : outcome (list cell) :=
  series_binop (num_mul (int64_series a && int64_series b)) a b.
Definition series_truediv (a b : list cell) : outcome (list cell) :=
  series_binop num_truediv a b.

(** [max(x, lower)] on a binary64 value as [clip] takes it: NaN stays NaN. *)
Definition float_clip (lower : Z) (x : float) : float :=
  if (x <? float_of_int lower)%float then float_of_int lower else x.

(** [series.clip(lower=bound)], in the dtype of the series. *)
Definition clip_cell (int64 : bool) (lower : Z) (a : cell) : outcome cell :=
  if int64 then
    match a with
    | Int x => Value (Int (Z.max x lower))
    | _ => Raises TypeError
    end
  else
    x ← as_float64 a;
    mret (Float (float_clip lower x)).

Definition clip (lower : Z) (series : list cell) : outcome (list cell) :=
  mapM (clip_cell (int64_series series) lower) series.

(** The order [sort_values] sorts a numeric column by. *)
Definition cell_ltb (a b : cell) : bool :=
  match a, b with
  | Int x, Int y => x <? y
  | Int x, Float y => (float_of_int x <? y)%float
  | Float x, Int y => (x <? float_of_int y)%float
  | Float x, Float y => (x <? y)%float
  | _, _ => false
  end.

(** No row is followed by a row with a strictly larger key. *)
Definition descending_by (c : string) (rs : list (gmap string cell)) : Prop :=
  Sorted (fun r1 r2 => cell_ltb (at_column c r1) (at_column c r2) = false) rs.

(** What pandas documents of [df.sort_values(c, ascending=False)] with the
    default [kind]: the same columns, the same rows in some order, that order
    descending by [c].  The default [kind='quicksort'] promises nothing about
    the order of rows with equal keys. *)
Definition sort_values_descending_contract
    (sort_values : string -> bool -> DataFrame -> outcome DataFrame) : Prop :=
  forall (c : string) (df : DataFrame),
    c ∈ columns df ->
    exists out : DataFrame,
      sort_values c false df = Value out
      /\ columns out = columns df
      /\ rows out ≡ₚ rows df
      /\ descending_by c (rows out).

End Pandas.

(** ** src/analytics.py: batch ranking *)

Module Ranker.
Import Py Pandas.
Local Open Scope string_scope.

Section ComputePotential.

(** The two library functions [compute_potential] calls into:
    [pd.to_numeric(_, errors="coerce")] on a text cell, and
    [DataFrame.sort_values(by, ascending)]. *)
Variable to_numeric_text : string -> cell.
Variable sort_values : string -> bool -> DataFrame -> outcome DataFrame.

(** [pd.to_numeric(series, errors="coerce")]: every cell is read as a
    number, and the series is [int64] if every cell came out an integer,
    [float64] otherwise, with NaN for what is missing or not a number. *)
Definition to_numeric_cell (a : cell) : cell :=
  match a with
  | Int _ | Float _ => a
  | Str s => to_numeric_text s
  | PyNone => Float nan
  end.

Definition to_numeric (series : list cell) : list cell :=
  let converted := to_numeric_cell <$> series in
  if int64_series converted then converted else float64_cell <$> converted.

Definition compute_potential (df : DataFrame) : outcome DataFrame :=
  let df := copy df in
  if has_column "avgViewDuration" df then
    avg ← getitem df "avgViewDuration";
    df ← setitem df "avgViewDuration" (to_numeric avg);
    duration ← getitem df "duration_s";
    df ← setitem df "duration_s" (to_numeric duration);
    duration ← getitem df "duration_s";
    avg ← getitem df "avgViewDuration";
    gap ← series_sub duration avg;
    clipped ← clip 0 gap;
    df ← setitem df "potential_seconds_per_view" clipped;
    views ← getitem df "views";
    per_view ← getitem df "potential_seconds_per_view";
    watch ← series_mul views per_view;
    df ← setitem df "potential_watch_seconds" watch;
    sort_values "potential_watch_seconds" false df
  else
    views ← getitem df "views";
    duration ← getitem df "duration_s";
    clipped ← clip 1 duration;
    score ← series_truediv views clipped;
    df ← setitem df "potential_score" score;
    sort_values "potential_score" false df.

End ComputePotential.

End Ranker.

(** The annotated rows the specification describes (section 4.3), for rows
    whose [views] and [duration_s] cells are 64-bit integers. *)

Module RankerSpec.
Import Py Pandas.
Local Open Scope string_scope.

Definition int_at (c : string) (r : gmap string cell) : Z :=
  match at_column c r with
  | Int z => z
  | _ => 0
  end.


(** Every row of the frame holds a 64-bit integer in column [c]. *)
Definition int64_column (c : string) (df : DataFrame) : Prop :=
  c ∈ columns df
  /\ forall r, r ∈ rows df ->
       exists z : Z, r !! c = Some (Int z) /\ - 2 ^ 63 <= z < 2 ^ 63.


(** Retention-gap mode: the record with its average view duration as
    coerced, [avg], and its two potential figures, computed in 64-bit
    integers when [avg] is an integer and in binary64 when it is a float. *)
Definition retention_gap_row (avg : cell) (r : gmap string cell) : gmap string cell :=
  let duration := int_at "duration_s" r in
  let views := int_at "views" r in
  match avg with
  | Int a =>
      let potential_seconds_per_view := Z.max (wrap_int64 (duration - a)) 0 in
      <["potential_watch_seconds" := Int (wrap_int64 (views * potential_seconds_per_view))]>
        (<["potential_seconds_per_view" := Int potential_seconds_per_view]>
           (<["avgViewDuration" := avg]> r))
  | Float a =>
      let potential_seconds_per_view := float_clip 0 (float_of_int duration - a) in
      <["potential_watch_seconds" := Float (float_of_int views * potential_seconds_per_view)]>
        (<["potential_seconds_per_view" := Float potential_seconds_per_view]>
           (<["avgViewDuration" := avg]> r))
  | Str _ | PyNone => r
  end.

(** Row [r'] is row [r] at every column outside [written]. *)
Definition same_but (written : list string) (r r' : gmap string cell) : Prop :=
  forall k : string, k ∉ written -> r' !! k = r !! k.


End RankerSpec.

(** ** A reference sort and example batches

    One function that meets [sort_values_descending_contract], used to run
    the ranker on concrete batches, and the two batches of section 8. *)

Module RankerExamples.
Import Py Pandas.
Local Open Scope string_scope.

Definition not_below (c : string) (r1 r2 : gmap string cell) : Prop :=
  cell_ltb (at_column c r1) (at_column c r2) = false.

#[export] Instance not_below_dec (c : string) : RelDecision (not_below c).
Proof. intros r1 r2. unfold not_below. apply _. Defined.

Definition merge_sort_values (c : string) (ascending : bool) (df : DataFrame)
    : outcome DataFrame :=
  if has_column c df then
    let sorted := merge_sort (not_below c) (rows df) in
    Value (mkDataFrame (columns df) (if ascending then reverse sorted else sorted))
  else Raises KeyError.

(** Another function that meets the contract: it sorts the rows taken in
    reverse order. *)
Definition reversed_merge_sort_values (c : string) (ascending : bool) (df : DataFrame)
    : outcome DataFrame :=
  merge_sort_values c ascending (mkDataFrame (columns df) (reverse (rows df))).

Definition coerce_text_to_nan (s : string) : cell := Float nan.

Definition record (video_id : string) (fields : list (string * Z)) : gmap string cell :=
  <["video_id" := Str video_id]> (list_to_map (prod_map id Int <$> fields)).

(** [avg_view_duration=[40,80], duration=[120,100], views=[1000,2000]] *)
Definition retention_batch : DataFrame :=
  mkDataFrame ["video_id"; "views"; "duration_s"; "avgViewDuration"]
    [ record "a" [("views", 1000); ("duration_s", 120); ("avgViewDuration", 40)];
      record "b" [("views", 2000); ("duration_s", 100); ("avgViewDuration", 80)] ].

(** [duration=[60,300], views=[600,300]] *)
Definition fallback_batch : DataFrame :=
  mkDataFrame ["video_id"; "views"; "duration_s"]
    [ record "a" [("views", 600); ("duration_s", 60)];
      record "b" [("views", 300); ("duration_s", 300)] ].

(** Two records with the same potential score, 2.0. *)
Definition tied_batch : DataFrame :=
  mkDataFrame ["video_id"; "views"; "duration_s"]
    [ record "a" [("views", 100); ("duration_s", 50)];
      record "b" [("views", 200); ("duration_s", 100)] ].


(** A batch whose average view durations are not integers: one is a float,
    one is missing. *)
Definition float_batch : DataFrame :=
  mkDataFrame ["video_id"; "views"; "duration_s"; "avgViewDuration"]
    [ <["avgViewDuration" := Float 40.5]>
        (record "a" [("views", 1000); ("duration_s", 120)]);
      <["avgViewDuration" := PyNone]>
        (record "b" [("views", 2000); ("duration_s", 100)]);
      record "c" [("views", 10); ("duration_s", 100); ("avgViewDuration", 200)] ].



End RankerExamples.

(** ** src/yt_fetch.py: the duration parser *)

Module YtFetch.
Import Py.

Section ParseDuration.

(** [isodate.parse_duration(d).total_seconds()]: the third-party parser and
    the standard library's [total_seconds] yield a float, or raise. *)
Variable isodate_total_seconds : string -> outcome float.

(** [d] is a text or [None]; both [None] and the empty text are falsy. *)
Definition parse_iso8601_duration (d : option string) : outcome (option Z) :=
  match d with
  | None | Some EmptyString => Value None
  | Some text =>
      try_except
        (seconds ← isodate_total_seconds text;
         n ← int_of_float seconds;
         mret (Some n))
        (Value None)
  end.

End ParseDuration.

(** A stand-in for the library on one text, to run the parser. *)
Definition ten_minutes_only (d : string) : outcome float :=
  if String.eqb d "PT10M" then Value 600%float else Raises LibraryError.

(** The library on two texts: it reads a leading sign, and [-PT5S] is the
    [timedelta] of minus five seconds. *)
Definition signed_durations (d : string) : outcome float :=
  if String.eqb d "-PT5S" then Value (-5)%float
  else if String.eqb d "PT5S" then Value 5%float
  else Raises LibraryError.

End YtFetch.

(** ** src/recommender.py: clustering *)

Module Recommender.
Import Py Pandas.
Local Open Scope string_scope.

(** Python objects live in a store; a variable holds a reference. *)
Definition ref : Type := positive.

(** [series.fillna(value)] on a text column. *)
Definition fillna (value : string) (a : cell) : cell :=
  match a with
  | PyNone => Str value
  | Float f => if PrimFloat.is_nan f then Str value else a
  | _ => a
  end.

(** [a + b] on the cells of text columns; a missing cell gives a missing cell. *)
Definition str_add (a b : cell) : outcome cell :=
  match a, b with
  | Str x, Str y => Value (Str (x ++ y))
  | PyNone, (Str _ | PyNone) | Str _, PyNone => Value PyNone
  | _, _ => Raises TypeError
  end.

(** Line 13: [(df['title'].fillna("") + " " + df.get('description', ...)).tolist()] *)
Definition texts_of (df : DataFrame) : outcome (list cell) :=
  title ← getitem df "title";
  spaced ← mapM (fun t => str_add t (Str " ")) (fillna "" <$> title);
  let description :=
    if has_column "description" df then at_column "description" <$> rows df
    else replicate (length (rows df)) (Str "") in
  series_binop str_add spaced description.

Section ClusterVideos.

(** The two calls into third-party code: [embed_model.encode(texts,
    convert_to_numpy=True)] and
    [AgglomerativeClustering(n_clusters=n).fit(embs).labels_]. *)
Variable embeddings : Type.
Variable encode : list cell -> outcome embeddings.
Variable fit_labels : Z -> embeddings -> outcome (list Z).

(** [cluster_videos(df, n_clusters)], where [df] is a reference into the
    store.  The assignment of line 18 is the only write; an exception raised
    before it leaves the store as it was. *)
Definition cluster_videos (df : ref) (n_clusters : Z) (store : gmap ref DataFrame)
    : outcome (ref * gmap ref DataFrame) :=
  match store !! df with
  | None => Raises TypeError
  | Some frame =>
      texts ← texts_of frame;
      embs ← encode texts;
      let n_clusters := Z.min n_clusters (len_df frame) in
      labels ← fit_labels n_clusters embs;
      frame' ← setitem frame "cluster" (Int <$> labels);
      mret (df, <[df := frame']> store)
  end.

End ClusterVideos.

(** Stand-ins for the two library calls, to run [cluster_videos]: the
    embedding is the text itself, and every video gets label 0. *)
Definition identity_encode (texts : list cell) : outcome (list cell) := Value texts.
Definition one_cluster (n : Z) (embs : list cell) : outcome (list Z) :=
  if (n <? 1)%Z then Raises ValueError else Value (replicate (length embs) 0%Z).

(** Another stand-in for the clustering: the videos are labelled 0, 1, 2, ...
    in turn, each label below the number of clusters asked for. *)
Definition numbered_clusters (n : Z) (embs : list cell) : outcome (list Z) :=
  if (n <? 1)%Z then Raises ValueError
  else Value ((fun i => i mod n) <$> seqZ 0 (Z.of_nat (length embs))).

Definition two_videos : DataFrame :=
  mkDataFrame ["video_id"; "title"; "views"]
    [ {[ "video_id" := Str "a"; "title" := Str "Intro"; "views" := Int 10 ]};
      {[ "video_id" := Str "b"; "title" := Str "Outro"; "views" := Int 20 ]} ].

End Recommender.

(** ** src/yt_fetch.py: the duration display *)

From Stdlib Require Import Ascii.
From stdpp Require Import pretty.
Local Open Scope Z_scope.

Module YtFetchFormat.
Import Py.

(** [f"{n:02d}"]: the decimal digits of [n], zero-filled to two characters
    (the sign of a negative number counts as one of them). *)
Definition format_02d (n : Z) : string :=
  let digits := pretty n in
  if (String.length digits <? 2)%nat then ("0" ++ digits)%string else digits.

(** [seconds] is an [int] or [None]; [not seconds] holds for [None] and 0.
    [//] and [%] are Python's floor division and remainder. *)
Definition format_duration (seconds : option Z) : string :=
  match seconds with
  | None => "0:00"%string
  | Some seconds =>
      if seconds =? 0 then "0:00"%string
      else
        let hours := seconds / 3600 in
        let minutes := (seconds mod 3600) / 60 in
        let secs := seconds mod 60 in
        if 0 <? hours then
          (pretty hours ++ ":" ++ format_02d minutes ++ ":" ++ format_02d secs)%string
        else (pretty minutes ++ ":" ++ format_02d secs)%string
  end.

(** Lines 66-68 of [fetch_video_by_url]: the two duration fields of the
    fetched record, from the API's [duration] text ([None] when absent).
    [duration_s] is an [int], or [None] when the text does not parse. *)
Section FetchDuration.

Variable isodate_total_seconds : string -> outcome float.

Definition fetch_duration_fields (duration_iso : option string)
    : outcome (option Z * string) :=
  duration_seconds ←
    match duration_iso with
    | None | Some EmptyString => Value (Some 0)
    | Some _ => YtFetch.parse_iso8601_duration isodate_total_seconds duration_iso
    end;
  let duration_formatted := format_duration duration_seconds in
  mret (duration_seconds, duration_formatted).

End FetchDuration.

(** [f"https://www.youtube.com/watch?v={video_id}"] (line 82). *)
Definition video_url (video_id : string) : string :=
  ("https://www.youtube.com/watch?v=" ++ video_id)%string.

(** The number of [":"] in a text (used to tell [H:MM:SS] from [M:SS]). *)
Fixpoint colons (s : string) : nat :=
  match s with
  | EmptyString => 0%nat
  | String c rest => ((if Ascii.eqb c ":"%char then 1 else 0) + colons rest)%nat
  end.

End YtFetchFormat.

(** ** src/dashboard.py: the video id of a URL *)

Module Dashboard.
Import Py.

(** The character class [[^&\n?#]]. *)
Definition id_char (c : ascii) : bool :=
  negb (Ascii.eqb c "&" || Ascii.eqb c "010" || Ascii.eqb c "?" || Ascii.eqb c "#")%char.

(** [[^&\n?#]+], greedy: the longest run of class characters at the head. *)
Fixpoint id_run (s : string) : string :=
  match s with
  | EmptyString => EmptyString
  | String c rest => if id_char c then String c (id_run rest) else EmptyString
  end.

(** What is left of [s] after the literal [p], when [s] starts with it. *)
Fixpoint strip_prefix (p s : string) : option string :=
  match p, s with
  | EmptyString, _ => Some s
  | String a p', String b s' => if Ascii.eqb a b then strip_prefix p' s' else None
  | String _ _, EmptyString => None
  end.

(** [(?:p1|p2|...)([^&\n?#]+)] matched at the head of [s]: the alternatives
    are tried in order, and the group must take at least one character. *)
Fixpoint match_here (alternatives : list string) (s : string) : option string :=
  match alternatives with
  | [] => None
  | p :: others =>
      match strip_prefix p s with
      | Some rest =>
          match id_run rest with
          | EmptyString => match_here others s
          | group => Some group
          end
      | None => match_here others s
      end
  end.

(** [re.search(pattern, s).group(1)]: the match at the leftmost position
    that has one, [None] when no position has. *)
Fixpoint re_search (alternatives : list string) (s : string) : option string :=
  match match_here alternatives s with
  | Some group => Some group
  | None =>
      match s with
      | EmptyString => None
      | String _ rest => re_search alternatives rest
      end
  end.

(** The literal alternatives of the two patterns of [extract_video_id]. *)
Definition patterns : list (list string) :=
  [ ["youtube.com/watch?v="; "youtu.be/"; "youtube.com/embed/"]%string;
    ["youtube.com/v/"]%string ].

Definition extract_video_id (url : string) : option string :=
  (fix loop (patterns : list (list string)) : option string :=
     match patterns with
     | [] => None
     | pattern :: later =>
         match re_search pattern url with
         | Some group => Some group
         | None => loop later
         end
     end) patterns.

End Dashboard.

(** ** src/analytics.py: the suggestions of the single-video analysis *)

Module AnalyticsSuggestions.
Import Py Analytics.

(** The message literals of [generate_suggestions], in source order. *)
Definition LONGER_CONTENT : string :=
  "Consider making longer, more detailed content. Videos under 2 minutes often have lower watch time retention.".
Definition QUITE_LONG : string :=
  "Your video is quite long (30+ minutes). Consider breaking it into a series or adding chapter markers to improve retention.".
Definition SHORT_VIDEO : string :=
  "Short videos (under 5 minutes) can perform well if they're engaging. Focus on delivering value quickly.".
Definition GOOD_LENGTH : string :=
  "Your video length is in a good range. Focus on maintaining viewer engagement throughout.".
Definition LOW_ENGAGEMENT : string :=
  "Low engagement detected. Consider improving your hook in the first 15 seconds to capture attention immediately.".
Definition GREAT_ENGAGEMENT : string :=
  "Great engagement rate! Your content resonates well with viewers.".
Definition TITLE_LONG : string :=
  "Your title is quite long. Consider making it more concise while keeping key keywords (under 60 characters).".
Definition TITLE_SHORT : string :=
  "Your title might be too short. Consider adding more descriptive keywords to improve discoverability.".
Definition CHAPTER_MARKERS : string :=
  "Add chapter markers or timestamps to help viewers navigate to specific sections they're interested in.".
Definition PATTERN_INTERRUPTS : string :=
  "Consider adding pattern interrupts every 2-3 minutes to maintain attention.".
Definition AUDIENCE_RETENTION : string :=
  "Focus on building audience retention. Ask questions or create curiosity gaps to encourage continued viewing.".
Definition THUMBNAIL_AND_TITLE : string :=
  "Ensure your thumbnail and title work together to create a compelling promise that the video delivers on.".

(** [generate_suggestions]; [duration] and [views] are passed by the caller
    beside the record, of which only the title is read. *)
Definition generate_suggestions (video_data : VideoData) (engagement_rate : float)
    (duration views : Z) : list string :=
  let suggestions : list string := [] in
  (* Duration-based suggestions *)
  let suggestions :=
    if duration <? 120 then suggestions ++ [LONGER_CONTENT]
    else if 1800 <? duration then suggestions ++ [QUITE_LONG]
    else if duration <? 300 then suggestions ++ [SHORT_VIDEO]
    else suggestions ++ [GOOD_LENGTH] in
  (* Engagement-based suggestions *)
  let suggestions :=
    if (engagement_rate <? 0.01)%float then suggestions ++ [LOW_ENGAGEMENT]
    else if (0.05 <? engagement_rate)%float then suggestions ++ [GREAT_ENGAGEMENT]
    else suggestions in
  (* Title and description suggestions *)
  let title := get (title video_data) EmptyString in
  let suggestions :=
    if 60 <? len title then suggestions ++ [TITLE_LONG]
    else if len title <? 20 then suggestions ++ [TITLE_SHORT]
    else suggestions in
  (* Content structure suggestions *)
  let suggestions :=
    if 600 <? duration then (suggestions ++ [CHAPTER_MARKERS]) ++ [PATTERN_INTERRUPTS]
    else suggestions in
  (* Call-to-action suggestions *)
  let suggestions :=
    if views <? 1000 then suggestions ++ [AUDIENCE_RETENTION]
    else suggestions in
  (* Technical suggestions *)
  suggestions ++ [THUMBNAIL_AND_TITLE].

End AnalyticsSuggestions.

(** ** src/recommender.py: one playlist per cluster *)

Module RecommenderPlaylists.
Import Py Pandas.

(** [a == b] on two cells, as the element-wise comparison of a column with a
    value takes it: numbers by value (NaN equals nothing), text by content, a
    missing cell equals nothing. *)
Definition cell_eqb (a b : cell) : bool :=
  match a, b with
  | Int x, Int y => x =? y
  | Int x, Float y => (float_of_int x =? y)%float
  | Float x, Int y => (x =? float_of_int y)%float
  | Float x, Float y => (x =? y)%float
  | Str x, Str y => String.eqb x y
  | _, _ => false
  end.

(** Two cells that [unique] keeps one of: equal cells, two NaN, two [None]. *)
Definition same_value (a b : cell) : bool :=
  cell_eqb a b
  || match a, b with
     | PyNone, PyNone => true
     | Float x, Float y => PrimFloat.is_nan x && PrimFloat.is_nan y
     | _, _ => false
     end.

(** [series.unique()]: the distinct values, in order of first appearance. *)
Definition unique (series : list cell) : list cell :=
  foldl (fun seen x => if existsb (same_value x) seen then seen else seen ++ [x])
        [] series.

(** [df[mask]] with a boolean series: the rows whose mask is [True]. *)
Definition boolean_index (df : DataFrame) (mask : list bool) : DataFrame :=
  {| columns := columns df;
     rows := fst <$> List.filter snd (zip (rows df) mask) |}.

(** [df.head(n)]: the first [n] rows; for a negative [n], all but the last
    [-n] rows. *)
Definition head (n : Z) (df : DataFrame) : DataFrame :=
  {| columns := columns df;
     rows := if 0 <=? n then take (Z.to_nat n) (rows df)
             else take (length (rows df) - Z.to_nat (- n)) (rows df) |}.

(** [d[key] = value] on a [dict], which keeps its keys in insertion order: an
    existing key keeps its place and takes the new value. *)
Fixpoint dict_setitem {V} (d : list (string * V)) (key : string) (value : V)
    : list (string * V) :=
  match d with
  | [] => [(key, value)]
  | (k, v) :: rest =>
      if String.eqb k key then (k, value) :: rest
      else (k, v) :: dict_setitem rest key value
  end.

Section SuggestPlaylists.

(** The library calls: [DataFrame.sort_values(by, ascending)], and the text
    Python prints a float as. *)
Variable sort_values : string -> bool -> DataFrame -> outcome DataFrame.
Variable format_float : float -> string.

(** [f"{c}"] on a label. *)
Definition format_label (c : cell) : string :=
  match c with
  | Int z => pretty z
  | Float f => format_float f
  | Str s => s
  | PyNone => "None"%string
  end.

(** The body of the [for] loop of lines 23-25, over the labels still to do. *)
Fixpoint suggest_playlists_loop (df : DataFrame) (topk_per_cluster : Z)
    (labels : list cell) (playlists : list (string * list cell))
    : outcome (list (string * list cell)) :=
  match labels with
  | [] => Value playlists
  | c :: later =>
      cluster ← getitem df "cluster";
      let selected := boolean_index df ((fun x => cell_eqb x c) <$> cluster) in
      sorted ← sort_values "views" false selected;
      let top := head topk_per_cluster sorted in
      video_ids ← getitem top "video_id";
      suggest_playlists_loop df topk_per_cluster later
        (dict_setitem playlists ("cluster_" ++ format_label c)%string video_ids)
  end.

Definition suggest_playlists (df : DataFrame) (topk_per_cluster : Z)
    : outcome (list (string * list cell)) :=
  let playlists : list (string * list cell) := [] in
  cluster ← getitem df "cluster";
  suggest_playlists_loop df topk_per_cluster (unique cluster) playlists.

End SuggestPlaylists.

(** A float printer to run [suggest_playlists] on frames without float labels. *)
Definition no_float_labels (f : float) : string := "nan"%string.

(** Four videos in two clusters. *)
Definition clustered_videos : DataFrame :=
  mkDataFrame ["video_id"; "views"; "cluster"]%string
    [ {[ "video_id" := Str "a"; "views" := Int 10; "cluster" := Int 1 ]};
      {[ "video_id" := Str "b"; "views" := Int 30; "cluster" := Int 0 ]};
      {[ "video_id" := Str "c"; "views" := Int 20; "cluster" := Int 1 ]};
      {[ "video_id" := Str "d"; "views" := Int 5; "cluster" := Int 1 ]} ]%string.

(** [Recommender.two_videos] once [cluster_videos] has given both videos
    the label 0. *)
Definition two_videos_clustered : DataFrame :=
  mkDataFrame ["video_id"; "title"; "views"; "cluster"]%string
    [ {[ "video_id" := Str "a"; "title" := Str "Intro"; "views" := Int 10;
         "cluster" := Int 0 ]};
      {[ "video_id" := Str "b"; "title" := Str "Outro"; "views" := Int 20;
         "cluster" := Int 0 ]} ]%string.

End RecommenderPlaylists.

(** What the playlist of the cluster labelled [z] has to be: its key, and the
    ids of the first [topk] of the cluster's rows, ranked by views. *)
Module PlaylistSpec.
Import Py Pandas RecommenderPlaylists.

Definition in_cluster (z : Z) (r : gmap string cell) : bool :=
  cell_eqb (at_column "cluster" r) (Int z).

Definition playlist_for (df : DataFrame) (topk : Z) (z : Z)
    (entry : string * list cell) : Prop :=
  entry.1 = ("cluster_" ++ pretty z)%string
  /\ exists ranked : DataFrame,
       rows ranked ≡ₚ List.filter (in_cluster z) (rows df)
       /\ descending_by "views" (rows ranked)
       /\ entry.2 = at_column "video_id" <$> rows (head topk ranked).

End PlaylistSpec.

(** ** src/recommender.py: the advice for a single video *)

Module RecommenderAdvice.
Import Py.

(** The [video_data] dict, restricted to the keys the advice reads; [None]
    is an absent key.  The value at [duration_s] is an [int] or Python's
    [None], which [fetch_video_by_url] stores for a duration text that does
    not parse: [Some None] is the key present and holding [None].  Text holds
    one [ascii] per character (Latin-1). *)
Record VideoData : Type := mkVideoData {
  title : option string;
  description : option string;
  duration_s : option (option Z);
  tags : option (list string);
  views : option Z;
  published_at_raw : option string;
  category_id : option string
}.

(** The [analysis_data] dict, of which only [engagement_rate] is read: the
    rate in percent. *)
Record AnalysisData : Type := mkAnalysisData {
  engagement_rate : option float
}.

(** What [datetime.fromisoformat] yields, as far as it is read. *)
Record datetime : Type := mkdatetime {
  weekday : Z;
  hour : Z
}.

(** The dict that [get_optimization_suggestions] returns: its five keys. *)
Record Suggestions : Type := mkSuggestions {
  content_strategy : list string;
  technical_optimization : list string;
  engagement_tactics : list string;
  competitive_insights : list string;
  posting_strategy : list string
}.

(** [a < b] and [a > b] where [a] is an [int] or [None] and [b] an [int]:
    Python 3 does not order [None] and raises [TypeError]. *)
Definition int_lt (a : option Z) (b : Z) : outcome bool :=
  match a with
  | Some a => Value (a <? b)
  | None => Raises TypeError
  end.

Definition int_gt (a : option Z) (b : Z) : outcome bool :=
  match a with
  | Some a => Value (b <? a)
  | None => Raises TypeError
  end.

(** [str.lower()] on one character. *)
Definition lower_char (c : ascii) : ascii :=
  let n := N_of_ascii c in
  if ((65 <=? n) && (n <=? 90) || (192 <=? n) && (n <=? 222) && negb (n =? 215))%N
  then ascii_of_N (n + 32) else c.

Fixpoint lower (s : string) : string :=
  match s with
  | EmptyString => EmptyString
  | String c rest => String (lower_char c) (lower rest)
  end.

(** [keyword in text] on two [str]. *)
Fixpoint contains (keyword text : string) : bool :=
  match text with
  | EmptyString => String.prefix keyword text
  | String _ rest => String.prefix keyword text || contains keyword rest
  end.

(** The characters [str.split()] splits at. *)
Definition is_space (c : ascii) : bool :=
  let n := N_of_ascii c in
  ((9 <=? n) && (n <=? 13) || (28 <=? n) && (n <=? 32) || (n =? 133) || (n =? 160))%N.

(** [len(text.split())]: the number of maximal runs without a space. *)
Fixpoint count_words (in_word : bool) (text : string) : Z :=
  match text with
  | EmptyString => 0
  | String c rest =>
      if is_space c then count_words false rest
      else (if in_word then 0 else 1) + count_words true rest
  end.

(** [text.replace('Z', '+00:00')] *)
Fixpoint replace_Z (text : string) : string :=
  match text with
  | EmptyString => EmptyString
  | String c rest =>
      if Ascii.eqb c "Z"%char then ("+00:00" ++ replace_Z rest)%string
      else String c (replace_Z rest)
  end.

(** The message literals, in source order. *)
Definition ACTION_KEYWORDS : string :=
  "Consider adding action-oriented keywords like 'How to', 'Tutorial', 'Tips', or 'Guide' to improve searchability.".
Definition DESCRIPTIVE_TITLE : string :=
  "Your title could be more descriptive. Add specific details about what viewers will learn or gain.".
Definition SHORT_DESCRIPTION : string :=
  "Your video description is quite short. YouTube descriptions should be 150-300 words for better SEO.".
Definition ADD_TIMESTAMPS : string :=
  "Add timestamps, key points, and relevant keywords to your description.".
Definition MORE_TAGS : string :=
  "Consider adding more relevant tags (10-15 tags) to improve discoverability across different search queries.".
Definition SHORT_FOCUS : string :=
  "For short videos, focus on one specific value proposition. Deliver it quickly and clearly.".
Definition LONG_FORM : string :=
  "Long-form content works well if it maintains engagement. Consider breaking into chapters or series.".

Definition AUDIO_QUALITY : string :=
  "Focus on improving audio quality first - it's often more important than video quality for retention.".
Definition LIGHTING : string :=
  "Ensure good lighting and clear visuals, especially in the first 15 seconds.".
Definition PATTERN_INTERRUPTS : string :=
  "Add pattern interrupts every 2-3 minutes: graphics, questions, or topic changes to maintain attention.".
Definition VISUAL_CUES : string :=
  "Include visual cues and on-screen text to help viewers follow along.".
Definition WEEKDAY_UPLOADS : string :=
  "Consider testing weekday uploads as well - many channels perform better Tuesday-Thursday.".
Definition UPLOAD_TIME : string :=
  "Your upload time might not be optimal. Test posting during peak hours for your audience.".

Definition OPENING_HOOK : string :=
  "Strengthen your opening hook. The first 15 seconds determine if viewers stay or leave.".
Definition PROMISE_VALUE : string :=
  "Promise specific value in the first 30 seconds: 'By the end of this video, you'll know exactly how to...'".
Definition MID_VIDEO_CTA : string :=
  "Add mid-video call-to-actions: 'If this is helpful, hit the like button' to boost engagement signals.".
Definition ASK_QUESTIONS : string :=
  "Ask specific questions in the comments to encourage discussion.".
Definition LOW_ENGAGEMENT : string :=
  "Low engagement detected. Try adding more interactive elements: polls, questions, or challenges.".
Definition CREATE_DEBATE : string :=
  "Create controversy or debate to encourage comments (while staying within YouTube guidelines).".
Definition GREAT_ENGAGEMENT : string :=
  "Great engagement! Consider creating follow-up content based on viewer feedback and questions.".

Definition category_suggestions : list (string * string) :=
  [ ("1", "Film & Animation: Focus on trending topics and seasonal content for better discoverability.");
    ("2", "Autos & Vehicles: Create comparison videos and 'vs' content for high engagement.");
    ("10", "Music: Consider lyric videos, covers, or music production tutorials.");
    ("15", "Pets & Animals: Create heartwarming or funny compilations with storytelling elements.");
    ("17", "Sports: Focus on highlights, analysis, and prediction content.");
    ("19", "Travel & Events: Use location-based keywords and seasonal content strategies.");
    ("20", "Gaming: Stream highlights, create tutorials, or review new games.");
    ("22", "People & Blogs: Focus on storytelling and personal experiences.");
    ("23", "Comedy: Create trending comedy formats and collaborate with other creators.");
    ("24", "Entertainment: Stay current with pop culture and entertainment news.");
    ("25", "News & Politics: Focus on timely, accurate reporting with clear sources.");
    ("26", "Howto & Style: Create step-by-step tutorials and before/after content.");
    ("27", "Education: Use clear explanations with visual aids and examples.");
    ("28", "Science & Technology: Focus on explaining complex topics in simple terms.") ]%string.
Definition RESEARCH_TOP_VIDEOS : string :=
  "Research top-performing videos in your niche and analyze their structure and hooks.".
Definition COLLABORATE : string :=
  "Consider collaborating with creators in your field to cross-promote and gain new audiences.".

Definition CONSISTENCY : string :=
  "Focus on consistency over frequency. Upload regularly (weekly or bi-weekly) to build audience expectation.".
Definition PROMOTE_SOCIAL : string :=
  "Promote your videos on social media platforms to drive initial views.".
Definition SHARE_COMMUNITIES : string :=
  "Share your video on relevant Reddit communities, Facebook groups, and Discord servers.".
Definition SHORT_CLIPS : string :=
  "Create short clips or teasers for TikTok/Instagram Reels to drive traffic to the full video.".
Definition RESPOND_COMMENTS : string :=
  "Respond to comments within the first few hours to boost engagement and algorithmic performance.".
Definition COMMUNITY_POSTS : string :=
  "Create community posts to keep your audience engaged between video uploads.".
Definition SEARCH_SUGGESTIONS : string :=
  "Use YouTube's search suggestions to optimize your title and description for better discoverability.".
Definition CUSTOM_THUMBNAILS : string :=
  "Create custom thumbnails that create curiosity gaps - show something that makes people want to click.".

Definition generate_content_strategy_suggestions (video_data : VideoData)
    : outcome (list string) :=
  let suggestions : list string := [] in
  let title := get (title video_data) EmptyString in
  let description := get (description video_data) EmptyString in
  let duration := get (duration_s video_data) (Some 0) in
  let tags := get (tags video_data) [] in
  (* Title optimization *)
  let suggestions :=
    if negb (existsb (fun keyword => contains keyword (lower title))
               ["how to"; "tutorial"; "guide"; "tips"; "review"]%string)
    then suggestions ++ [ACTION_KEYWORDS] else suggestions in
  let suggestions :=
    if count_words false title <? 5 then suggestions ++ [DESCRIPTIVE_TITLE]
    else suggestions in
  (* Description analysis *)
  let suggestions :=
    if len description <? 100 then (suggestions ++ [SHORT_DESCRIPTION]) ++ [ADD_TIMESTAMPS]
    else suggestions in
  (* Tags analysis *)
  let suggestions :=
    if Z.of_nat (length tags) <? 5 then suggestions ++ [MORE_TAGS] else suggestions in
  (* Duration-specific content suggestions *)
  short ← int_lt duration 300;
  if (short : bool) then mret (suggestions ++ [SHORT_FOCUS])
  else
    long ← int_gt duration 1200;
    if (long : bool) then mret (suggestions ++ [LONG_FORM])
    else mret suggestions.

Section TechnicalSuggestions.

(** [datetime.fromisoformat], the one library call. *)
Variable fromisoformat : string -> outcome datetime.

Definition generate_technical_suggestions (video_data : VideoData)
    : outcome (list string) :=
  let suggestions : list string := [] in
  let duration := get (duration_s video_data) (Some 0) in
  let views := get (views video_data) 0 in
  let published_at := get (published_at_raw video_data) EmptyString in
  (* Audio/Visual quality indicators *)
  let suggestions :=
    if views <? 1000 then (suggestions ++ [AUDIO_QUALITY]) ++ [LIGHTING]
    else suggestions in
  (* Engagement timing *)
  long ← int_gt duration 600;
  let suggestions :=
    if (long : bool) then (suggestions ++ [PATTERN_INTERRUPTS]) ++ [VISUAL_CUES]
    else suggestions in
  (* Upload timing analysis *)
  suggestions ←
    match published_at with
    | EmptyString => Value suggestions
    | _ =>
        try_except
          (pub_date ← fromisoformat (replace_Z published_at);
           let day_of_week := weekday pub_date in
           let hour := hour pub_date in
           let suggestions :=
             if (day_of_week =? 5) || (day_of_week =? 6)
             then suggestions ++ [WEEKDAY_UPLOADS] else suggestions in
           let suggestions :=
             if (0 <=? hour) && (hour <=? 6) || (22 <=? hour)
             then suggestions ++ [UPLOAD_TIME] else suggestions in
           mret suggestions)
          (Value suggestions)
    end;
  mret suggestions.

End TechnicalSuggestions.

Definition generate_engagement_tactics (video_data : VideoData)
    (analysis_data : option AnalysisData) : outcome (list string) :=
  let suggestions : list string := [] in
  let engagement_rate :=
    match analysis_data with
    | Some analysis_data => get (engagement_rate analysis_data) 0%float
    | None => 0%float
    end in
  let duration := get (duration_s video_data) (Some 0) in
  let views := get (views video_data) 0 in
  (* Hook optimization *)
  long ← int_gt duration 300;
  let suggestions :=
    if (long : bool) then (suggestions ++ [OPENING_HOOK]) ++ [PROMISE_VALUE]
    else suggestions in
  (* Call-to-action optimization *)
  let suggestions :=
    if 1000 <? views then (suggestions ++ [MID_VIDEO_CTA]) ++ [ASK_QUESTIONS]
    else suggestions in
  (* Engagement rate based suggestions *)
  mret (if (engagement_rate <? 2)%float
        then (suggestions ++ [LOW_ENGAGEMENT]) ++ [CREATE_DEBATE]
        else if (5 <? engagement_rate)%float then suggestions ++ [GREAT_ENGAGEMENT]
        else suggestions).

(** [d[key]] and [key in d] on the category table. *)
Fixpoint dict_lookup (d : list (string * string)) (key : string) : option string :=
  match d with
  | [] => None
  | (k, v) :: rest => if String.eqb k key then Some v else dict_lookup rest key
  end.

Definition generate_competitive_insights (video_data : VideoData) : list string :=
  let suggestions : list string := [] in
  let category_id := get (category_id video_data) EmptyString in
  let suggestions :=
    match dict_lookup category_suggestions category_id with
    | Some insight => suggestions ++ [insight]
    | None => suggestions
    end in
  (suggestions ++ [RESEARCH_TOP_VIDEOS]) ++ [COLLABORATE].

Definition generate_posting_strategy_suggestions (video_data : VideoData) : list string :=
  let suggestions : list string := [] in
  let views := get (views video_data) 0 in
  (* Upload frequency suggestions *)
  let suggestions :=
    if views <? 500 then (suggestions ++ [CONSISTENCY]) ++ [PROMOTE_SOCIAL]
    else suggestions in
  (* Cross-platform promotion *)
  let suggestions := (suggestions ++ [SHARE_COMMUNITIES]) ++ [SHORT_CLIPS] in
  (* Community building *)
  let suggestions :=
    if 1000 <? views then (suggestions ++ [RESPOND_COMMENTS]) ++ [COMMUNITY_POSTS]
    else suggestions in
  (* SEO optimization *)
  (suggestions ++ [SEARCH_SUGGESTIONS]) ++ [CUSTOM_THUMBNAILS].

Section GetOptimizationSuggestions.

Variable fromisoformat : string -> outcome datetime.

Definition get_optimization_suggestions (video_data : VideoData)
    (analysis_data : option AnalysisData) : outcome Suggestions :=
  content ← generate_content_strategy_suggestions video_data;
  technical ← generate_technical_suggestions fromisoformat video_data;
  engagement ← generate_engagement_tactics video_data analysis_data;
  let competitive := generate_competitive_insights video_data in
  let posting := generate_posting_strategy_suggestions video_data in
  mret {| content_strategy := content;
          technical_optimization := technical;
          engagement_tactics := engagement;
          competitive_insights := competitive;
          posting_strategy := posting |}.

End GetOptimizationSuggestions.

(** Two stand-ins for the library call: one that reads nothing, and one that
    places every timestamp on a Saturday at 23 h. *)
Definition rejects_everything (text : string) : outcome datetime := Raises ValueError.
Definition saturday_night (text : string) : outcome datetime :=
  Value {| weekday := 5; hour := 23 |}.

(** The record [fetch_video_by_url] builds, as far as the advice reads it:
    [duration_seconds] is what lines 66-67 computed, [None] for a duration
    text that does not parse.  The record has no [tags] and no [category_id]
    key. *)
Definition fetched_video_data (title description published_at : string) (views : Z)
    (duration_seconds : option Z) : VideoData :=
  {| title := Some title;
     description := Some description;
     duration_s := Some duration_seconds;
     tags := None;
     views := Some views;
     published_at_raw := Some published_at;
     category_id := None |}.

End RecommenderAdvice.

(** ** src/yt_fetch.py: the requests of [fetch_videos] *)

Module YtFetchChunks.
Import Py.

(** [range(start, stop, step)] for a positive [step]. *)
Definition range (start stop step : Z) : list Z :=
  (fun k => start + step * k) <$> seqZ 0 (Z.max 0 ((stop - start + step - 1) / step)).

(** [l[i:j]] for [0 <= i <= j]: the bounds are cut at the end of the list. *)
Definition slice {A} (l : list A) (i j : Z) : list A :=
  take (Z.to_nat (j - i)) (drop (Z.to_nat i) l).

(** [",".join(chunk)] *)
Fixpoint join (separator : string) (parts : list string) : string :=
  match parts with
  | [] => EmptyString
  | [part] => part
  | part :: later => (part ++ separator ++ join separator later)%string
  end.

(** Lines 24-26 of [fetch_videos]: the chunk of each pass of the loop, and
    the [id] parameter of its request. *)
Definition fetch_videos_chunks (video_ids : list string) : list (list string) :=
  (fun i => slice video_ids i (i + 50)) <$> range 0 (Z.of_nat (length video_ids)) 50.

Definition fetch_videos_requests (video_ids : list string) : list string :=
  join "," <$> fetch_videos_chunks video_ids.

End YtFetchChunks.

(** ** src/dashboard.py: the two advice sections *)

Module DashboardDisplay.
Import Py.

(** The Streamlit calls the sections make. *)
Inductive widget : Type :=
| markdown (body : string)
| info (body : string).

(** Lines 105-110: the numbered suggestions, or a notice when there are none. *)
Definition display_suggestions (suggestions : option (list string)) : list widget :=
  let suggestions := get suggestions [] in
  match suggestions with
  | [] => [info "No specific suggestions available for this video."]
  | _ :: _ =>
      imap (fun i suggestion =>
              markdown (pretty (Z.of_nat i + 1) ++ ". " ++ suggestion)%string)
           suggestions
  end.

(** Lines 113-118: the action items as bullets, or a notice when there are none. *)
Definition display_action_items (action_items : option (list string)) : list widget :=
  let action_items := get action_items [] in
  match action_items with
  | [] => [info "Video is well optimized for watch time."]
  | _ :: _ => (fun item => markdown ("• " ++ item)%string) <$> action_items
  end.

End DashboardDisplay.

(** ** Facts about the runtime fragment *)

Module PyFacts.
Import Py.

Lemma bind_Value {A B} (a : A) (k : A -> outcome B) : (Value a ≫= k) = k a.
Proof. reflexivity. Qed.

End PyFacts.

(** ** Facts about binary64 comparison *)

Module FloatFacts.

(** The three engagement thresholds as binary64 values: each literal is the
    double nearest to the decimal written in the source. *)
Lemma threshold_005 : Prim2SF 0.005%float = S754_finite false 5764607523034235 (-60).
Proof. vm_compute. reflexivity. Qed.

Lemma threshold_02 : Prim2SF 0.02%float = S754_finite false 5764607523034235 (-58).
Proof. vm_compute. reflexivity. Qed.

Lemma threshold_05 : Prim2SF 0.05%float = S754_finite false 7205759403792794 (-57).
Proof. vm_compute. reflexivity. Qed.

(** Anything strictly below a finite positive value of exponent [e1] is not
    strictly above a finite positive value of a larger exponent. *)
Lemma SFltb_below_not_above (x : spec_float) (m1 m2 : positive) (e1 e2 : Z) :
  e1 < e2 ->
  SFltb x (S754_finite false m1 e1) = true ->
  SFltb (S754_finite false m2 e2) x = false.
Proof.
  intros He Hlt.
  destruct x as [s | s | | s m e]; try (destruct s); cbn in *; try reflexivity; try discriminate.
  destruct (Z.compare_spec e e1) as [-> | Hlt' | Hgt]; try discriminate.
  - rewrite (proj2 (Z.compare_gt_iff e2 e1)) by lia. reflexivity.
  - rewrite (proj2 (Z.compare_gt_iff e2 e)) by lia. reflexivity.
Qed.

(** A rate below 0.005 is neither above 0.02 nor above 0.05. *)
Lemma below_0005_not_above (x : float) :
  (x <? 0.005)%float = true ->
  (0.02 <? x)%float = false /\ (0.05 <? x)%float = false.
Proof.
  rewrite !ltb_spec, threshold_005, threshold_02, threshold_05.
  intros H; split; eapply SFltb_below_not_above; try exact H; lia.
Qed.

(** *** Integer true division stays in range

    [SFdiv] on two integers rounds the scaled quotient with
    [binary_round_aux]; the lemmas below bound the exponent it reaches. *)

Lemma Zdigits2_log2 (p : positive) : Zdigits2 (Zpos p) = Z.log2 (Zpos p) + 1.
Proof.
  cbn [Zdigits2]. induction p as [p IH | p IH |].
  - cbn [digits2_pos]. rewrite Pos2Z.inj_succ, IH.
    change (Z.pos p~1) with (2 * Z.pos p + 1). rewrite Z.log2_succ_double by lia. lia.
  - cbn [digits2_pos]. rewrite Pos2Z.inj_succ, IH.
    change (Z.pos p~0) with (2 * Z.pos p). rewrite Z.log2_double by lia. lia.
  - reflexivity.
Qed.

Lemma Zdigits2_nonneg (m : Z) : 0 <= Zdigits2 m.
Proof. destruct m; cbn; lia. Qed.

(** For a non-negative [m]: it has at most [k] binary digits iff [m < 2^k]. *)
Lemma Zdigits2_le_iff (m k : Z) : 0 <= m -> 0 <= k -> Zdigits2 m <= k <-> m < 2 ^ k.
Proof.
  intros Hm Hk. destruct m as [|p|p]; [|rewrite Zdigits2_log2|lia].
  - cbn. split; intros _; [apply Z.pow_pos_nonneg|]; lia.
  - rewrite (Z.log2_lt_pow2 (Z.pos p) k) by lia. lia.
Qed.

Lemma Zdigits2_bound (m : Z) : 0 <= m -> m < 2 ^ Zdigits2 m.
Proof. intros H. apply Zdigits2_le_iff; try lia. apply Zdigits2_nonneg. Qed.

Lemma shr_1_m (mrs : shr_record) : 0 <= shr_m mrs -> shr_m (shr_1 mrs) = Z.div2 (shr_m mrs).
Proof.
  destruct mrs as [m r s]. cbn [shr_m shr_1]. intros H.
  destruct m as [|[p|p|]|p]; try reflexivity; lia.
Qed.

Lemma iter_pos_shr_1_m (p : positive) (mrs : shr_record) :
  0 <= shr_m mrs ->
  shr_m (SpecFloat.iter_pos shr_1 p mrs) = Z.shiftr (shr_m mrs) (Zpos p).
Proof.
  revert mrs. induction p as [p IH | p IH |]; intros mrs H; cbn [SpecFloat.iter_pos].
  - assert (H1 : 0 <= shr_m (shr_1 mrs)) by (rewrite shr_1_m by lia; apply Z.div2_nonneg; lia).
    assert (H2 : 0 <= shr_m (SpecFloat.iter_pos shr_1 p (shr_1 mrs)))
      by (rewrite IH by lia; apply Z.shiftr_nonneg; lia).
    rewrite IH, IH, shr_1_m by lia.
    rewrite Z.div2_spec, !Z.shiftr_shiftr by lia. f_equal. lia.
  - assert (H2 : 0 <= shr_m (SpecFloat.iter_pos shr_1 p mrs))
      by (rewrite IH by lia; apply Z.shiftr_nonneg; lia).
    rewrite IH, IH by lia. rewrite Z.shiftr_shiftr by lia. f_equal. lia.
  - rewrite shr_1_m by lia. apply Z.div2_spec.
Qed.

Lemma shr_fexp_spec (m e : Z) (l : location) :
  0 <= m ->
  let '(mrs, e') := shr_fexp prec emax m e l in
  e' = Z.max e (fexp prec emax (Zdigits2 m + e)) /\ shr_m mrs = Z.shiftr m (e' - e).
Proof.
  intros Hm. unfold shr_fexp, shr.
  assert (Hrec : shr_m (shr_record_of_loc m l) = m) by (destruct l as [|[| |]]; reflexivity).
  destruct (fexp prec emax (Zdigits2 m + e) - e) as [|p|p] eqn:Hn.
  - split; [lia|]. rewrite Z.sub_diag, Hrec. reflexivity.
  - split; [lia|]. rewrite iter_pos_shr_1_m by lia. rewrite Hrec. f_equal. lia.
  - split; [lia|]. rewrite Z.sub_diag, Hrec. reflexivity.
Qed.

Lemma round_nearest_even_bounds (m : Z) (l : location) :
  0 <= m -> m <= round_nearest_even m l <= m + 1.
Proof.
  intros H. destruct l as [|[| |]]; cbn; try lia. destruct (Z.even m); lia.
Qed.

Lemma shiftr_lt_pow2 (m d k : Z) :
  0 <= m -> 0 <= k -> k <= d -> m < 2 ^ d -> Z.shiftr m k < 2 ^ (d - k).
Proof.
  intros Hm Hk Hd Hlt. rewrite Z.shiftr_div_pow2 by lia.
  apply Z.div_lt_upper_bound; [apply Z.pow_pos_nonneg; lia|].
  rewrite <- Z.pow_add_r by lia. replace (k + (d - k)) with d by lia. exact Hlt.
Qed.

(** Rounding a non-negative mantissa of magnitude below [2^1023] cannot overflow. *)
Lemma binary_round_aux_no_overflow (sx : bool) (m e : Z) (l : location) :
  0 <= m -> e <= 0 -> Zdigits2 m + e <= 1023 ->
  forall s, binary_round_aux prec emax sx m e l <> S754_infinity s.
Proof.
  intros Hm He Hd s. unfold binary_round_aux.
  pose proof (shr_fexp_spec m e l Hm) as H1.
  destruct (shr_fexp prec emax m e l) as [mrs' e'].
  destruct H1 as [He' Hm'].
  set (m2 := round_nearest_even (shr_m mrs') (loc_of_shr_record mrs')).
  assert (Hm'0 : 0 <= shr_m mrs') by (rewrite Hm'; apply Z.shiftr_nonneg; lia).
  pose proof (round_nearest_even_bounds (shr_m mrs') (loc_of_shr_record mrs') Hm'0) as Hr.
  fold m2 in Hr.
  pose proof (shr_fexp_spec m2 e' loc_Exact ltac:(lia)) as H2.
  destruct (shr_fexp prec emax m2 e' loc_Exact) as [mrs'' e''].
  destruct H2 as [He'' _].
  unfold fexp, emin, prec, emax in *.
  pose proof (Zdigits2_nonneg m) as Hdm.
  assert (Hd2 : Zdigits2 m2 + e' <= 1024).
  { assert (H0 : 0 <= e' - e) by lia.
    destruct (Z.le_gt_cases (e' - e) (Zdigits2 m)) as [Hk | Hk].
    - assert (Hlt : Z.shiftr m (e' - e) < 2 ^ (Zdigits2 m - (e' - e)))
        by (apply shiftr_lt_pow2; try lia; apply Zdigits2_bound; lia).
      assert (Hm2 : m2 < 2 ^ (Zdigits2 m - (e' - e) + 1)).
      { rewrite Z.pow_add_r by lia. change (2 ^ 1) with 2. lia. }
      apply Zdigits2_le_iff in Hm2; lia.
    - assert (Hz : Z.shiftr m (e' - e) = 0).
      { apply Z.shiftr_eq_0; [lia|].
        destruct (Z.eq_dec m 0) as [-> | Hne]; [cbn; lia|].
        assert (m < 2 ^ (e' - e)).
        { eapply Z.lt_le_trans; [apply Zdigits2_bound; lia|].
          apply Z.pow_le_mono_r; lia. }
        apply Z.log2_lt_pow2; lia. }
      assert (Hm2 : m2 < 2 ^ 1) by (change (2 ^ 1) with 2; lia).
      apply Zdigits2_le_iff in Hm2; lia. }
  destruct (shr_m mrs'') as [|p|p]; try discriminate.
  rewrite (proj2 (Z.leb_le e'' (1024 - 53))) by lia. discriminate.
Qed.

(** The scaled quotient of two positive integers, as [SFdiv] computes it. *)
Lemma SFdiv_core_binary_bounds (m1 m2 : positive) :
  let '(q, e, _) := SFdiv_core_binary prec emax (Zpos m1) 0 (Zpos m2) 0 in
  0 <= q /\ e <= 0 /\ Zdigits2 q + e <= Zdigits2 (Zpos m1).
Proof.
  unfold SFdiv_core_binary.
  set (e := Z.min (fexp prec emax (Zdigits2 (Z.pos m1) + 0 - (Zdigits2 (Z.pos m2) + 0))) (0 - 0)).
  assert (He : e <= 0) by (unfold e; lia).
  set (m' := match 0 - 0 - e with
             | Z0 => Z.pos m1
             | Zpos _ => Z.shiftl (Z.pos m1) (0 - 0 - e)
             | Zneg _ => 0
             end).
  assert (Hm' : m' = Z.pos m1 * 2 ^ (- e)).
  { unfold m'. destruct (0 - 0 - e) as [|p|p] eqn:Hs; try lia.
    - replace (- e) with 0 by lia. lia.
    - rewrite Z.shiftl_mul_pow2 by lia. do 2 f_equal. lia. }
  pose proof (Z_div_mod m' (Z.pos m2) ltac:(lia)) as Hdiv.
  destruct (Z.div_eucl m' (Z.pos m2)) as [q r].
  destruct Hdiv as [Hq Hr].
  assert (Hpow : 0 < 2 ^ (- e)) by (apply Z.pow_pos_nonneg; lia).
  assert (Hq0 : 0 <= q) by nia.
  assert (Hqm : q <= m') by nia.
  repeat split; try lia.
  pose proof (Zdigits2_bound (Z.pos m1) ltac:(lia)) as Hb.
  pose proof (Zdigits2_nonneg (Z.pos m1)) as Hd1.
  assert (Hlt : q < 2 ^ (Zdigits2 (Z.pos m1) - e)).
  { replace (Zdigits2 (Z.pos m1) - e) with (Zdigits2 (Z.pos m1) + - e) by lia.
    rewrite Z.pow_add_r by lia. nia. }
  apply Zdigits2_le_iff in Hlt; lia.
Qed.

(** [a / b] on ints raises nothing when [b] is not 0 and [|a| < 2^1023]. *)
Lemma truediv_defined (a b : Z) :
  b <> 0 -> Z.abs a < 2 ^ 1023 -> exists f : float, Py.truediv a b = Py.Value f.
Proof.
  intros Hb Ha. unfold Py.truediv.
  rewrite (proj2 (Z.eqb_neq b 0) Hb).
  assert (Hdigits : forall p : positive, Z.pos p < 2 ^ 1023 -> Zdigits2 (Z.pos p) <= 1023)
    by (intros p Hp; apply Zdigits2_le_iff; lia).
  assert (Hfin : forall s, SFdiv prec emax (Py.SF_of_int a) (Py.SF_of_int b) <> S754_infinity s).
  { intros s. destruct a as [|pa|pa], b as [|pb|pb]; try lia; cbn [Py.SF_of_int SFdiv];
      try discriminate.
    all: pose proof (SFdiv_core_binary_bounds pa pb) as Hcore;
      destruct (SFdiv_core_binary prec emax (Z.pos pa) 0 (Z.pos pb) 0) as [[q e] l];
      destruct Hcore as (Hq & He & Hd);
      apply binary_round_aux_no_overflow; try lia;
      specialize (Hdigits pa ltac:(lia)); lia. }
  destruct (SFdiv prec emax (Py.SF_of_int a) (Py.SF_of_int b)) as [s | s | | s m e];
    try (eexists; reflexivity).
  now destruct (Hfin s).
Qed.

End FloatFacts.

(** ** Properties of the optimization score *)

Module ScoreProps.
Import Py Analytics ScoreSpec.

Ltac case_thresholds :=
  repeat match goal with
    | |- context [Z.ltb ?a ?b] => destruct (Z.ltb_spec a b)
    | |- context [Z.leb ?a ?b] => destruct (Z.leb_spec a b)
    end.

(** Each [if / elif] chain of the source adds its group's table rows. *)
Lemma duration_chain (score duration : Z) :
  (if duration <? 120 then score - 10
   else if (480 <=? duration) && (duration <=? 900) then score + 10
   else if 1800 <? duration then score - 15
   else score)
  = score + spec_duration_adjustments duration.
Proof.
  unfold spec_duration_adjustments, adjust.
  case_thresholds; cbn [andb]; lia.
Qed.

Lemma engagement_chain (score : Z) (e : float) :
  (if (0.05 <? e)%float then score + 15
   else if (0.02 <? e)%float then score + 5
   else if (e <? 0.005)%float then score - 20
   else score)
  = score + spec_engagement_adjustments e.
Proof.
  unfold spec_engagement_adjustments, adjust.
  destruct (e <? 0.005)%float eqn:Hlow.
  - apply FloatFacts.below_0005_not_above in Hlow as [-> ->]. cbn [andb]. lia.
  - destruct (0.05 <? e)%float, (0.02 <? e)%float; cbn [andb negb]; lia.
Qed.

Lemma title_chain (score title_length : Z) :
  (if 60 <? title_length then score - 5
   else if title_length <? 30 then score - 5
   else score)
  = score + spec_title_adjustments title_length.
Proof.
  unfold spec_title_adjustments, adjust.
  case_thresholds; lia.
Qed.

Lemma views_chain (score views : Z) :
  (if 100000 <? views then score + 10
   else if 10000 <? views then score + 5
   else if views <? 1000 then score - 10
   else score)
  = score + spec_views_adjustments views.
Proof.
  unfold spec_views_adjustments, adjust.
  case_thresholds; cbn [andb negb]; lia.
Qed.

(** The score is the clamped sum of the base 50 and the table's adjustments. *)
Lemma score_is_clamped_sum (v : VideoData) (e : float) :
  calculate_optimization_score v e
  = clamp_0_100
      (50 + spec_adjustments (get (duration_s v) 0) e
              (len (get (title v) EmptyString)) (get (views v) 0)).
Proof.
  unfold calculate_optimization_score, clamp_0_100, spec_adjustments.
  cbv zeta.
  rewrite duration_chain, engagement_chain, title_chain, views_chain.
  do 2 f_equal. lia.
Qed.

(** Bounds of each group of rows. *)
Lemma spec_duration_adjustments_range (d : Z) : -15 <= spec_duration_adjustments d <= 10.
Proof. unfold spec_duration_adjustments, adjust. case_thresholds; cbn [andb]; lia. Qed.

Lemma spec_engagement_adjustments_range (e : float) : -20 <= spec_engagement_adjustments e <= 15.
Proof.
  unfold spec_engagement_adjustments, adjust.
  destruct (e <? 0.005)%float eqn:Hlow.
  - apply FloatFacts.below_0005_not_above in Hlow as [-> ->]. cbn [andb]. lia.
  - destruct (0.05 <? e)%float, (0.02 <? e)%float; cbn [andb negb]; lia.
Qed.

Lemma spec_title_adjustments_range (t : Z) : -5 <= spec_title_adjustments t <= 0.
Proof. unfold spec_title_adjustments, adjust. case_thresholds; lia. Qed.

Lemma spec_views_adjustments_range (w : Z) : -10 <= spec_views_adjustments w <= 10.
Proof. unfold spec_views_adjustments, adjust. case_thresholds; cbn [andb negb]; lia. Qed.

(** The adjustments never leave [-50, 35]. *)
Lemma spec_adjustments_range (d : Z) (e : float) (t w : Z) :
  -50 <= spec_adjustments d e t w <= 35.
Proof.
  unfold spec_adjustments.
  pose proof (spec_duration_adjustments_range d).
  pose proof (spec_engagement_adjustments_range e).
  pose proof (spec_title_adjustments_range t).
  pose proof (spec_views_adjustments_range w).
  lia.
Qed.

(** C1: for every video record and every engagement rate (any binary64
    value, NaN and the infinities included), the optimization score is an
    integer between 0 and 100. *)
Theorem score_in_0_100 (video_data : VideoData) (engagement_rate : float) :
  0 <= calculate_optimization_score video_data engagement_rate <= 100.
Proof.
  unfold calculate_optimization_score. lia.
Qed.

(** C2: the score computed by the code is [spec_score]: the clamp to [0, 100]
    of 50 plus the sum of all matched rows of the rule table of section 4.1,
    the four factor groups (duration, engagement, title, views) each
    contributing a summand that depends on its own field only. *)
Theorem score_refines_rule_table (video_data : VideoData) (engagement_rate : float) :
  calculate_optimization_score video_data engagement_rate
  = spec_score (get (duration_s video_data) 0) engagement_rate
      (len (get (title video_data) EmptyString)) (get (views video_data) 0).
Proof.
  unfold calculate_optimization_score, spec_score, clamp_0_100, spec_adjustments.
  cbv zeta.
  rewrite duration_chain, engagement_chain, title_chain, views_chain.
  do 2 f_equal. lia.
Qed.

(** C9: the score never exceeds 85: the adjustments add at most 35 to the
    base 50 (and take at most 50 from it), so neither clamp changes the sum,
    and both ends of [0, 85] are reached. *)
Theorem score_at_most_85 (video_data : VideoData) (engagement_rate : float) :
  0 <= calculate_optimization_score video_data engagement_rate <= 85
  /\ calculate_optimization_score video_data engagement_rate
     = 50 + spec_adjustments (get (duration_s video_data) 0) engagement_rate
              (len (get (title video_data) EmptyString)) (get (views video_data) 0)
  /\ calculate_optimization_score
       (mkVideoData (Some 600) (Some 200000) (Some 0) (Some 0)
          (Some "A title of between thirty and sixty chars"%string)) 0.1%float = 85
  /\ calculate_optimization_score
       (mkVideoData (Some 2000) (Some 10) (Some 0) (Some 0) (Some "short"%string)) 0%float = 0.
Proof.
  pose proof (score_is_clamped_sum video_data engagement_rate) as Hs.
  pose proof (spec_adjustments_range (get (duration_s video_data) 0) engagement_rate
                (len (get (title video_data) EmptyString)) (get (views video_data) 0)) as Hr.
  unfold clamp_0_100 in *.
  repeat split; try lia.
Qed.

End ScoreProps.

(** ** Properties of the engagement rate and of the worked example *)

Module EngagementProps.
Import Py Analytics AnalyticsSpec.

(** Two outcomes that hold different floats are different. *)
Lemma Value_float_neq (x y : float) :
  PrimFloat.eqb x y = false -> PrimFloat.eqb x x = true -> @Value float x <> Value y.
Proof.
  intros Hxy Hxx Heq. injection Heq as ->. congruence.
Qed.

(** C3, as stated: the derived engagement rate would be
    [(likes + comments) / max(views, 1)] for every record.  It is not: with
    0 views, 3 likes and 2 comments the code yields 0, the formula 5.0. *)
Lemma engagement_rate_formula_fails_at_zero_views :
  let v := mkVideoData (Some 600) (Some 0) (Some 3) (Some 2) None in
  analyze_single_video_engagement_rate v = Value 0%float
  /\ truediv (get (likes v) 0 + get (comments v) 0) (Z.max (get (views v) 0) 1)
     = Value 5%float
  /\ analyze_single_video_engagement_rate v
     <> truediv (get (likes v) 0 + get (comments v) 0) (Z.max (get (views v) 0) 1).
Proof.
  cbv zeta.
  assert (H0 : analyze_single_video_engagement_rate
                 (mkVideoData (Some 600) (Some 0) (Some 3) (Some 2) None) = Value 0%float)
    by (vm_compute; reflexivity).
  assert (H5 : truediv (3 + 2) (Z.max 0 1) = Value 5%float) by (vm_compute; reflexivity).
  cbn [get likes comments views]. rewrite H0, H5.
  repeat split. apply Value_float_neq; vm_compute; reflexivity.
Qed.

(** C3, amended: with a positive view count the rate is
    [(likes + comments) / max(views, 1)], which is then [(likes + comments) /
    views]; with a view count of zero (or below) it is 0 whatever the likes
    and comments are. *)
Theorem engagement_rate_guarded (video_data : VideoData) :
  (0 < get (views video_data) 0 ->
     analyze_single_video_engagement_rate video_data
     = truediv (get (likes video_data) 0 + get (comments video_data) 0)
               (Z.max (get (views video_data) 0) 1)
     /\ Z.max (get (views video_data) 0) 1 = get (views video_data) 0)
  /\ (get (views video_data) 0 <= 0 ->
        analyze_single_video_engagement_rate video_data = Value 0%float).
Proof.
  unfold analyze_single_video_engagement_rate. split; intros Hv.
  - rewrite (proj2 (Z.ltb_lt _ _) Hv). split; [reflexivity | lia].
  - rewrite (proj2 (Z.ltb_ge _ _) Hv). reflexivity.
Qed.

Lemma engagement_rate_guarded_witness :
  analyze_single_video_engagement_rate
    (mkVideoData (Some 600) (Some 50000) (Some 1000) (Some 200) None)
  = truediv (1000 + 200) (Z.max 50000 1)
  /\ analyze_single_video_engagement_rate
       (mkVideoData (Some 600) (Some 0) (Some 3) (Some 2) None) = Value 0%float.
Proof.
  split.
  - apply (proj1 (engagement_rate_guarded
                    (mkVideoData (Some 600) (Some 50000) (Some 1000) (Some 200) None))).
    cbn. lia.
  - apply (proj2 (engagement_rate_guarded
                    (mkVideoData (Some 600) (Some 0) (Some 3) (Some 2) None))).
    cbn. lia.
Defined.

(** C7, as stated: every record with duration 600, 50000 views, 1000 likes
    and 200 comments would score 70.  A fetched record whose title is the
    fetch layer's default scores 65: the title rule takes 5. *)
Lemma worked_example_score_70_fails :
  ~ (forall v : VideoData, worked_example v ->
       analyze_single_video_engagement_rate v = Value 0.024%float
       /\ calculate_optimization_score v 0.024%float = 70).
Proof.
  intros H.
  destruct (H (mkVideoData (Some 600) (Some 50000) (Some 1000) (Some 200)
                 (Some "Unknown Title"%string))) as [_ Hscore].
  - repeat split.
  - vm_compute in Hscore. discriminate.
Qed.

(** C7, amended: for duration 600, 50000 views, 1000 likes and 200 comments
    the engagement rate is 0.024, and the score is 70 when the title has 30 to
    60 characters and 65 otherwise. *)
Theorem worked_example_score (v : VideoData) :
  worked_example v ->
  analyze_single_video_engagement_rate v = Value 0.024%float
  /\ calculate_optimization_score v 0.024%float
     = if (30 <=? len (get (title v) EmptyString)) && (len (get (title v) EmptyString) <=? 60)
       then 70 else 65.
Proof.
  intros (Hd & Hv & Hl & Hc). split.
  - unfold analyze_single_video_engagement_rate. rewrite Hv, Hl, Hc.
    vm_compute. reflexivity.
  - unfold calculate_optimization_score. rewrite Hd, Hv. cbv zeta.
    change (get (Some 600) 0) with 600. change (get (Some 50000) 0) with 50000.
    change (0.05 <? 0.024)%float with false. change (0.02 <? 0.024)%float with true.
    cbn [Z.ltb Z.leb Z.compare Pos.compare Pos.compare_cont andb].
    destruct (Z.ltb_spec 60 (len (get (title v) EmptyString)));
      destruct (Z.ltb_spec (len (get (title v) EmptyString)) 30);
      destruct (Z.leb_spec 30 (len (get (title v) EmptyString)));
      destruct (Z.leb_spec (len (get (title v) EmptyString)) 60);
      cbn [andb]; lia.
Qed.

Lemma worked_example_score_witness :
  analyze_single_video_engagement_rate
    (mkVideoData (Some 600) (Some 50000) (Some 1000) (Some 200)
       (Some "How to plan a video that holds attention"%string)) = Value 0.024%float
  /\ calculate_optimization_score
       (mkVideoData (Some 600) (Some 50000) (Some 1000) (Some 200)
          (Some "How to plan a video that holds attention"%string)) 0.024%float = 70.
Proof.
  apply (worked_example_score
           (mkVideoData (Some 600) (Some 50000) (Some 1000) (Some 200)
              (Some "How to plan a video that holds attention"%string))).
  repeat split.
Defined.

End EngagementProps.

(** ** Properties of the batch ranker *)

Module PandasFacts.
Import Py Pandas.

Lemma has_column_true (c : string) (df : DataFrame) :
  c ∈ columns df -> has_column c df = true.
Proof. intros H. unfold has_column. apply bool_decide_eq_true_2, H. Qed.

Lemma has_column_false (c : string) (df : DataFrame) :
  c ∉ columns df -> has_column c df = false.
Proof. intros H. unfold has_column. apply bool_decide_eq_false_2, H. Qed.

Lemma getitem_present (c : string) (df : DataFrame) :
  c ∈ columns df -> getitem df c = Value (at_column c <$> rows df).
Proof. intros H. unfold getitem. rewrite has_column_true by done. reflexivity. Qed.

Lemma zip_with_fmap_same {A B C} (f : A -> B -> C) (g : A -> B) (l : list A) :
  zip_with f l (g <$> l) = (fun x => f x (g x)) <$> l.
Proof. induction l as [|x l IH]; cbn; [reflexivity | now rewrite IH]. Qed.

(** Assigning a series computed row by row updates every row. *)
Lemma setitem_rowwise (c : string) (df : DataFrame) (g : gmap string cell -> cell) :
  setitem df c (g <$> rows df)
  = Value {| columns := if has_column c df then columns df else columns df ++ [c];
             rows := (fun r => <[c := g r]> r) <$> rows df |}.
Proof.
  unfold setitem. rewrite length_fmap, Nat.eqb_refl, zip_with_fmap_same. reflexivity.
Qed.

Lemma mapM_rowwise {A B C} (f : B -> outcome C) (g : A -> B) (h : A -> C) (l : list A) :
  (forall x, x ∈ l -> f (g x) = Value (h x)) ->
  mapM f (g <$> l) = Value (h <$> l).
Proof.
  induction l as [|x l IH]; intros H; cbn; [reflexivity|].
  rewrite (H x) by left. cbn.
  rewrite IH by (intros y Hy; apply H; now right). reflexivity.
Qed.

Lemma zip_fmap_same {A B C} (f : A -> B) (g : A -> C) (l : list A) :
  zip (f <$> l) (g <$> l) = (fun x => (f x, g x)) <$> l.
Proof. induction l as [|x l IH]; cbn; [reflexivity | now rewrite IH]. Qed.

(** A binary operation on two series computed row by row. *)
Lemma series_binop_rowwise (op : cell -> cell -> outcome cell)
    (f g h : gmap string cell -> cell) (rs : list (gmap string cell)) :
  (forall r, r ∈ rs -> op (f r) (g r) = Value (h r)) ->
  series_binop op (f <$> rs) (g <$> rs) = Value (h <$> rs).
Proof.
  intros H. unfold series_binop. rewrite zip_fmap_same.
  apply (mapM_rowwise (fun p => op p.1 p.2) (fun r => (f r, g r)) h). exact H.
Qed.


Lemma wrap_int64_range (z : Z) : - 2 ^ 63 <= wrap_int64 z < 2 ^ 63.
Proof.
  unfold wrap_int64. pose proof (Z.mod_pos_bound (z + 2 ^ 63) (2 ^ 64) ltac:(lia)). lia.
Qed.

(** What wraps differs from the exact result by a multiple of [2^64]. *)
Lemma wrap_int64_congruent (z : Z) : exists k : Z, wrap_int64 z = z + k * 2 ^ 64.
Proof.
  exists (- ((z + 2 ^ 63) / 2 ^ 64)). unfold wrap_int64.
  rewrite Z.mod_eq by lia. lia.
Qed.

(** The dtype of a series computed row by row, when every cell is of one
    kind; a series of floats is [float64] unless it is empty. *)
Lemma int64_series_fmap {A} (mode : bool) (h : A -> cell) (l : list A) :
  (forall x, x ∈ l -> is_int (h x) = mode) ->
  (mode = false -> l <> []) ->
  int64_series (h <$> l) = mode.
Proof.
  intros Hkind Hne. unfold int64_series. destruct mode.
  - apply forallb_forall. intros c Hc%list_elem_of_In.
    apply list_elem_of_fmap in Hc as (x & -> & Hx). now apply Hkind.
  - destruct l as [|x l]; [now destruct (Hne eq_refl)|].
    cbn. rewrite (Hkind x) by left. reflexivity.
Qed.

Lemma clip_rowwise (lower : Z) (f h : gmap string cell -> cell)
    (rs : list (gmap string cell)) :
  (forall r, r ∈ rs -> clip_cell (int64_series (f <$> rs)) lower (f r) = Value (h r)) ->
  clip lower (f <$> rs) = Value (h <$> rs).
Proof. intros H. unfold clip. now apply mapM_rowwise. Qed.

Lemma series_sub_rowwise (f g h : gmap string cell -> cell) (rs : list (gmap string cell)) :
  (forall r, r ∈ rs ->
     num_sub (int64_series (f <$> rs) && int64_series (g <$> rs)) (f r) (g r)
     = Value (h r)) ->
  series_sub (f <$> rs) (g <$> rs) = Value (h <$> rs).
Proof. intros H. unfold series_sub. now apply series_binop_rowwise. Qed.

Lemma series_mul_rowwise (f g h : gmap string cell -> cell) (rs : list (gmap string cell)) :
  (forall r, r ∈ rs ->
     num_mul (int64_series (f <$> rs) && int64_series (g <$> rs)) (f r) (g r)
     = Value (h r)) ->
  series_mul (f <$> rs) (g <$> rs) = Value (h <$> rs).
Proof. intros H. unfold series_mul. now apply series_binop_rowwise. Qed.

Lemma fmap_ext_in {A B} (f g : A -> B) (l : list A) :
  (forall x, x ∈ l -> f x = g x) -> f <$> l = g <$> l.
Proof.
  induction l as [|x l IH]; intros H; cbn; [reflexivity|].
  rewrite (H x) by left. f_equal. apply IH. intros y Hy. apply H. now right.
Qed.

Lemma at_column_Int (c : string) (r : gmap string cell) (z : Z) :
  r !! c = Some (Int z) -> at_column c r = Int z.
Proof. intros H. unfold at_column. now rewrite H. Qed.

Lemma at_column_insert (c : string) (x : cell) (r : gmap string cell) :
  at_column c (<[c := x]> r) = x.
Proof. unfold at_column. now rewrite lookup_insert_eq. Qed.

Lemma at_column_insert_ne (c c' : string) (x : cell) (r : gmap string cell) :
  c' <> c -> at_column c (<[c' := x]> r) = at_column c r.
Proof. intros H. unfold at_column. now rewrite lookup_insert_ne. Qed.

End PandasFacts.

Module RankerProps.
Import Py Pandas Ranker RankerSpec PyFacts PandasFacts.
Local Open Scope string_scope.

Lemma getitem_fmap {A} (c : string) (cols : list string)
    (F : A -> gmap string cell) (l : list A) :
  c ∈ cols ->
  getitem (mkDataFrame cols (F <$> l)) c = Value ((fun x => at_column c (F x)) <$> l).
Proof.
  intros H. rewrite getitem_present by exact H. cbn [rows].
  now rewrite <- list_fmap_compose.
Qed.

Lemma setitem_fmap {A} (c : string) (cols : list string)
    (F : A -> gmap string cell) (h : A -> cell) (l : list A) :
  setitem (mkDataFrame cols (F <$> l)) c (h <$> l)
  = Value (mkDataFrame (if bool_decide (c ∈ cols) then cols else (cols ++ [c])%list)
                       ((fun x => <[c := h x]> (F x)) <$> l)).
Proof.
  unfold setitem, has_column. cbn [rows columns].
  rewrite !length_fmap, Nat.eqb_refl. do 2 f_equal.
  induction l as [|x l IH]; cbn; [reflexivity | now rewrite IH].
Qed.

Lemma setitem_id_fmap (c : string) (cols : list string)
    (h : gmap string cell -> cell) (l : list (gmap string cell)) :
  setitem (mkDataFrame cols l) c (h <$> l)
  = Value (mkDataFrame (if bool_decide (c ∈ cols) then cols else (cols ++ [c])%list)
                       ((fun x => <[c := h x]> (id x)) <$> l)).
Proof.
  pose proof (setitem_fmap c cols id h l) as E. now rewrite list_fmap_id in E.
Qed.

Lemma elem_of_added_column (c c' : string) (cols : list string) :
  c ∈ cols -> c ∈ (if bool_decide (c' ∈ cols) then cols else (cols ++ [c'])%list).
Proof. intros H. destruct (bool_decide (c' ∈ cols)); [exact H | apply elem_of_app; now left]. Qed.

Lemma added_column_present (c : string) (cols : list string) :
  c ∈ (if bool_decide (c ∈ cols) then cols else (cols ++ [c])%list).
Proof.
  destruct (bool_decide (c ∈ cols)) eqn:H.
  - exact (bool_decide_eq_true_1 _ H).
  - apply elem_of_app. right. now left.
Qed.

Lemma int_at_Int (c : string) (r : gmap string cell) (z : Z) :
  r !! c = Some (Int z) -> at_column c r = Int (int_at c r).
Proof. intros H. unfold int_at. now rewrite (at_column_Int c r z H). Qed.

Ltac cells :=
  repeat first [ rewrite at_column_insert
               | rewrite at_column_insert_ne by discriminate ];
  cbn [id].

Lemma int64_column_cell (c : string) (df : DataFrame) (r : gmap string cell) :
  int64_column c df -> r ∈ rows df -> at_column c r = Int (int_at c r).
Proof.
  intros [_ H] Hr. destruct (H r Hr) as (z & Hz & _). now apply (int_at_Int c r z).
Qed.

Section ComputePotentialProps.

Variable to_numeric_text : string -> cell.
Variable sort_values : string -> bool -> DataFrame -> outcome DataFrame.

Lemma length_to_numeric (series : list cell) :
  length (to_numeric to_numeric_text series) = length series.
Proof.
  unfold to_numeric. cbv zeta. destruct (int64_series _); now rewrite ?length_fmap.
Qed.

(** Coercing an integer series leaves it as it is. *)
Lemma to_numeric_integers {A} (f : A -> cell) (l : list A) :
  (forall x, x ∈ l -> is_int (f x) = true) ->
  to_numeric to_numeric_text (f <$> l) = f <$> l.
Proof.
  intros Hint. unfold to_numeric. cbv zeta. rewrite <- list_fmap_compose.
  assert (Hsame : to_numeric_cell to_numeric_text ∘ f <$> l = f <$> l).
  { apply fmap_ext_in. intros x Hx. cbn. specialize (Hint x Hx).
    destruct (f x); try discriminate. reflexivity. }
  rewrite Hsame. now rewrite (int64_series_fmap true f l Hint).
Qed.

(** What a coerced series holds: integers throughout, or floats throughout. *)
Lemma to_numeric_uniform {A} (f : A -> cell) (l : list A) :
  exists (mode : bool) (g : A -> cell),
    to_numeric to_numeric_text (f <$> l) = g <$> l
    /\ (forall x, x ∈ l ->
          if mode then exists a : Z, g x = Int a else exists a : float, g x = Float a)
    /\ (mode = false -> l <> [])
    /\ (forall x a, g x = Int a -> to_numeric_cell to_numeric_text (f x) = Int a)
    /\ int64_series (to_numeric_cell to_numeric_text <$> (f <$> l)) = mode.
Proof.
  unfold to_numeric. cbv zeta. rewrite <- list_fmap_compose.
  destruct (int64_series (to_numeric_cell to_numeric_text ∘ f <$> l)) eqn:Hmode.
  - exists true, (to_numeric_cell to_numeric_text ∘ f). split; [reflexivity|].
    split; [|split; [discriminate | split; [intros x a Hx; exact Hx | reflexivity]]].
    intros x Hx.
    unfold int64_series in Hmode. rewrite forallb_forall in Hmode.
    assert (Hin : In ((to_numeric_cell to_numeric_text ∘ f) x)
                     (to_numeric_cell to_numeric_text ∘ f <$> l)).
    { apply list_elem_of_In, list_elem_of_fmap. now exists x. }
    specialize (Hmode _ Hin).
    destruct ((to_numeric_cell to_numeric_text ∘ f) x) as [z | | |]; try discriminate.
    now exists z.
  - exists false, (float64_cell ∘ (to_numeric_cell to_numeric_text ∘ f)).
    split; [now rewrite <- list_fmap_compose|]. split; [|split; [|split]].
    + intros x _. cbn. destruct (to_numeric_cell to_numeric_text (f x)); now eexists.
    + intros _ ->. discriminate.
    + intros x a. cbn. destruct (to_numeric_cell to_numeric_text (f x)); discriminate.
    + reflexivity.
Qed.

(** Retention-gap mode, up to the final sort, for a coerced average view
    duration [g] that is an integer on every row or a float on every row. *)
Lemma compute_potential_retention_rows (cols : list string)
    (rs : list (gmap string cell)) (mode : bool) (g : gmap string cell -> cell) :
  int64_column "views" (mkDataFrame cols rs) ->
  int64_column "duration_s" (mkDataFrame cols rs) ->
  "avgViewDuration" ∈ cols ->
  to_numeric to_numeric_text (at_column "avgViewDuration" <$> rs) = g <$> rs ->
  (forall r, r ∈ rs ->
     if mode then exists a : Z, g r = Int a else exists a : float, g r = Float a) ->
  (mode = false -> rs <> []) ->
  exists cols' : list string,
    "potential_watch_seconds" ∈ cols'
    /\ compute_potential to_numeric_text sort_values (mkDataFrame cols rs)
       = sort_values "potential_watch_seconds" false
           (mkDataFrame cols' ((fun r => retention_gap_row (g r) r) <$> rs)).
Proof.
  intros Hv Hd Ha Hnum Hkind Hne.
  pose proof (fun r Hr => int64_column_cell "views" _ r Hv Hr) as Hvc.
  pose proof (fun r Hr => int64_column_cell "duration_s" _ r Hd Hr) as Hdc.
  cbn [rows] in Hvc, Hdc.
  assert (Hgkind : forall r, r ∈ rs -> is_int (g r) = mode).
  { intros r Hr. specialize (Hkind r Hr). destruct mode, Hkind as [a ->]; reflexivity. }
  unfold compute_potential, copy.
  rewrite (has_column_true "avgViewDuration") by exact Ha.
  rewrite (getitem_present "avgViewDuration") by exact Ha. cbn [rows]. rewrite bind_Value.
  rewrite Hnum, (setitem_id_fmap "avgViewDuration"), bind_Value.
  rewrite (bool_decide_eq_true_2 _ Ha).
  rewrite (getitem_fmap "duration_s") by apply Hd. rewrite bind_Value.
  rewrite (to_numeric_integers _ rs)
    by (intros r Hr; cells; now rewrite (Hdc r Hr)).
  rewrite setitem_fmap, bind_Value.
  rewrite (bool_decide_eq_true_2 _ (proj1 Hd)).
  rewrite (getitem_fmap "duration_s") by apply Hd. rewrite bind_Value.
  rewrite (getitem_fmap "avgViewDuration") by exact Ha. rewrite bind_Value.
  rewrite (series_sub_rowwise _ _
             (fun r => match g r with
                       | Int a => Int (wrap_int64 (int_at "duration_s" r - a))
                       | Float a => Float (float_of_int (int_at "duration_s" r) - a)
                       | _ => PyNone
                       end)).
  2:{ intros r Hr.
      rewrite (int64_series_fmap true)
        by (try discriminate; intros x Hx; cells; now rewrite (Hdc x Hx)).
      rewrite (int64_series_fmap mode)
        by (try exact Hne; intros x Hx; cells; now apply Hgkind).
      cells. rewrite (Hdc r Hr). specialize (Hkind r Hr).
      destruct mode, Hkind as [a ->]; reflexivity. }
  rewrite bind_Value.
  rewrite (clip_rowwise 0 _
             (fun r => match g r with
                       | Int a => Int (Z.max (wrap_int64 (int_at "duration_s" r - a)) 0)
                       | Float a =>
                           Float (float_clip 0 (float_of_int (int_at "duration_s" r) - a))
                       | _ => PyNone
                       end)).
  2:{ intros r Hr.
      rewrite (int64_series_fmap mode).
      - specialize (Hkind r Hr). destruct mode, Hkind as [a ->]; reflexivity.
      - intros x Hx. specialize (Hkind x Hx). destruct mode, Hkind as [a ->]; reflexivity.
      - exact Hne. }
  rewrite bind_Value, setitem_fmap, bind_Value.
  set (cols1 := if bool_decide ("potential_seconds_per_view" ∈ cols) then cols
                else (cols ++ ["potential_seconds_per_view"])%list).
  assert (Hv1 : "views" ∈ cols1) by (apply elem_of_added_column, Hv).
  assert (Hp1 : "potential_seconds_per_view" ∈ cols1) by apply added_column_present.
  rewrite (getitem_fmap "views") by exact Hv1. rewrite bind_Value.
  rewrite (getitem_fmap "potential_seconds_per_view") by exact Hp1. rewrite bind_Value.
  rewrite (series_mul_rowwise _ _
             (fun r => match g r with
                       | Int a =>
                           Int (wrap_int64
                                  (int_at "views" r
                                   * Z.max (wrap_int64 (int_at "duration_s" r - a)) 0))
                       | Float a =>
                           Float (float_of_int (int_at "views" r)
                                  * float_clip 0 (float_of_int (int_at "duration_s" r) - a))
                       | _ => PyNone
                       end)).
  2:{ intros r Hr.
      rewrite (int64_series_fmap true)
        by (try discriminate; intros x Hx; cells; now rewrite (Hvc x Hx)).
      rewrite (int64_series_fmap mode).
      - cells. rewrite (Hvc r Hr). specialize (Hkind r Hr).
        destruct mode, Hkind as [a ->]; reflexivity.
      - intros x Hx. cells. specialize (Hkind x Hx).
        destruct mode, Hkind as [a ->]; reflexivity.
      - exact Hne. }
  rewrite bind_Value, setitem_fmap, bind_Value.
  eexists. split; [apply added_column_present|]. do 2 f_equal.
  apply fmap_ext_in. intros r Hr. cbn [id].
  assert (Hid : <["duration_s" := at_column "duration_s" (<["avgViewDuration" := g r]> r)]>
                  (<["avgViewDuration" := g r]> r)
                = <["avgViewDuration" := g r]> r).
  { apply insert_id. rewrite lookup_insert_ne by discriminate.
    rewrite at_column_insert_ne by discriminate.
    destruct Hd as [_ Hd]. cbn [rows] in Hd. destruct (Hd r Hr) as (z & Hz & _).
    now rewrite (at_column_Int _ _ _ Hz). }
  rewrite Hid. unfold retention_gap_row. cbv zeta.
  specialize (Hkind r Hr). destruct mode, Hkind as [a ->]; reflexivity.
Qed.

(** Retention-gap mode, up to the final sort. *)
Lemma compute_potential_retention (df : DataFrame) :
  int64_column "views" df ->
  int64_column "duration_s" df ->
  "avgViewDuration" ∈ columns df ->
  exists cols : list string,
    "potential_watch_seconds" ∈ cols
    /\ compute_potential to_numeric_text sort_values df
       = sort_values "potential_watch_seconds" false
           (mkDataFrame cols
              (zip_with (fun r avg => retention_gap_row avg r) (rows df)
                 (to_numeric to_numeric_text (at_column "avgViewDuration" <$> rows df)))).
Proof.
  intros Hv Hd Ha. destruct df as [cols rs]. cbn [rows columns] in *.
  destruct (to_numeric_uniform (at_column "avgViewDuration") rs)
    as (mode & g & Hnum & Hkind & Hne & _ & _).
  rewrite Hnum, zip_with_fmap_same.
  exact (compute_potential_retention_rows cols rs mode g Hv Hd Ha Hnum Hkind Hne).
Qed.


End ComputePotentialProps.

End RankerProps.

Module RankerTheorems.
Import Py Pandas Ranker RankerSpec PyFacts PandasFacts RankerProps RankerExamples.
Local Open Scope string_scope.

(** Strict comparison of binary64 values is asymmetric. *)
Lemma SFltb_asym (x y : spec_float) : SFltb x y = true -> SFltb y x = false.
Proof.
  unfold SFltb.
  destruct x as [sx | sx | | sx mx ex], y as [sy | sy | | sy my ey];
    try destruct sx; try destruct sy; cbn; try discriminate; try reflexivity.
  - destruct (Z.compare_spec ex ey) as [-> | H | H]; cbn.
    + rewrite Z.compare_refl.
      change (PosDef.Pos.compare_cont Eq my mx) with (Pos.compare my mx).
      change (PosDef.Pos.compare_cont Eq mx my) with (Pos.compare mx my).
      rewrite (Pos.compare_antisym mx my).
      now destruct (Pos.compare mx my).
    + discriminate.
    + now rewrite (proj2 (Z.compare_lt_iff ey ex)) by lia.
  - destruct (Z.compare_spec ex ey) as [-> | H | H]; cbn.
    + rewrite Z.compare_refl.
      change (PosDef.Pos.compare_cont Eq my mx) with (Pos.compare my mx).
      change (PosDef.Pos.compare_cont Eq mx my) with (Pos.compare mx my).
      rewrite (Pos.compare_antisym mx my).
      now destruct (Pos.compare mx my).
    + now rewrite (proj2 (Z.compare_gt_iff ey ex)) by lia.
    + discriminate.
Qed.

Lemma float_ltb_asym (x y : float) : (x <? y)%float = true -> (y <? x)%float = false.
Proof. rewrite !ltb_spec. apply SFltb_asym. Qed.

Lemma cell_ltb_asym (a b : cell) : cell_ltb a b = true -> cell_ltb b a = false.
Proof.
  destruct a, b; cbn; try discriminate; try reflexivity;
    try apply float_ltb_asym.
  intros H. apply Z.ltb_lt in H. apply Z.ltb_ge. lia.
Qed.

Lemma not_below_total (c : string) : Total (not_below c).
Proof.
  intros r1 r2. unfold not_below.
  destruct (cell_ltb (at_column c r1) (at_column c r2)) eqn:H.
  - right. now apply cell_ltb_asym.
  - now left.
Qed.

(** The reference sort meets the documented contract. *)
Lemma merge_sort_values_contract : sort_values_descending_contract merge_sort_values.
Proof.
  intros c df Hc. unfold merge_sort_values.
  rewrite has_column_true by exact Hc.
  eexists. split; [reflexivity|]. cbn [rows columns]. repeat split.
  - apply merge_sort_Permutation.
  - apply (@Sorted_merge_sort _ (not_below c) _ (not_below_total c)).
Qed.



Section ComputePotentialRanks.

Variable to_numeric_text : string -> cell.
Variable sort_values : string -> bool -> DataFrame -> outcome DataFrame.
Hypothesis sort_values_contract : sort_values_descending_contract sort_values.


End ComputePotentialRanks.

End RankerTheorems.

Module RankerWitness.
Import Py Pandas Ranker RankerSpec RankerExamples RankerTheorems.
Local Open Scope string_scope.


(** The two batches of section 8, run through the ranker with the reference
    sort: 80000 before 40000, and 10 before 1. *)
Example retention_batch_ranked :
  (out ← compute_potential coerce_text_to_nan merge_sort_values retention_batch;
   ids ← getitem out "video_id";
   watch ← getitem out "potential_watch_seconds";
   mret (ids, watch))
  = Value ([Str "a"; Str "b"], [Int 80000; Int 40000]).
Proof. vm_compute. reflexivity. Qed.

Example fallback_batch_ranked :
  (out ← compute_potential coerce_text_to_nan merge_sort_values fallback_batch;
   ids ← getitem out "video_id";
   score ← getitem out "potential_score";
   mret (ids, score))
  = Value ([Str "a"; Str "b"], [Float 10; Float 1]).
Proof. vm_compute. reflexivity. Qed.

(** The documented contract does not fix the order of records with equal
    keys: two functions that meet it rank the tied batch differently. *)
Lemma reversed_merge_sort_values_contract :
  sort_values_descending_contract reversed_merge_sort_values.
Proof.
  intros c df Hc.
  destruct (merge_sort_values_contract c (mkDataFrame (columns df) (reverse (rows df))) Hc)
    as (out & Hout & Hcols & Hperm & Hsorted).
  exists out. repeat split; try assumption.
  cbn [rows] in Hperm. now rewrite Hperm, reverse_Permutation.
Qed.

Example tied_batch_ranked :
  (out ← compute_potential coerce_text_to_nan merge_sort_values tied_batch;
   getitem out "video_id") = Value [Str "a"; Str "b"]
  /\ (out ← compute_potential coerce_text_to_nan reversed_merge_sort_values tied_batch;
      getitem out "video_id") = Value [Str "b"; Str "a"]
  /\ (out ← compute_potential coerce_text_to_nan merge_sort_values tied_batch;
      getitem out "potential_score") = Value [Float 2; Float 2].
Proof. repeat split; vm_compute; reflexivity. Qed.


(** Average view durations that are not all integers: the column is read as
    binary64, a missing value as NaN, and the figures are floats; the record
    whose average is missing carries NaN. *)
Example float_batch_annotated :
  exists out : DataFrame,
    compute_potential coerce_text_to_nan merge_sort_values float_batch = Value out
    /\ (forall r, r ∈ rows out -> at_column "video_id" r = Str "a" ->
          at_column "avgViewDuration" r = Float 40.5
          /\ at_column "potential_watch_seconds" r = Float 79500)
    /\ (forall r, r ∈ rows out -> at_column "video_id" r = Str "c" ->
          at_column "avgViewDuration" r = Float 200
          /\ at_column "potential_watch_seconds" r = Float 0).
Proof.
  eexists. split; [vm_compute; reflexivity|].
  split; intros r Hr Hid; cbv [rows] in Hr;
    repeat (apply elem_of_cons in Hr as [-> | Hr]);
    try (apply elem_of_nil in Hr; destruct Hr);
    try (vm_compute in Hid; discriminate);
    split; vm_compute; reflexivity.
Qed.

End RankerWitness.

(** ** Properties of the action items *)

Module ActionItemProps.
Import Py Analytics AnalyticsSpec.

Ltac decide_by_computation :=
  match goal with
  | |- ?P => apply (bool_decide_unpack P); vm_compute; exact I
  end.

(** No duration, engagement or trailing item is one of the score-bucket items. *)
Lemma later_items_not_bucket_items :
  Forall (fun item => item ∉ score_bucket_items)
         (conditional_items ++ [MONITOR_RETENTION; AB_TEST_THUMBNAILS]).
Proof. decide_by_computation. Qed.

(** Once the engagement division has yielded a rate, the items are the score
    bucket, then the duration and engagement items, then the two trailing
    items. *)
Lemma action_items_of_rate (video_data : VideoData) (optimization_score : Z)
    (suggestions : list string) (engagement_rate : float) :
  action_engagement_rate video_data = Value engagement_rate ->
  exists bucket conditional : list string,
    generate_action_items video_data optimization_score suggestions
    = Value (bucket ++ conditional ++ [MONITOR_RETENTION; AB_TEST_THUMBNAILS])
    /\ (optimization_score < 30 ->
        bucket = [HIGH_PRIORITY_RETENTION; HIGH_PRIORITY_TITLE])
    /\ (30 <= optimization_score < 60 -> bucket = [MEDIUM_PRIORITY])
    /\ (60 <= optimization_score -> bucket = [GOOD])
    /\ Forall (fun item => item ∈ conditional_items) conditional
    /\ Forall (fun item => item ∉ score_bucket_items)
         (conditional ++ [MONITOR_RETENTION; AB_TEST_THUMBNAILS]).
Proof.
  intros He. unfold action_engagement_rate in He.
  unfold generate_action_items. cbv zeta. rewrite He, PyFacts.bind_Value.
  pose proof later_items_not_bucket_items as Hc.
  unfold conditional_items in Hc. cbn [app] in Hc.
  apply Forall_cons in Hc as [Hlonger Hc].
  apply Forall_cons in Hc as [Hcondensed Hc].
  apply Forall_cons in Hc as [Hinteractive Htrailing].
  exists (if optimization_score <? 30
          then [HIGH_PRIORITY_RETENTION; HIGH_PRIORITY_TITLE]
          else if optimization_score <? 60 then [MEDIUM_PRIORITY] else [GOOD]).
  exists ((if get (duration_s video_data) 0 <? 120 then [TEST_LONGER_FORMAT]
           else if 1800 <? get (duration_s video_data) 0 then [CONDENSED_VERSION]
           else [])
          ++ (if (engagement_rate <? 0.02)%float then [INTERACTIVE_ELEMENTS] else [])).
  split; [|split; [|split; [|split; [|split]]]].
  - destruct (optimization_score <? 30), (optimization_score <? 60),
      (get (duration_s video_data) 0 <? 120), (1800 <? get (duration_s video_data) 0),
      (engagement_rate <? 0.02)%float; reflexivity.
  - intros H. now rewrite (proj2 (Z.ltb_lt _ _) H).
  - intros [H1 H2]. now rewrite (proj2 (Z.ltb_ge _ _) H1), (proj2 (Z.ltb_lt _ _) H2).
  - intros H.
    rewrite (proj2 (Z.ltb_ge optimization_score 30)), (proj2 (Z.ltb_ge optimization_score 60));
      [reflexivity | lia | lia].
  - unfold conditional_items. apply Forall_app. split.
    + destruct (get (duration_s video_data) 0 <? 120);
        [|destruct (1800 <? get (duration_s video_data) 0)];
        repeat constructor.
    + destruct (engagement_rate <? 0.02)%float; repeat constructor.
  - repeat (apply Forall_app; split); try exact Htrailing.
    + destruct (get (duration_s video_data) 0 <? 120);
        [|destruct (1800 <? get (duration_s video_data) 0)];
        repeat constructor; assumption.
    + destruct (engagement_rate <? 0.02)%float; repeat constructor; assumption.
Qed.

(** The only exception [generate_action_items] can raise is the overflow of
    its engagement division. *)
Lemma action_engagement_rate_raises (v : VideoData) (e : exn) :
  action_engagement_rate v = Raises e -> e = OverflowError.
Proof.
  unfold action_engagement_rate, truediv.
  destruct (Z.eqb_spec (Z.max (get (views v) 1) 1) 0) as [H | _]; [lia|].
  destruct (SFdiv _ _ _ _); intros H; inversion H; reflexivity.
Qed.

(** It raises nothing while the like and comment counts stay below [2^1023]. *)
Lemma action_engagement_rate_defined (v : VideoData) :
  Z.abs (get (likes v) 0 + get (comments v) 0) < 2 ^ 1023 ->
  exists e : float, action_engagement_rate v = Value e.
Proof.
  intros H. unfold action_engagement_rate. apply FloatFacts.truediv_defined; lia.
Qed.

(** C4: for every video record and every score, the action items, whenever
    the function returns them, are the score bucket, then the duration and
    engagement items, then the same two trailing items; the bucket is exactly
    the two high-priority items, in order, for a score below 30, exactly the
    medium-priority item for a score from 30 to 59, and exactly the good item
    from 60 on, and no bucket item occurs after the bucket.  The function
    returns whenever the like and comment counts are below [2^1023]; the one
    exception it can raise is the overflow of its engagement division. *)
Theorem action_items_shape (video_data : VideoData) (optimization_score : Z)
    (suggestions : list string) :
  (Z.abs (get (likes video_data) 0 + get (comments video_data) 0) < 2 ^ 1023 ->
     exists items : list string,
       generate_action_items video_data optimization_score suggestions = Value items)
  /\ (forall items : list string,
        generate_action_items video_data optimization_score suggestions = Value items ->
        exists bucket conditional : list string,
          items = bucket ++ conditional ++ [MONITOR_RETENTION; AB_TEST_THUMBNAILS]
          /\ (optimization_score < 30 ->
              bucket = [HIGH_PRIORITY_RETENTION; HIGH_PRIORITY_TITLE])
          /\ (30 <= optimization_score < 60 -> bucket = [MEDIUM_PRIORITY])
          /\ (60 <= optimization_score -> bucket = [GOOD])
          /\ Forall (fun item => item ∈ conditional_items) conditional
          /\ Forall (fun item => item ∉ score_bucket_items)
               (conditional ++ [MONITOR_RETENTION; AB_TEST_THUMBNAILS]))
  /\ (forall e : exn,
        generate_action_items video_data optimization_score suggestions = Raises e ->
        e = OverflowError).
Proof.
  destruct (action_engagement_rate video_data) as [rate | e] eqn:Hrate.
  - destruct (action_items_of_rate video_data optimization_score suggestions rate Hrate)
      as (bucket & conditional & Hitems & Hshape).
    rewrite Hitems. repeat split.
    + intros _. eexists. reflexivity.
    + intros items [= <-]. exists bucket, conditional. split; [reflexivity | exact Hshape].
    + discriminate.
  - assert (Hraises : generate_action_items video_data optimization_score suggestions
                      = Raises e).
    { unfold action_engagement_rate in Hrate.
      unfold generate_action_items. cbv zeta. now rewrite Hrate. }
    rewrite Hraises. repeat split.
    + intros Hbound.
      destruct (action_engagement_rate_defined video_data Hbound) as [rate Hdef].
      rewrite Hdef in Hrate. discriminate.
    + discriminate.
    + intros e' [= <-]. now apply (action_engagement_rate_raises video_data).
Qed.

Lemma action_items_shape_witness :
  exists bucket conditional : list string,
    [HIGH_PRIORITY_RETENTION; HIGH_PRIORITY_TITLE; TEST_LONGER_FORMAT;
     INTERACTIVE_ELEMENTS; MONITOR_RETENTION; AB_TEST_THUMBNAILS]
    = bucket ++ conditional ++ [MONITOR_RETENTION; AB_TEST_THUMBNAILS]
    /\ (25 < 30 -> bucket = [HIGH_PRIORITY_RETENTION; HIGH_PRIORITY_TITLE])
    /\ (30 <= 25 < 60 -> bucket = [MEDIUM_PRIORITY])
    /\ (60 <= 25 -> bucket = [GOOD])
    /\ Forall (fun item => item ∈ conditional_items) conditional
    /\ Forall (fun item => item ∉ score_bucket_items)
         (conditional ++ [MONITOR_RETENTION; AB_TEST_THUMBNAILS]).
Proof.
  apply (proj1 (proj2 (action_items_shape
           (mkVideoData (Some 90) (Some 500) (Some 1) (Some 0) (Some "Short clip"%string))
           25 []))).
  vm_compute. reflexivity.
Defined.

(** The example of section 8: a score of 25 on a short, little-watched video. *)
Example action_items_score_25 :
  generate_action_items
    (mkVideoData (Some 90) (Some 500) (Some 1) (Some 0) (Some "Short clip"%string)) 25 []
  = Value [HIGH_PRIORITY_RETENTION; HIGH_PRIORITY_TITLE; TEST_LONGER_FORMAT;
           INTERACTIVE_ELEMENTS; MONITOR_RETENTION; AB_TEST_THUMBNAILS].
Proof. vm_compute. reflexivity. Qed.

End ActionItemProps.

(** ** Properties of the duration parser *)

Module YtFetchProps.
Import Py YtFetch PyFacts.

(** [int] of a finite, non-negative float is a non-negative integer. *)
Lemma int_of_float_nonneg (f : float) :
  (0 <=? f)%float = true -> (f <? infinity)%float = true ->
  exists n : Z, int_of_float f = Value n /\ 0 <= n.
Proof.
  rewrite leb_spec, ltb_spec. unfold int_of_float.
  change (Prim2SF 0) with (S754_zero false).
  change (Prim2SF infinity) with (S754_infinity false).
  destruct (Prim2SF f) as [s | s | | s m e]; cbn.
  - intros _ _. exists 0. split; [reflexivity | lia].
  - destruct s; discriminate.
  - discriminate.
  - destruct s; [discriminate|]. intros _ _.
    exists (Z.shiftl (Z.pos m) e). split; [reflexivity|].
    apply Z.shiftl_nonneg. lia.
Qed.

Lemma Prim2SF_minus_one : Prim2SF (-1)%float = S754_finite true 4503599627370496 (-52).
Proof. vm_compute. reflexivity. Qed.

(** A negative finite value that is not above another one has a larger
    exponent, or the same exponent and a mantissa that is not smaller. *)
Lemma SFleb_negative (m1 m2 : positive) (e1 e2 : Z) :
  SFleb (S754_finite true m1 e1) (S754_finite true m2 e2) = true ->
  e1 = e2 /\ Z.pos m2 <= Z.pos m1 \/ e2 < e1.
Proof.
  cbn [SFleb SFcompare].
  destruct (Z.compare_spec e1 e2) as [-> | Hlt | Hgt].
  - change (PosDef.Pos.compare_cont Eq m1 m2) with (Pos.compare m1 m2).
    destruct (Pos.compare_spec m1 m2) as [Heq | Hlt | Hgt];
      cbn [CompOpp]; try discriminate; intros _; left; split; try reflexivity; lia.
  - discriminate.
  - intros _. now right.
Qed.

(** The mantissa of a binary64 value above the subnormal range has 53 bits. *)
Lemma normal_mantissa (s : bool) (m : positive) (e : Z) :
  SpecFloat.valid_binary prec emax (S754_finite s m e) = true ->
  -1074 < e -> 2 ^ 52 <= Z.pos m.
Proof.
  intros Hvalid He.
  unfold SpecFloat.valid_binary, bounded, canonical_mantissa, fexp in Hvalid.
  apply andb_prop in Hvalid as [Hcanon _]. apply Z.eqb_eq in Hcanon.
  change (SpecFloat.emin prec emax) with (-1074) in Hcanon.
  change prec with 53 in Hcanon.
  assert (Hdigits : Z.pos (digits2_pos m) = 53) by lia.
  pose proof (FloatFacts.Zdigits2_log2 m) as Hlog. cbn [Zdigits2] in Hlog.
  assert (Hl : 52 <= Z.log2 (Z.pos m)) by lia.
  apply Z.log2_le_pow2 in Hl; [exact Hl | lia].
Qed.

Lemma shiftl_at_least_one (m : positive) (e : Z) :
  2 ^ 52 <= Z.pos m -> -52 <= e -> 1 <= Z.shiftl (Z.pos m) e.
Proof.
  intros Hbig He52.
  destruct (Z.le_gt_cases 0 e) as [He | He].
  - rewrite Z.shiftl_mul_pow2 by exact He.
    pose proof (Z.pow_pos_nonneg 2 e ltac:(lia) He).
    pose proof (Z.pow_pos_nonneg 2 52 ltac:(lia) ltac:(lia)).
    assert (Z.pos m * 1 <= Z.pos m * 2 ^ e) by (apply Z.mul_le_mono_nonneg_l; lia).
    lia.
  - rewrite Z.shiftl_div_pow2 by lia.
    assert (Hpow : 2 ^ (- e) <= 2 ^ 52) by (apply Z.pow_le_mono_r; lia).
    apply Z.div_le_lower_bound; [apply Z.pow_pos_nonneg; lia | lia].
Qed.

(** [int] of a finite float that is at most -1 is an integer that is at most -1. *)
Lemma int_of_float_negative (f : float) :
  (f <=? -1)%float = true -> (neg_infinity <? f)%float = true ->
  exists n : Z, int_of_float f = Value n /\ n <= -1.
Proof.
  rewrite leb_spec, ltb_spec, Prim2SF_minus_one. unfold int_of_float.
  change (Prim2SF neg_infinity) with (S754_infinity true).
  pose proof (Prim2SF_valid f) as Hvalid.
  destruct (Prim2SF f) as [s | s | | s m e].
  - discriminate.
  - destruct s; discriminate.
  - discriminate.
  - destruct s; [|discriminate]. intros Hle%SFleb_negative _.
    exists (- Z.shiftl (Z.pos m) e). split; [reflexivity|].
    assert (Hbig : 2 ^ 52 <= Z.pos m).
    { destruct Hle as [[_ H] | He]; [exact H|].
      apply (normal_mantissa true m e Hvalid). lia. }
    assert (He52 : -52 <= e) by (destruct Hle as [[-> _] | ?]; lia).
    pose proof (shiftl_at_least_one m e Hbig He52). lia.
Qed.

Lemma SFltb_negative (m1 m2 : positive) (e1 e2 : Z) :
  SFltb (S754_finite true m1 e1) (S754_finite true m2 e2) = true ->
  e1 = e2 /\ Z.pos m2 < Z.pos m1 \/ e2 < e1.
Proof.
  cbn [SFltb SFcompare].
  destruct (Z.compare_spec e1 e2) as [-> | Hlt | Hgt].
  - change (PosDef.Pos.compare_cont Eq m1 m2) with (Pos.compare m1 m2).
    destruct (Pos.compare_spec m1 m2) as [Heq | Hlt | Hgt];
      cbn [CompOpp]; try discriminate; intros _; left; split; try reflexivity; lia.
  - discriminate.
  - intros _. now right.
Qed.

(** The mantissa of a binary64 value has at most 53 bits. *)
Lemma mantissa_below (s : bool) (m : positive) (e : Z) :
  SpecFloat.valid_binary prec emax (S754_finite s m e) = true -> Z.pos m < 2 ^ 53.
Proof.
  intros Hvalid.
  unfold SpecFloat.valid_binary, bounded, canonical_mantissa, fexp in Hvalid.
  apply andb_prop in Hvalid as [Hcanon _]. apply Z.eqb_eq in Hcanon.
  change prec with 53 in Hcanon.
  assert (Hdigits : Z.pos (digits2_pos m) <= 53) by lia.
  pose proof (FloatFacts.Zdigits2_log2 m) as Hlog. cbn [Zdigits2] in Hlog.
  assert (Hl : Z.log2 (Z.pos m) < 53) by lia.
  apply Z.log2_lt_pow2 in Hl; [exact Hl | lia].
Qed.

Lemma shiftl_below_one (m : positive) (e : Z) :
  e = -52 /\ Z.pos m < 2 ^ 52 \/ e < -52 /\ Z.pos m < 2 ^ 53 ->
  Z.shiftl (Z.pos m) e = 0.
Proof.
  intros H. rewrite Z.shiftl_div_pow2 by lia. apply Z.div_small. split; [lia|].
  destruct H as [[-> H] | [He H]]; [exact H|].
  assert (Hpow : 2 ^ 53 <= 2 ^ (- e)) by (apply Z.pow_le_mono_r; lia). lia.
Qed.

(** [int] truncates toward zero: a float between -1 and 0 gives 0. *)
Lemma int_of_float_fraction (f : float) :
  (-1 <? f)%float = true -> (f <? 0)%float = true -> int_of_float f = Value 0.
Proof.
  rewrite !ltb_spec, Prim2SF_minus_one. unfold int_of_float.
  change (Prim2SF 0) with (S754_zero false).
  pose proof (Prim2SF_valid f) as Hvalid.
  destruct (Prim2SF f) as [s | s | | s m e].
  - intros _. destruct s; discriminate.
  - destruct s; discriminate.
  - discriminate.
  - destruct s; [|intros _; discriminate]. intros Hlt%SFltb_negative _.
    rewrite shiftl_below_one; [reflexivity|].
    destruct Hlt as [[<- H] | He]; [left; split; [reflexivity | exact H]|].
    right. split; [exact He|]. exact (mantissa_below true m e Hvalid).
Qed.

Section ParseDurationProps.

Variable isodate_total_seconds : string -> outcome float.

(** C8, amended: the duration parser never raises: on every text (and on
    [None]) it returns a value.  That value is [None] on the empty text and
    on any text the library rejects, or whose duration [int] cannot convert;
    on a text the library reads as a finite duration it is that duration
    truncated toward zero to an integer count of seconds, with the sign of
    the duration: non-negative for a duration that is not negative, at most
    -1 for a duration of minus one second or less, and 0 in between. *)
Theorem parse_iso8601_duration_total (text : string) :
  parse_iso8601_duration isodate_total_seconds None = Value None
  /\ exists r : option Z,
       parse_iso8601_duration isodate_total_seconds (Some text) = Value r
       /\ (text = EmptyString -> r = None)
       /\ (forall e, isodate_total_seconds text = Raises e -> r = None)
       /\ (forall f e, isodate_total_seconds text = Value f ->
             int_of_float f = Raises e -> r = None)
       /\ (forall f, text <> EmptyString ->
             isodate_total_seconds text = Value f ->
             (0 <=? f)%float = true -> (f <? infinity)%float = true ->
             exists n : Z, r = Some n /\ 0 <= n /\ int_of_float f = Value n)
       /\ (forall f, text <> EmptyString ->
             isodate_total_seconds text = Value f ->
             (f <=? -1)%float = true -> (neg_infinity <? f)%float = true ->
             exists n : Z, r = Some n /\ n <= -1 /\ int_of_float f = Value n)
       /\ (forall f, text <> EmptyString ->
             isodate_total_seconds text = Value f ->
             (-1 <? f)%float = true -> (f <? 0)%float = true -> r = Some 0).
Proof.
  split; [reflexivity|].
  destruct text as [|c text].
  { exists None. repeat split; try reflexivity; intros f Hne; now destruct Hne. }
  cbn [parse_iso8601_duration].
  destruct (isodate_total_seconds (String c text)) as [f | e] eqn:Hlib.
  - rewrite bind_Value.
    destruct (int_of_float f) as [n | e] eqn:Hint.
    + exists (Some n). repeat split; try discriminate.
      * intros f' e [= <-]. rewrite Hint. discriminate.
      * intros f' _ [= <-] Hpos Hfin.
        destruct (int_of_float_nonneg f Hpos Hfin) as (n' & Hn' & Hle).
        rewrite Hint in Hn'. injection Hn' as <-. now exists n.
      * intros f' _ [= <-] Hneg Hfin.
        destruct (int_of_float_negative f Hneg Hfin) as (n' & Hn' & Hle).
        rewrite Hint in Hn'. injection Hn' as <-. now exists n.
      * intros f' _ [= <-] Hlow Hneg.
        rewrite (int_of_float_fraction f Hlow Hneg) in Hint. congruence.
    + exists None. repeat split; try reflexivity.
      * intros f' _ [= <-] Hpos Hfin.
        destruct (int_of_float_nonneg f Hpos Hfin) as (n' & Hn' & _).
        rewrite Hint in Hn'. discriminate.
      * intros f' _ [= <-] Hneg Hfin.
        destruct (int_of_float_negative f Hneg Hfin) as (n' & Hn' & _).
        rewrite Hint in Hn'. discriminate.
      * intros f' _ [= <-] Hlow Hneg.
        rewrite (int_of_float_fraction f Hlow Hneg) in Hint. discriminate.
  - exists None. repeat split; try reflexivity; discriminate.
Qed.

End ParseDurationProps.

Lemma parse_iso8601_duration_total_witness :
  parse_iso8601_duration ten_minutes_only None = Value None
  /\ exists r : option Z,
       parse_iso8601_duration ten_minutes_only (Some "PT10M"%string) = Value r
       /\ ("PT10M"%string = EmptyString -> r = None)
       /\ (forall e, ten_minutes_only "PT10M" = Raises e -> r = None)
       /\ (forall f e, ten_minutes_only "PT10M" = Value f ->
             int_of_float f = Raises e -> r = None)
       /\ (forall f, "PT10M"%string <> EmptyString ->
             ten_minutes_only "PT10M" = Value f ->
             (0 <=? f)%float = true -> (f <? infinity)%float = true ->
             exists n : Z, r = Some n /\ 0 <= n /\ int_of_float f = Value n)
       /\ (forall f, "PT10M"%string <> EmptyString ->
             ten_minutes_only "PT10M" = Value f ->
             (f <=? -1)%float = true -> (neg_infinity <? f)%float = true ->
             exists n : Z, r = Some n /\ n <= -1 /\ int_of_float f = Value n)
       /\ (forall f, "PT10M"%string <> EmptyString ->
             ten_minutes_only "PT10M" = Value f ->
             (-1 <? f)%float = true -> (f <? 0)%float = true -> r = Some 0).
Proof.
  exact (parse_iso8601_duration_total ten_minutes_only "PT10M"%string).
Defined.

(** C8, as stated: on well-formed duration notation the parser would return
    a non-negative count of seconds.  It does not: the library reads [-PT5S]
    as minus five seconds, and the parser, which checks no sign, returns -5. *)
Lemma parse_iso8601_duration_negative :
  signed_durations "-PT5S" = Value (-5)%float
  /\ parse_iso8601_duration signed_durations (Some "-PT5S"%string) = Value (Some (-5))
  /\ ~ (forall n : Z,
          parse_iso8601_duration signed_durations (Some "-PT5S"%string) = Value (Some n) ->
          0 <= n).
Proof.
  assert (Hrun : parse_iso8601_duration signed_durations (Some "-PT5S"%string)
                 = Value (Some (-5))) by (vm_compute; reflexivity).
  split; [reflexivity|]. split; [exact Hrun|].
  intros H. specialize (H (-5) Hrun). lia.
Qed.

(** The parser on a text the stand-in library reads, on one it rejects, and
    on the empty text. *)
Example parse_iso8601_duration_runs :
  parse_iso8601_duration ten_minutes_only (Some "PT10M"%string) = Value (Some 600)
  /\ parse_iso8601_duration ten_minutes_only (Some "ten minutes"%string) = Value None
  /\ parse_iso8601_duration ten_minutes_only (Some EmptyString) = Value None
  /\ parse_iso8601_duration ten_minutes_only None = Value None.
Proof. repeat split; vm_compute; reflexivity. Qed.

End YtFetchProps.

(** ** Properties of the clustering entry point *)

Module RecommenderProps.
Import Py Pandas Recommender PyFacts PandasFacts.
Local Open Scope string_scope.

(** What the assignment of line 18 does to the frame. *)
Lemma setitem_cluster (frame frame' : DataFrame) (labels : list Z) :
  setitem frame "cluster" (Int <$> labels) = Value frame' ->
  length labels = length (rows frame)
  /\ "cluster" ∈ columns frame'
  /\ rows frame'
     = zip_with (fun r label => <["cluster" := Int label]> r) (rows frame) labels
  /\ (forall c, c ∈ columns frame -> c ∈ columns frame')
  /\ ("cluster" ∉ columns frame -> frame' <> frame).
Proof.
  unfold setitem. rewrite length_fmap.
  destruct (Nat.eqb_spec (length labels) (length (rows frame))) as [Hlen | Hlen];
    [|discriminate].
  intros [= <-]. cbn [columns rows]. repeat split.
  - exact Hlen.
  - unfold has_column. destruct (bool_decide ("cluster" ∈ columns frame)) eqn:H.
    + exact (bool_decide_eq_true_1 _ H).
    + apply elem_of_app. right. now left.
  - clear. generalize (rows frame). induction labels as [|l ls IH]; intros [|r rs];
      cbn; try reflexivity. now rewrite IH.
  - intros c Hc. destruct (has_column "cluster" frame); [exact Hc|].
    apply elem_of_app. now left.
  - intros Hnew Heq. apply Hnew. rewrite <- Heq at 1. cbn [columns].
    rewrite has_column_false by exact Hnew. apply elem_of_app. right. now left.
Qed.

(** The [cluster] column that line 18 of [cluster_videos] writes, read back. *)
Lemma cluster_column_written (rs : list (gmap string cell)) (labels : list Z) :
  length labels = length rs ->
  at_column "cluster"
    <$> zip_with (fun r label => <["cluster"%string := Int label]> r) rs labels
  = Int <$> labels.
Proof.
  revert labels. induction rs as [|r rs IH]; intros [|l ls] Hlen; try discriminate;
    [reflexivity|].
  cbn [zip_with fmap list_fmap]. rewrite at_column_insert. f_equal.
  apply IH. now injection Hlen.
Qed.

Section ClusterVideosProps.

Variable embeddings : Type.
Variable encode : list cell -> outcome embeddings.
Variable fit_labels : Z -> embeddings -> outcome (list Z).

(** C10: [cluster_videos] works in place.  Called on a reference to a frame,
    it returns whenever the texts are built and the two library calls return
    one label per row; and whenever it returns, it returns the reference it
    was given, no frame has been allocated, the store differs from the old
    one at that reference only, and the caller's frame now carries a
    [cluster] column that holds, row by row, the labels that the clustering
    computed: those [fit_labels] returned for [min(n_clusters, len(df))]
    clusters on the embeddings of the frame's texts (so a frame that had no
    [cluster] column has been changed). *)
Theorem cluster_videos_in_place (df : ref) (n_clusters : Z) (store : gmap ref DataFrame)
    (frame : DataFrame) :
  store !! df = Some frame ->
  (forall texts embs labels,
     texts_of frame = Value texts ->
     encode texts = Value embs ->
     fit_labels (Z.min n_clusters (len_df frame)) embs = Value labels ->
     length labels = length (rows frame) ->
     exists frame' : DataFrame,
       cluster_videos embeddings encode fit_labels df n_clusters store
       = Value (df, <[df := frame']> store)
       /\ at_column "cluster" <$> rows frame' = Int <$> labels)
  /\ (forall (returned : ref) (store' : gmap ref DataFrame),
        cluster_videos embeddings encode fit_labels df n_clusters store
        = Value (returned, store') ->
        returned = df
        /\ dom store' = dom store
        /\ (forall other, other <> df -> store' !! other = store !! other)
        /\ exists (frame' : DataFrame) (texts : list cell) (embs : embeddings)
                  (labels : list Z),
             texts_of frame = Value texts
             /\ encode texts = Value embs
             /\ fit_labels (Z.min n_clusters (len_df frame)) embs = Value labels
             /\ store' !! df = Some frame'
             /\ "cluster" ∈ columns frame'
             /\ at_column "cluster" <$> rows frame' = Int <$> labels
             /\ rows frame'
                = zip_with (fun r label => <["cluster" := Int label]> r) (rows frame) labels
             /\ length labels = length (rows frame)
             /\ (forall c, c ∈ columns frame -> c ∈ columns frame')
             /\ ("cluster" ∉ columns frame -> store' !! df <> store !! df)).
Proof.
  intros Hdf. split.
  - intros texts embs labels Htexts Hembs Hlabels Hlen.
    unfold cluster_videos. rewrite Hdf.
    rewrite Htexts, bind_Value, Hembs, bind_Value. cbv zeta.
    rewrite Hlabels, bind_Value.
    destruct (setitem frame "cluster" (Int <$> labels)) as [frame' | e] eqn:Hset.
    + rewrite bind_Value. exists frame'. split; [reflexivity|].
      destruct (setitem_cluster frame frame' labels Hset) as (_ & _ & Hrows & _).
      rewrite Hrows. now apply cluster_column_written.
    + unfold setitem in Hset. rewrite length_fmap, Hlen, Nat.eqb_refl in Hset.
      discriminate.
  - intros returned store'. unfold cluster_videos. rewrite Hdf.
    destruct (texts_of frame) as [texts | e]; [rewrite bind_Value | discriminate].
    destruct (encode texts) as [embs | e] eqn:Hembs; [rewrite bind_Value | discriminate].
    cbv zeta.
    destruct (fit_labels (Z.min n_clusters (len_df frame)) embs) as [labels | e] eqn:Hfit;
      [rewrite bind_Value | discriminate].
    destruct (setitem frame "cluster" (Int <$> labels)) as [frame' | e] eqn:Hset;
      [rewrite bind_Value | discriminate].
    intros [= <- <-].
    destruct (setitem_cluster frame frame' labels Hset)
      as (Hlen & Hcluster & Hrows & Hcols & Hchanged).
    split; [reflexivity|]. split; [|split].
    + apply dom_insert_lookup_L. now exists frame.
    + intros other Hne. now apply lookup_insert_ne.
    + exists frame', texts, embs, labels. rewrite lookup_insert_eq.
      repeat split; try assumption.
      * rewrite Hrows. now apply cluster_column_written.
      * intros Hnew [= Heq]. now apply (Hchanged Hnew).
Qed.

End ClusterVideosProps.

(** Labels that differ from row to row, to run [cluster_videos]: the rows are
    numbered from 0. *)
Lemma cluster_videos_in_place_witness :
  (forall texts embs labels,
     texts_of two_videos = Value texts ->
     identity_encode texts = Value embs ->
     numbered_clusters (Z.min 8 (len_df two_videos)) embs = Value labels ->
     length labels = length (rows two_videos) ->
     exists frame' : DataFrame,
       cluster_videos (list cell) identity_encode numbered_clusters 1%positive 8
         {[ 1%positive := two_videos ]}
       = Value (1%positive, <[1%positive := frame']> {[ 1%positive := two_videos ]})
       /\ at_column "cluster" <$> rows frame' = Int <$> labels)
  /\ (forall (returned : ref) (store' : gmap ref DataFrame),
        cluster_videos (list cell) identity_encode numbered_clusters 1%positive 8
          {[ 1%positive := two_videos ]} = Value (returned, store') ->
        returned = 1%positive
        /\ dom store' = dom ({[ 1%positive := two_videos ]} : gmap ref DataFrame)
        /\ (forall other, other <> 1%positive ->
              store' !! other = ({[ 1%positive := two_videos ]} : gmap ref DataFrame) !! other)
        /\ exists (frame' : DataFrame) (texts : list cell) (embs : list cell)
                  (labels : list Z),
             texts_of two_videos = Value texts
             /\ identity_encode texts = Value embs
             /\ numbered_clusters (Z.min 8 (len_df two_videos)) embs = Value labels
             /\ store' !! 1%positive = Some frame'
             /\ "cluster" ∈ columns frame'
             /\ at_column "cluster" <$> rows frame' = Int <$> labels
             /\ rows frame'
                = zip_with (fun r label => <["cluster" := Int label]> r)
                    (rows two_videos) labels
             /\ length labels = length (rows two_videos)
             /\ (forall c, c ∈ columns two_videos -> c ∈ columns frame')
             /\ ("cluster" ∉ columns two_videos ->
                 store' !! 1%positive
                 <> ({[ 1%positive := two_videos ]} : gmap ref DataFrame) !! 1%positive)).
Proof.
  apply (cluster_videos_in_place (list cell) identity_encode numbered_clusters
           1%positive 8 {[ 1%positive := two_videos ]} two_videos).
  reflexivity.
Defined.

(** Running the call: the frame the caller still holds has the new column. *)
Example cluster_videos_runs :
  (p ← cluster_videos (list cell) identity_encode one_cluster 1%positive 8
         {[ 1%positive := two_videos ]};
   match p.2 !! p.1 with
   | Some frame => labels ← getitem frame "cluster"; mret (p.1, labels)
   | None => Raises TypeError
   end)
  = Value (1%positive, [Int 0; Int 0])
  /\ getitem two_videos "cluster" = Raises KeyError
  /\ (p ← cluster_videos (list cell) identity_encode numbered_clusters 1%positive 8
            {[ 1%positive := two_videos ]};
      match p.2 !! p.1 with
      | Some frame => getitem frame "cluster"
      | None => Raises TypeError
      end)
     = Value [Int 0; Int 1].
Proof. repeat split; vm_compute; reflexivity. Qed.

End RecommenderProps.

(** ** Properties of the duration display *)

Module FormatProps.
Import Py YtFetchFormat.

Lemma colons_app (s1 s2 : string) :
  colons (s1 ++ s2)%string = (colons s1 + colons s2)%nat.
Proof.
  induction s1 as [|c s1 IH]; [reflexivity|].
  change (colons (String c (s1 ++ s2)) = (colons (String c s1) + colons s2)%nat).
  cbn [colons]. rewrite IH. lia.
Qed.

Lemma colons_pretty_N_go (x : N) (s : string) : colons (pretty_N_go x s) = colons s.
Proof.
  revert s. induction (N.lt_wf_0 x) as [x _ IH]; intros s.
  destruct (N.eq_dec x 0%N) as [-> | Hx]; [reflexivity|].
  rewrite pretty_N_go_step by lia.
  rewrite IH by (apply N.div_lt; lia).
  cbn [colons].
  assert (Hdigit : Ascii.eqb (pretty_N_char (x `mod` 10)) ":" = false)
    by (unfold pretty_N_char; repeat case_match; reflexivity).
  now rewrite Hdigit.
Qed.

(** The decimal digits of an integer hold no colon. *)
Lemma colons_pretty (n : Z) : colons (pretty n) = 0%nat.
Proof.
  assert (HN : forall x : N, colons (pretty x) = 0%nat).
  { intros x. unfold pretty, pretty_N. case_decide; [reflexivity|].
    apply colons_pretty_N_go. }
  destruct n as [|p|p]; [reflexivity | apply HN |].
  unfold pretty, pretty_Z. rewrite colons_app. cbn. apply HN.
Qed.

Lemma colons_format_02d (n : Z) : colons (format_02d n) = 0%nat.
Proof.
  unfold format_02d. cbv zeta. case_match.
  - rewrite colons_app, colons_pretty. reflexivity.
  - apply colons_pretty.
Qed.

(** A text is cut at its first colon in one way only. *)
Lemma first_colon_unique (a a' r r' : string) :
  colons a = 0%nat -> colons a' = 0%nat ->
  (a ++ String ":" r)%string = (a' ++ String ":" r')%string ->
  a = a' /\ r = r'.
Proof.
  revert a'. induction a as [|c a IH]; intros [|c' a'] Ha Ha' Heq; cbn in *.
  - now injection Heq.
  - injection Heq as <- _. cbn in Ha'. discriminate.
  - injection Heq as -> _. cbn in Ha. discriminate.
  - injection Heq as -> Heq.
    destruct (Ascii.eqb c' ":"%char); [discriminate|].
    destruct (IH a' Ha Ha' Heq) as [-> ->]. split; reflexivity.
Qed.

(** Two-digit fields below 60 are told apart. *)
Lemma format_02d_inj_60 (n n' : Z) :
  0 <= n < 60 -> 0 <= n' < 60 -> format_02d n = format_02d n' -> n = n'.
Proof.
  intros Hn Hn'.
  assert (Hall : Forall (fun i => Forall (fun j => format_02d i = format_02d j -> i = j)
                                   (seqZ 0 60)) (seqZ 0 60)).
  { apply (bool_decide_unpack _). vm_compute. exact I. }
  assert (Hin : n ∈ seqZ 0 60) by (apply elem_of_seqZ; lia).
  assert (Hin' : n' ∈ seqZ 0 60) by (apply elem_of_seqZ; lia).
  rewrite Forall_forall in Hall. specialize (Hall n Hin).
  rewrite Forall_forall in Hall. exact (Hall n' Hin').
Qed.

(** The two shapes of the display, for a positive number of seconds. *)
Lemma format_duration_positive (s : Z) :
  0 < s ->
  format_duration (Some s)
  = if 3600 <=? s
    then (pretty (s / 3600) ++ ":" ++ format_02d ((s mod 3600) / 60)
            ++ ":" ++ format_02d (s mod 60))%string
    else (pretty (s / 60) ++ ":" ++ format_02d (s mod 60))%string.
Proof.
  intros Hs. unfold format_duration.
  rewrite (proj2 (Z.eqb_neq s 0)) by lia. cbv zeta.
  destruct (Z.leb_spec 3600 s) as [Hbig | Hsmall].
  - assert (0 < s / 3600) by (apply Z.div_str_pos; lia).
    now rewrite (proj2 (Z.ltb_lt 0 (s / 3600))) by lia.
  - rewrite (Z.div_small s 3600), (Z.mod_small s 3600) by lia. reflexivity.
Qed.

Lemma colons_clock_2 (h m s : Z) :
  colons (pretty h ++ ":" ++ format_02d m ++ ":" ++ format_02d s)%string = 2%nat.
Proof.
  rewrite !colons_app, colons_pretty, !colons_format_02d. reflexivity.
Qed.

Lemma colons_clock_1 (m s : Z) :
  colons (pretty m ++ ":" ++ format_02d s)%string = 1%nat.
Proof.
  rewrite !colons_app, colons_pretty, colons_format_02d. reflexivity.
Qed.

(** Only zero seconds are shown as [0:00] among the non-negative durations. *)
Lemma format_duration_positive_not_zero (s : Z) :
  0 < s -> format_duration (Some s) <> "0:00"%string.
Proof.
  intros Hs Heq. rewrite format_duration_positive in Heq by exact Hs.
  destruct (Z.leb_spec 3600 s) as [Hbig | Hsmall].
  - apply (f_equal colons) in Heq. rewrite colons_clock_2 in Heq. discriminate.
  - change "0:00"%string with (pretty 0 ++ String ":" (format_02d 0))%string in Heq.
    apply first_colon_unique in Heq as [Hm Hs']; try apply colons_pretty.
    apply (inj pretty) in Hm.
    apply format_02d_inj_60 in Hs'; try lia.
    + pose proof (Z.div_mod s 60 ltac:(lia)). lia.
    + apply Z.mod_pos_bound. lia.
Qed.

(** X1: on non-negative durations the display is injective: two different
    numbers of seconds are never shown as the same text. *)
Theorem format_duration_injective (a b : Z) :
  0 <= a -> 0 <= b -> a <> b ->
  format_duration (Some a) <> format_duration (Some b).
Proof.
  pose proof format_duration_positive_not_zero as Hzero.
  intros Ha Hb Hne Heq. apply Hne. clear Hne.
  destruct (Z.eq_dec a 0) as [-> | Ha0]; [|destruct (Z.eq_dec b 0) as [-> | Hb0]].
  - destruct (Z.eq_dec b 0) as [-> | Hb0]; [reflexivity|].
    symmetry in Heq. now apply Hzero in Heq; [|lia].
  - now apply Hzero in Heq; [|lia].
  - rewrite !format_duration_positive in Heq by lia.
    pose proof (Z.mod_pos_bound a 60 ltac:(lia)).
    pose proof (Z.mod_pos_bound b 60 ltac:(lia)).
    destruct (Z.leb_spec 3600 a) as [Habig | Hasmall];
      destruct (Z.leb_spec 3600 b) as [Hbbig | Hbsmall].
    + apply first_colon_unique in Heq as [Hh Hrest]; try apply colons_pretty.
      apply first_colon_unique in Hrest as [Hm Hs]; try apply colons_format_02d.
      apply (inj pretty) in Hh.
      pose proof (Z.mod_pos_bound a 3600 ltac:(lia)).
      pose proof (Z.mod_pos_bound b 3600 ltac:(lia)).
      apply format_02d_inj_60 in Hm;
        [|split; [apply Z.div_pos; lia | apply Z.div_lt_upper_bound; lia]..].
      apply format_02d_inj_60 in Hs; try lia.
      pose proof (Z.div_mod a 3600 ltac:(lia)).
      pose proof (Z.div_mod b 3600 ltac:(lia)).
      pose proof (Z.div_mod (a mod 3600) 60 ltac:(lia)) as Ea.
      pose proof (Z.div_mod (b mod 3600) 60 ltac:(lia)) as Eb.
      assert (Hma : (a mod 3600) mod 60 = a mod 60).
      { rewrite (Z.mod_eq a 3600) by lia.
        replace (a - 3600 * (a / 3600)) with (a + (- (60 * (a / 3600))) * 60) by lia.
        apply Z.mod_add. lia. }
      assert (Hmb : (b mod 3600) mod 60 = b mod 60).
      { rewrite (Z.mod_eq b 3600) by lia.
        replace (b - 3600 * (b / 3600)) with (b + (- (60 * (b / 3600))) * 60) by lia.
        apply Z.mod_add. lia. }
      lia.
    + apply (f_equal colons) in Heq. rewrite colons_clock_2, colons_clock_1 in Heq.
      discriminate.
    + apply (f_equal colons) in Heq. rewrite colons_clock_2, colons_clock_1 in Heq.
      discriminate.
    + apply first_colon_unique in Heq as [Hm Hs]; try apply colons_pretty.
      apply (inj pretty) in Hm.
      apply format_02d_inj_60 in Hs; try lia.
      pose proof (Z.div_mod a 60 ltac:(lia)).
      pose proof (Z.div_mod b 60 ltac:(lia)).
      lia.
Qed.

Lemma format_duration_injective_witness :
  format_duration (Some 3599) <> format_duration (Some 3600).
Proof.
  apply (format_duration_injective 3599 3600); lia.
Defined.

(** X2: a negative number of seconds loses its hours: it is shown as its
    remainder modulo one hour would be (so [-5] reads [59:55], and the
    display of negative durations is not injective). *)
Theorem format_duration_negative (s : Z) :
  s < 0 -> format_duration (Some s) = format_duration (Some (s mod 3600)).
Proof.
  intros Hs.
  assert (Hmod : (s mod 3600) mod 60 = s mod 60).
  { rewrite (Z.mod_eq s 3600) by lia.
    replace (s - 3600 * (s / 3600)) with (s + (- (60 * (s / 3600))) * 60) by lia.
    apply Z.mod_add. lia. }
  pose proof (Z.mod_pos_bound s 3600 ltac:(lia)) as Ht.
  assert (Hlhs : format_duration (Some s)
                 = (pretty ((s mod 3600) / 60) ++ ":" ++ format_02d (s mod 60))%string).
  { unfold format_duration. rewrite (proj2 (Z.eqb_neq s 0)) by lia. cbv zeta.
    assert (s / 3600 < 0) by (apply Z.div_lt_upper_bound; lia).
    now rewrite (proj2 (Z.ltb_ge 0 (s / 3600))) by lia. }
  rewrite Hlhs.
  destruct (Z.eq_dec (s mod 3600) 0) as [H0 | Hpos].
  - rewrite <- Hmod, H0. reflexivity.
  - rewrite format_duration_positive by lia.
    rewrite (proj2 (Z.leb_gt 3600 (s mod 3600))) by lia.
    now rewrite Hmod.
Qed.

Lemma format_duration_negative_witness :
  format_duration (Some (-5)) = format_duration (Some ((-5) mod 3600)).
Proof. apply format_duration_negative. lia. Defined.

Section FetchDurationProps.

Variable isodate_total_seconds : string -> outcome float.

(** X3: the duration fields of a fetched record never raise, whatever the
    library does.  An absent or empty duration text gives [duration_s = 0];
    a text the library rejects gives [duration_s = None]; both are displayed
    as [0:00], and no positive duration is. *)
Theorem fetch_duration_fields_total (duration_iso : option string) :
  exists (duration_s : option Z) (duration_formatted : string),
    fetch_duration_fields isodate_total_seconds duration_iso
    = Value (duration_s, duration_formatted)
    /\ duration_formatted = format_duration duration_s
    /\ (duration_iso = None \/ duration_iso = Some EmptyString ->
        duration_s = Some 0)
    /\ (forall text e, duration_iso = Some text ->
          text <> EmptyString -> isodate_total_seconds text = Raises e ->
          duration_s = None)
    /\ (duration_s = None \/ duration_s = Some 0 -> duration_formatted = "0:00"%string)
    /\ (forall n, duration_s = Some n -> 0 < n -> duration_formatted <> "0:00"%string).
Proof.
  assert (Hshape : forall ds : option Z,
            (ds = None \/ ds = Some 0 -> format_duration ds = "0:00"%string)
            /\ (forall n, ds = Some n -> 0 < n -> format_duration ds <> "0:00"%string)).
  { intros ds. split.
    - intros [-> | ->]; reflexivity.
    - intros n -> Hn. now apply format_duration_positive_not_zero. }
  unfold fetch_duration_fields.
  destruct duration_iso as [[|c text]|].
  - exists (Some 0), "0:00"%string. repeat split; try discriminate; try lia.
    + intros text e [= <-] Hne. now destruct Hne.
    + intros n [= <-]. lia.
  - cbn [YtFetch.parse_iso8601_duration].
    destruct (isodate_total_seconds (String c text)) as [f | e] eqn:Hlib.
    + rewrite PyFacts.bind_Value.
      destruct (int_of_float f) as [n | e] eqn:Hint; cbn.
      * exists (Some n), (format_duration (Some n)).
        repeat split; try apply Hshape; try discriminate.
        -- intros [H | H]; discriminate.
        -- intros text' e [= <-] _ H. rewrite Hlib in H. discriminate.
      * exists None, "0:00"%string. repeat split; try discriminate.
        intros [H | H]; discriminate.
    + cbn. exists None, "0:00"%string. repeat split; try discriminate.
      intros [H | H]; discriminate.
  - exists (Some 0), "0:00"%string. repeat split; try discriminate; try lia.
    intros n [= <-]. lia.
Qed.

End FetchDurationProps.

Example format_duration_runs :
  format_duration (Some 0) = "0:00"%string /\ format_duration (Some 59) = "0:59"%string
  /\ format_duration (Some 600) = "10:00"%string
  /\ format_duration (Some 3661) = "1:01:01"%string
  /\ format_duration (Some (-5)) = "59:55"%string /\ format_duration None = "0:00"%string.
Proof. repeat split; vm_compute; reflexivity. Qed.

End FormatProps.

(** ** Properties of the URL reader *)

Module DashboardProps.
Import Py Dashboard YtFetchFormat.

#[local] Arguments String.append !_ _ / : simpl nomatch.

Lemma id_run_app (id tail : string) :
  forallb id_char (list_ascii_of_string id) = true ->
  id_run tail = EmptyString ->
  id_run (id ++ tail) = id.
Proof.
  induction id as [|c id IH]; intros Hid Htail; [exact Htail|].
  cbn in Hid. apply andb_prop in Hid as [Hc Hid].
  change (id_run (String c (id ++ tail)) = String c id).
  cbn [id_run]. rewrite Hc, IH by assumption. reflexivity.
Qed.

Lemma id_run_stops (tail : string) :
  tail = EmptyString \/ (exists c rest, tail = String c rest /\ id_char c = false) ->
  id_run tail = EmptyString.
Proof.
  intros [-> | (c & rest & -> & Hc)]; [reflexivity|]. cbn. now rewrite Hc.
Qed.

Lemma id_run_clean (s : string) :
  forallb id_char (list_ascii_of_string (id_run s)) = true.
Proof.
  induction s as [|c s IH]; [reflexivity|].
  cbn. destruct (id_char c) eqn:Hc; [|reflexivity].
  cbn. now rewrite Hc, IH.
Qed.

Lemma id_run_prefix (s : string) : exists after, s = (id_run s ++ after)%string.
Proof.
  induction s as [|c s [after IH]]; [now exists EmptyString|].
  cbn. destruct (id_char c).
  - exists after. cbn. f_equal. exact IH.
  - now exists (String c s).
Qed.

Lemma strip_prefix_app (p s rest : string) :
  strip_prefix p s = Some rest -> s = (p ++ rest)%string.
Proof.
  revert s. induction p as [|a p IH]; intros s H.
  - cbn in H. now injection H as ->.
  - destruct s as [|b s]; [discriminate|]. cbn in H.
    destruct (Ascii.eqb a b) eqn:Hab; [|discriminate].
    apply Ascii.eqb_eq in Hab as ->. cbn. f_equal. now apply IH.
Qed.

Lemma match_here_sound (alternatives : list string) (s group : string) :
  match_here alternatives s = Some group ->
  group <> EmptyString
  /\ forallb id_char (list_ascii_of_string group) = true
  /\ exists before after, s = (before ++ group ++ after)%string.
Proof.
  induction alternatives as [|p others IH]; [discriminate|].
  cbn. destruct (strip_prefix p s) as [rest|] eqn:Hp; [|exact IH].
  destruct (id_run rest) as [|c run] eqn:Hrun; [exact IH|].
  intros [= <-]. split; [discriminate|]. split.
  - rewrite <- Hrun. apply id_run_clean.
  - apply strip_prefix_app in Hp. destruct (id_run_prefix rest) as [after Hafter].
    exists p, after. rewrite Hp. rewrite <- Hrun. now rewrite <- Hafter.
Qed.

Lemma re_search_sound (alternatives : list string) (s group : string) :
  re_search alternatives s = Some group ->
  group <> EmptyString
  /\ forallb id_char (list_ascii_of_string group) = true
  /\ exists before after, s = (before ++ group ++ after)%string.
Proof.
  induction s as [|c s IH].
  - cbn. destruct (match_here alternatives EmptyString) eqn:Hm; [|discriminate].
    intros [= <-]. now apply match_here_sound in Hm.
  - cbn [re_search]. destruct (match_here alternatives (String c s)) eqn:Hm.
    + intros [= <-]. now apply match_here_sound in Hm.
    + intros H. apply IH in H as (Hne & Hclean & before & after & ->).
      repeat split; try assumption. now exists (String c before), after.
Qed.

(** No alternative of the first pattern matches inside a text without a dot. *)
Lemma strip_prefix_chars (p s rest : string) (c : ascii) :
  strip_prefix p s = Some rest ->
  In c (list_ascii_of_string p) -> In c (list_ascii_of_string s).
Proof.
  intros H%strip_prefix_app. subst s.
  induction p as [|a p IH]; [intros []|].
  cbn. intros [-> | Hin]; [now left | right; now apply IH].
Qed.

Lemma re_search_no_dot (s : string) :
  ~ In "."%char (list_ascii_of_string s) ->
  re_search ["youtube.com/watch?v="; "youtu.be/"; "youtube.com/embed/"]%string s = None.
Proof.
  assert (Hhere : forall s, ~ In "."%char (list_ascii_of_string s) ->
    match_here ["youtube.com/watch?v="; "youtu.be/"; "youtube.com/embed/"]%string s = None).
  { intros t Ht. cbn [match_here].
    repeat match goal with
    | |- context [strip_prefix ?p t] =>
        let E := fresh in
        destruct (strip_prefix p t) eqn:E;
        [exfalso; apply Ht; apply (strip_prefix_chars _ _ _ "."%char E);
         cbn; tauto|]
    end.
    reflexivity. }
  induction s as [|c s IH]; intros Hs.
  - reflexivity.
  - cbn [re_search]. rewrite (Hhere _ Hs). apply IH.
    intros Hin. apply Hs. now right.
Qed.

Lemma re_search_cons (alternatives : list string) (a : ascii) (s : string) :
  re_search alternatives (String a s)
  = match match_here alternatives (String a s) with
    | Some group => Some group
    | None => re_search alternatives s
    end.
Proof. reflexivity. Qed.

Lemma re_search_v_form (s : string) :
  ~ In "."%char (list_ascii_of_string s) ->
  re_search ["youtube.com/watch?v="; "youtu.be/"; "youtube.com/embed/"]%string
    ("https://www.youtube.com/v/" ++ s) = None.
Proof.
  intros Hdot. cbn -[re_search].
  do 26 (rewrite re_search_cons; cbn -[re_search]).
  now apply re_search_no_dot.
Qed.

(** X4: the watch-page address that the fetch layer builds for a video, also
    with query parameters or a fragment after it, reads back as the same
    video id. *)
Theorem extract_video_id_video_url (id tail : string) :
  id <> EmptyString ->
  forallb id_char (list_ascii_of_string id) = true ->
  tail = EmptyString \/ (exists c rest, tail = String c rest /\ id_char c = false) ->
  extract_video_id (video_url id ++ tail) = Some id.
Proof.
  intros Hne Hclean Htail%id_run_stops.
  pose proof (id_run_app id tail Hclean Htail) as Hrun.
  unfold extract_video_id, patterns, video_url.
  cbn -[id_run]. rewrite Hrun.
  destruct id; [contradiction|reflexivity].
Qed.

Lemma extract_video_id_video_url_witness :
  extract_video_id (video_url "dQw4w9WgXcQ" ++ "&t=42s") = Some "dQw4w9WgXcQ"%string.
Proof.
  apply (extract_video_id_video_url "dQw4w9WgXcQ" "&t=42s").
  - discriminate.
  - reflexivity.
  - right. exists "&"%char, "t=42s"%string. split; reflexivity.
Defined.

(** X5: whatever the address, an id that is returned is a non-empty piece of
    the address and holds none of the characters [&], newline, [?], [#]. *)
Theorem extract_video_id_sound (url id : string) :
  extract_video_id url = Some id ->
  id <> EmptyString
  /\ forallb id_char (list_ascii_of_string id) = true
  /\ exists before after, url = (before ++ id ++ after)%string.
Proof.
  unfold extract_video_id, patterns.
  destruct (re_search _ url) as [g|] eqn:H1.
  { intros [= <-]. now apply re_search_sound in H1. }
  destruct (re_search _ url) as [g|] eqn:H2 in |- *.
  { intros [= <-]. now apply re_search_sound in H2. }
  discriminate.
Qed.

Lemma extract_video_id_sound_witness :
  "dQw4w9WgXcQ"%string <> EmptyString
  /\ forallb id_char (list_ascii_of_string "dQw4w9WgXcQ") = true
  /\ exists before after,
       "https://youtu.be/dQw4w9WgXcQ?t=42"%string
       = (before ++ "dQw4w9WgXcQ" ++ after)%string.
Proof.
  apply (extract_video_id_sound "https://youtu.be/dQw4w9WgXcQ?t=42" "dQw4w9WgXcQ").
  vm_compute. reflexivity.
Defined.

(** X6: the short, embed and [/v/] forms of an address read back as the id
    they carry; for the [/v/] form, which only the second pattern knows,
    as long as no dot occurs in what follows [/v/]. *)
Theorem extract_video_id_other_forms (id tail : string) :
  id <> EmptyString ->
  forallb id_char (list_ascii_of_string id) = true ->
  tail = EmptyString \/ (exists c rest, tail = String c rest /\ id_char c = false) ->
  extract_video_id ("https://youtu.be/" ++ id ++ tail) = Some id
  /\ extract_video_id ("https://www.youtube.com/embed/" ++ id ++ tail) = Some id
  /\ (~ In "."%char (list_ascii_of_string (id ++ tail)) ->
      extract_video_id ("https://www.youtube.com/v/" ++ id ++ tail) = Some id).
Proof.
  intros Hne Hclean Htail%id_run_stops.
  pose proof (id_run_app id tail Hclean Htail) as Hrun.
  unfold extract_video_id, patterns.
  split; [|split].
  - cbn -[id_run]. rewrite Hrun. destruct id; [contradiction|reflexivity].
  - cbn -[id_run]. rewrite Hrun. destruct id; [contradiction|reflexivity].
  - intros Hdot. rewrite (re_search_v_form _ Hdot).
    cbn -[id_run]. rewrite Hrun. destruct id; [contradiction|reflexivity].
Qed.

Lemma extract_video_id_other_forms_witness :
  extract_video_id ("https://youtu.be/" ++ "dQw4w9WgXcQ" ++ "?t=42")
    = Some "dQw4w9WgXcQ"%string
  /\ extract_video_id ("https://www.youtube.com/embed/" ++ "dQw4w9WgXcQ" ++ "?t=42")
    = Some "dQw4w9WgXcQ"%string
  /\ (~ In "."%char (list_ascii_of_string ("dQw4w9WgXcQ" ++ "?t=42")) ->
      extract_video_id ("https://www.youtube.com/v/" ++ "dQw4w9WgXcQ" ++ "?t=42")
        = Some "dQw4w9WgXcQ"%string).
Proof.
  apply (extract_video_id_other_forms "dQw4w9WgXcQ" "?t=42").
  - discriminate.
  - reflexivity.
  - right. exists "?"%char, "t=42"%string. split; reflexivity.
Defined.

Example extract_video_id_runs :
  extract_video_id "https://www.youtube.com/watch?v=dQw4w9WgXcQ" = Some "dQw4w9WgXcQ"%string
  /\ extract_video_id "https://youtu.be/dQw4w9WgXcQ?t=42" = Some "dQw4w9WgXcQ"%string
  /\ extract_video_id "https://www.youtube.com/embed/dQw4w9WgXcQ" = Some "dQw4w9WgXcQ"%string
  /\ extract_video_id "https://www.youtube.com/v/dQw4w9WgXcQ#t" = Some "dQw4w9WgXcQ"%string
  /\ extract_video_id "https://www.youtube.com/watch?v=&list=x" = None
  /\ extract_video_id "https://example.com/" = None.
Proof. repeat split; vm_compute; reflexivity. Qed.

End DashboardProps.

(** ** Properties of the suggestions *)

Module SuggestionProps.
Import Py Analytics AnalyticsSuggestions.

Ltac by_computation :=
  match goal with
  | |- ?P => apply (bool_decide_unpack P); vm_compute; exact I
  end.

(** Settles the membership questions of a goal about a list of literals. *)
Ltac membership :=
  repeat match goal with
  | |- context [?x ∈ ?l] =>
      lazymatch goal with
      | _ : x ∈ l |- _ => fail
      | _ : x ∉ l |- _ => fail
      | _ => idtac
      end;
      first [ assert (x ∈ l) by by_computation
            | assert (x ∉ l) by by_computation ]
  end.

(** The list is the duration message, then the optional messages group by
    group, then the closing message. *)
Lemma generate_suggestions_parts (video_data : VideoData) (engagement_rate : float)
    (duration views : Z) :
  generate_suggestions video_data engagement_rate duration views
  = [if duration <? 120 then LONGER_CONTENT
     else if 1800 <? duration then QUITE_LONG
     else if duration <? 300 then SHORT_VIDEO else GOOD_LENGTH]
    ++ (if (engagement_rate <? 0.01)%float then [LOW_ENGAGEMENT]
        else if (0.05 <? engagement_rate)%float then [GREAT_ENGAGEMENT] else [])
    ++ (if 60 <? len (get (title video_data) EmptyString) then [TITLE_LONG]
        else if len (get (title video_data) EmptyString) <? 20 then [TITLE_SHORT] else [])
    ++ (if 600 <? duration then [CHAPTER_MARKERS; PATTERN_INTERRUPTS] else [])
    ++ (if views <? 1000 then [AUDIENCE_RETENTION] else [])
    ++ [THUMBNAIL_AND_TITLE].
Proof.
  unfold generate_suggestions. cbv zeta.
  repeat match goal with |- context [if ?b then _ else _] => destruct b end;
    reflexivity.
Qed.

(** X7: the suggestions are never empty: a duration message fixed by the
    duration comes first, the thumbnail message comes last, and at most five
    optional messages stand between them. *)
Theorem generate_suggestions_shape (video_data : VideoData) (engagement_rate : float)
    (duration views : Z) :
  exists (first : string) (middle : list string),
    generate_suggestions video_data engagement_rate duration views
    = first :: middle ++ [THUMBNAIL_AND_TITLE]
    /\ (duration < 120 -> first = LONGER_CONTENT)
    /\ (1800 < duration -> first = QUITE_LONG)
    /\ (120 <= duration < 300 -> first = SHORT_VIDEO)
    /\ (300 <= duration <= 1800 -> first = GOOD_LENGTH)
    /\ (length middle <= 5)%nat
    /\ Forall (fun item => item ∈ [LOW_ENGAGEMENT; GREAT_ENGAGEMENT; TITLE_LONG;
                                  TITLE_SHORT; CHAPTER_MARKERS; PATTERN_INTERRUPTS;
                                  AUDIENCE_RETENTION]) middle.
Proof.
  rewrite generate_suggestions_parts.
  change ([?x] ++ ?l) with (x :: l). rewrite !(assoc_L (++)).
  eexists _, _. split; [reflexivity|].
  repeat split.
  - intros H. now rewrite (proj2 (Z.ltb_lt _ _)) by lia.
  - intros H. rewrite (proj2 (Z.ltb_ge _ _)) by lia.
    now rewrite (proj2 (Z.ltb_lt 1800 _)) by lia.
  - intros H. rewrite (proj2 (Z.ltb_ge _ 120)) by lia.
    rewrite (proj2 (Z.ltb_ge 1800 _)) by lia.
    now rewrite (proj2 (Z.ltb_lt _ 300)) by lia.
  - intros H. rewrite (proj2 (Z.ltb_ge _ 120)) by lia.
    rewrite (proj2 (Z.ltb_ge 1800 _)) by lia.
    now rewrite (proj2 (Z.ltb_ge _ 300)) by lia.
  - repeat match goal with |- context [if ?b then _ else _] => destruct b end;
      cbn; lia.
  - repeat match goal with |- context [if ?b then _ else _] => destruct b end;
      cbn [app]; repeat constructor; by_computation.
Qed.

(** X8: no suggestion is given twice. *)
Theorem generate_suggestions_NoDup (video_data : VideoData) (engagement_rate : float)
    (duration views : Z) :
  NoDup (generate_suggestions video_data engagement_rate duration views).
Proof.
  rewrite generate_suggestions_parts.
  repeat match goal with |- context [if ?b then _ else _] => destruct b end;
    by_computation.
Qed.

(** X9: the duration advice is consistent: the two items on chapter markers
    and pattern interrupts are given exactly for videos above 600 seconds, so
    always with the message for videos above 30 minutes and never with the
    messages for videos under 2 or under 5 minutes. *)
Theorem generate_suggestions_duration_consistent (video_data : VideoData)
    (engagement_rate : float) (duration views : Z) :
  let suggestions := generate_suggestions video_data engagement_rate duration views in
  (CHAPTER_MARKERS ∈ suggestions <-> 600 < duration)
  /\ (PATTERN_INTERRUPTS ∈ suggestions <-> 600 < duration)
  /\ (QUITE_LONG ∈ suggestions ->
      CHAPTER_MARKERS ∈ suggestions /\ PATTERN_INTERRUPTS ∈ suggestions)
  /\ (LONGER_CONTENT ∈ suggestions \/ SHORT_VIDEO ∈ suggestions ->
      (CHAPTER_MARKERS ∉ suggestions) /\ (PATTERN_INTERRUPTS ∉ suggestions)).
Proof.
  cbv zeta. rewrite generate_suggestions_parts.
  destruct (Z.ltb_spec duration 120); destruct (Z.ltb_spec 1800 duration);
    destruct (Z.ltb_spec duration 300); destruct (Z.ltb_spec 600 duration);
    try lia;
    repeat match goal with |- context [if ?b then _ else _] => destruct b end;
    cbn [app]; membership; intuition lia.
Qed.

(** The threshold of the low-engagement message as a binary64 value. *)
Lemma threshold_01 : Prim2SF 0.01%float = S754_finite false 5764607523034235 (-59).
Proof. vm_compute. reflexivity. Qed.

(** Anything strictly below a finite positive value of exponent [e1] is
    strictly below a finite positive value of a larger exponent. *)
Lemma SFltb_below_larger (x : spec_float) (m1 m2 : positive) (e1 e2 : Z) :
  e1 < e2 ->
  SFltb x (S754_finite false m1 e1) = true ->
  SFltb x (S754_finite false m2 e2) = true.
Proof.
  intros He Hlt.
  destruct x as [s | s | | s m e]; try (destruct s); cbn in *; try reflexivity; try discriminate.
  destruct (Z.compare_spec e e1) as [-> | Hlt' | Hgt]; try discriminate.
  - rewrite (proj2 (Z.compare_lt_iff e1 e2)) by lia. reflexivity.
  - rewrite (proj2 (Z.compare_lt_iff e e2)) by lia. reflexivity.
Qed.

Lemma below_001_below_002 (x : float) :
  (x <? 0.01)%float = true -> (x <? 0.02)%float = true.
Proof.
  rewrite !ltb_spec, threshold_01, FloatFacts.threshold_02.
  intros H. eapply SFltb_below_larger; [|exact H]. lia.
Qed.

Lemma above_005_not_below_002 (x : float) :
  (0.05 <? x)%float = true -> (x <? 0.02)%float = false.
Proof.
  intros H. destruct (x <? 0.02)%float eqn:Hlt; [|reflexivity].
  rewrite ltb_spec, FloatFacts.threshold_02 in Hlt.
  rewrite ltb_spec, FloatFacts.threshold_05 in H.
  rewrite (FloatFacts.SFltb_below_not_above _ _ _ (-58) (-57) ltac:(lia) Hlt) in H.
  discriminate.
Qed.

Lemma low_engagement_iff (video_data : VideoData) (engagement_rate : float)
    (duration views : Z) :
  LOW_ENGAGEMENT ∈ generate_suggestions video_data engagement_rate duration views
  <-> (engagement_rate <? 0.01)%float = true.
Proof.
  rewrite generate_suggestions_parts.
  repeat match goal with |- context [if ?b then _ else _] => destruct b end;
    cbn [app]; membership; intuition discriminate.
Qed.

Lemma great_engagement_iff (video_data : VideoData) (engagement_rate : float)
    (duration views : Z) :
  GREAT_ENGAGEMENT ∈ generate_suggestions video_data engagement_rate duration views
  <-> (engagement_rate <? 0.01)%float = false /\ (0.05 <? engagement_rate)%float = true.
Proof.
  rewrite generate_suggestions_parts.
  repeat match goal with |- context [if ?b then _ else _] => destruct b end;
    cbn [app]; membership; intuition discriminate.
Qed.

(** The engagement item is among the action items exactly when the rate that
    [generate_action_items] recomputes is below 0.02. *)
Lemma interactive_elements_iff (video_data : VideoData) (optimization_score : Z)
    (suggestions : list string) (engagement_rate : float) :
  AnalyticsSpec.action_engagement_rate video_data = Value engagement_rate ->
  exists items,
    generate_action_items video_data optimization_score suggestions = Value items
    /\ (INTERACTIVE_ELEMENTS ∈ items <-> (engagement_rate <? 0.02)%float = true).
Proof.
  unfold AnalyticsSpec.action_engagement_rate, generate_action_items. cbv zeta.
  intros ->. cbn [mbind outcome_bind mret outcome_ret].
  eexists. split; [reflexivity|].
  repeat match goal with |- context [if ?b then _ else _] => destruct b end;
    cbn [app]; membership; intuition discriminate.
Qed.

(** X10: for a video with views, the two pieces of engagement advice agree:
    when the suggestions report low engagement, the action items hold the
    item on interactive elements, and when the suggestions praise the
    engagement they do not.  The action items, which recompute the rate, are
    then produced. *)
Theorem engagement_advice_agrees (video_data : VideoData) (engagement_rate : float)
    (optimization_score : Z) :
  0 < get (views video_data) 0 ->
  analyze_single_video_engagement_rate video_data = Value engagement_rate ->
  let suggestions :=
    generate_suggestions video_data engagement_rate
      (get (duration_s video_data) 0) (get (views video_data) 0) in
  exists action_items,
    generate_action_items video_data optimization_score suggestions = Value action_items
    /\ (LOW_ENGAGEMENT ∈ suggestions -> INTERACTIVE_ELEMENTS ∈ action_items)
    /\ (GREAT_ENGAGEMENT ∈ suggestions -> INTERACTIVE_ELEMENTS ∉ action_items).
Proof.
  intros Hviews Hrate. cbv zeta.
  assert (Haction : AnalyticsSpec.action_engagement_rate video_data = Value engagement_rate).
  { unfold analyze_single_video_engagement_rate in Hrate.
    unfold AnalyticsSpec.action_engagement_rate.
    destruct (views video_data) as [n|]; cbn [get] in *; [|lia].
    now rewrite (proj2 (Z.ltb_lt 0 n)) in Hrate by lia. }
  destruct (interactive_elements_iff video_data optimization_score
              (generate_suggestions video_data engagement_rate
                 (get (duration_s video_data) 0) (get (views video_data) 0))
              engagement_rate Haction) as (items & Hitems & Hiff).
  exists items. split; [exact Hitems|]. split.
  - intros Hlow%low_engagement_iff. apply Hiff. now apply below_001_below_002.
  - intros [_ Hgreat]%great_engagement_iff Hin. apply Hiff in Hin.
    rewrite (above_005_not_below_002 _ Hgreat) in Hin. discriminate.
Qed.

Lemma engagement_advice_agrees_witness :
  let video_data :=
    mkVideoData (Some 90) (Some 50000) (Some 100) (Some 20) (Some "Short clip"%string) in
  let suggestions := generate_suggestions video_data 0.0024%float 90 50000 in
  exists action_items,
    generate_action_items video_data 25 suggestions = Value action_items
    /\ (LOW_ENGAGEMENT ∈ suggestions -> INTERACTIVE_ELEMENTS ∈ action_items)
    /\ (GREAT_ENGAGEMENT ∈ suggestions -> INTERACTIVE_ELEMENTS ∉ action_items).
Proof.
  apply (engagement_advice_agrees
           (mkVideoData (Some 90) (Some 50000) (Some 100) (Some 20)
              (Some "Short clip"%string)) 0.0024%float 25).
  - reflexivity.
  - vm_compute. reflexivity.
Defined.

Example generate_suggestions_runs :
  generate_suggestions (mkVideoData (Some 600) (Some 50000) (Some 1000) (Some 200)
                          (Some "A title of some thirty characters"%string))
    0.024%float 600 50000
  = [GOOD_LENGTH; THUMBNAIL_AND_TITLE].
Proof. vm_compute. reflexivity. Qed.

End SuggestionProps.

(** ** Properties of the playlists *)

Module PlaylistProps.
Import Py Pandas Recommender RecommenderPlaylists PlaylistSpec PyFacts PandasFacts.

#[local] Arguments String.append !_ _ / : simpl nomatch.

Lemma boolean_index_rows (df : DataFrame) (p : cell -> bool) (c : string) :
  rows (boolean_index df (p <$> (at_column c <$> rows df)))
  = List.filter (fun r => p (at_column c r)) (rows df).
Proof.
  unfold boolean_index. cbn [rows].
  induction (rows df) as [|r rs IH]; [reflexivity|].
  cbn. destruct (p (at_column c r)); cbn; now rewrite IH.
Qed.

Lemma dict_setitem_fresh {V} (d : list (string * V)) (key : string) (v : V) :
  key ∉ d.*1 -> dict_setitem d key v = d ++ [(key, v)].
Proof.
  induction d as [|[k w] d IH]; [reflexivity|].
  cbn. intros [Hne Hd]%not_elem_of_cons.
  destruct (String.eqb_spec k key) as [Heq | _]; [congruence|].
  now rewrite IH.
Qed.

Lemma cluster_key_inj (x y : Z) :
  ("cluster_" ++ pretty x)%string = ("cluster_" ++ pretty y)%string -> x = y.
Proof. cbn. intros [= H]. now apply (inj pretty) in H. Qed.

Lemma existsb_same_value_Int (z : Z) (seen : list Z) :
  existsb (same_value (Int z)) (Int <$> seen) = bool_decide (z ∈ seen).
Proof.
  induction seen as [|a seen IH]; [reflexivity|].
  cbn [fmap list_fmap existsb]. rewrite IH. unfold same_value, cell_eqb.
  rewrite orb_false_r.
  destruct (Z.eqb_spec z a) as [-> | Hne]; cbn.
  - symmetry. apply bool_decide_eq_true_2. left.
  - destruct (decide (z ∈ seen)) as [Hin | Hnin].
    + rewrite !bool_decide_eq_true_2; [reflexivity | now right | exact Hin].
    + rewrite !bool_decide_eq_false_2; [reflexivity | | exact Hnin].
      intros [Heq | Hin]%elem_of_cons; contradiction.
Qed.

(** On a column of integer labels [unique] keeps one cell per label. *)
Lemma unique_Int (labels : list Z) :
  exists distinct : list Z,
    unique (Int <$> labels) = Int <$> distinct
    /\ NoDup distinct
    /\ forall z, z ∈ distinct <-> z ∈ labels.
Proof.
  unfold unique.
  assert (Hgo : forall l seen, NoDup seen ->
    exists distinct,
      foldl (fun seen x => if existsb (same_value x) seen then seen else seen ++ [x])
            (Int <$> seen) (Int <$> l) = Int <$> distinct
      /\ NoDup distinct /\ forall z, z ∈ distinct <-> z ∈ seen \/ z ∈ l).
  { induction l as [|x l IH]; intros seen Hseen.
    - exists seen. cbn. split; [reflexivity|]. split; [exact Hseen|].
      intros z. rewrite elem_of_nil. tauto.
    - cbn [fmap list_fmap foldl]. rewrite existsb_same_value_Int.
      destruct (decide (x ∈ seen)) as [Hin | Hnin].
      + rewrite bool_decide_eq_true_2 by exact Hin.
        destruct (IH seen Hseen) as (d & Hd & Hnd & Hiff).
        exists d. split; [exact Hd|]. split; [exact Hnd|].
        intros z. rewrite Hiff, elem_of_cons. split; [tauto|].
        intros [H | [-> | H]]; tauto.
      + rewrite bool_decide_eq_false_2 by exact Hnin.
        change ((Int <$> seen) ++ [Int x]) with ((Int <$> seen) ++ (Int <$> [x])).
        rewrite <- fmap_app.
        destruct (IH (seen ++ [x])) as (d & Hd & Hnd & Hiff).
        { apply NoDup_app. split; [exact Hseen|]. split; [|apply NoDup_singleton].
          intros y Hy ->%list_elem_of_singleton. contradiction. }
        exists d. split; [exact Hd|]. split; [exact Hnd|].
        intros z. rewrite Hiff, elem_of_app, list_elem_of_singleton, elem_of_cons. tauto. }
  destruct (Hgo labels [] (NoDup_nil_2)) as (d & Hd & Hnd & Hiff).
  exists d. split; [exact Hd|]. split; [exact Hnd|].
  intros z. rewrite Hiff, elem_of_nil. tauto.
Qed.

Lemma playlist_keys (df : DataFrame) (topk : Z) (distinct : list Z)
    (playlists : list (string * list cell)) :
  Forall2 (playlist_for df topk) distinct playlists ->
  playlists.*1 = (fun z => "cluster_" ++ pretty z)%string <$> distinct.
Proof.
  induction 1 as [|z e zs es [Hkey _] _ IH]; [reflexivity|].
  cbn [fmap list_fmap]. now rewrite Hkey, IH.
Qed.

(** Adding an element to the block of one label adds it once to the whole. *)
Lemma concat_insert_once {A} (f : Z -> list A) (z0 : Z) (r : A) (distinct : list Z) :
  NoDup distinct -> z0 ∈ distinct ->
  concat ((fun z => if z0 =? z then r :: f z else f z) <$> distinct)
  ≡ₚ r :: concat (f <$> distinct).
Proof.
  induction distinct as [|z d IHd]; intros Hnd Hin; [now apply elem_of_nil in Hin|].
  apply NoDup_cons in Hnd as [Hz Hnd].
  cbn [fmap list_fmap concat].
  destruct (Z.eqb_spec z0 z) as [-> | Hne].
  - cbn. apply Permutation_skip. apply Permutation_app_head.
    clear IHd Hin. induction d as [|y d IHd]; [reflexivity|].
    apply not_elem_of_cons in Hz as [Hzy Hz]. apply NoDup_cons in Hnd as [_ Hnd].
    cbn [fmap list_fmap concat]. destruct (Z.eqb_spec z y) as [-> | _]; [contradiction|].
    apply Permutation_app_head. now apply IHd.
  - apply elem_of_cons in Hin as [-> | Hin]; [contradiction|].
    rewrite (IHd Hnd Hin). symmetry. apply Permutation_middle.
Qed.

(** Each row with an integer label is in exactly one of the clusters of a
    duplicate-free list of labels that holds its label. *)
Lemma clusters_partition (distinct : list Z) (rs : list (gmap string cell)) :
  NoDup distinct ->
  Forall (fun r => exists z, at_column "cluster" r = Int z /\ z ∈ distinct) rs ->
  concat ((fun z => List.filter (in_cluster z) rs) <$> distinct) ≡ₚ rs.
Proof.
  intros Hnd. induction 1 as [|r rs (z0 & Hlabel & Hin) _ IH].
  - clear Hnd. induction distinct as [|z d IHd]; [reflexivity|]. exact IHd.
  - etransitivity; [|apply Permutation_skip, IH].
    cbn [List.filter]. unfold in_cluster at 1. rewrite Hlabel. cbn [cell_eqb].
    apply (concat_insert_once (fun z => List.filter (in_cluster z) rs) z0 r distinct Hnd Hin).
Qed.

Section SuggestPlaylistsProps.

Variable sort_values : string -> bool -> DataFrame -> outcome DataFrame.
Variable format_float : float -> string.
Hypothesis sort_values_contract : sort_values_descending_contract sort_values.

(** The loop adds, for each label still to do, the playlist of that label. *)
Lemma suggest_playlists_loop_spec (df : DataFrame) (topk : Z) :
  "cluster" ∈ columns df -> "views" ∈ columns df -> "video_id" ∈ columns df ->
  forall (todo : list Z) (acc : list (string * list cell)),
    NoDup todo ->
    (forall z, z ∈ todo -> ("cluster_" ++ pretty z)%string ∉ acc.*1) ->
    exists entries,
      suggest_playlists_loop sort_values format_float df topk (Int <$> todo) acc
      = Value (acc ++ entries)
      /\ Forall2 (playlist_for df topk) todo entries.
Proof.
  intros Hcluster Hviews Hid.
  induction todo as [|z todo IH]; intros acc Hnd Hfresh.
  - exists []. rewrite app_nil_r. split; [reflexivity | constructor].
  - apply NoDup_cons in Hnd as [Hz Hnd].
    cbn [fmap list_fmap suggest_playlists_loop].
    rewrite (getitem_present "cluster" df Hcluster), bind_Value. cbv zeta.
    destruct (sort_values_contract "views"
                (boolean_index df ((fun x => cell_eqb x (Int z))
                                     <$> (at_column "cluster" <$> rows df))) Hviews)
      as (out & Hout & Hcols & Hperm & Hsorted).
    rewrite Hout, bind_Value.
    rewrite (getitem_present "video_id" (head topk out))
      by (cbn [head columns]; rewrite Hcols; exact Hid).
    rewrite bind_Value. cbn [format_label].
    rewrite dict_setitem_fresh by (apply Hfresh; left).
    destruct (IH (acc ++ [(("cluster_" ++ pretty z)%string,
                           at_column "video_id" <$> rows (head topk out))]) Hnd)
      as (entries & Hrun & Hall).
    { intros z' Hz'. rewrite fmap_app. cbn [fmap list_fmap fst].
      intros [H | H%list_elem_of_singleton]%elem_of_app.
      - apply (Hfresh z'); [now right | exact H].
      - apply cluster_key_inj in H as ->. contradiction. }
    eexists (_ :: entries). split.
    + rewrite Hrun, <- (assoc_L (++)). reflexivity.
    + constructor; [|exact Hall]. split; [reflexivity|].
      exists out. split; [|split; [exact Hsorted | reflexivity]].
      rewrite Hperm, boolean_index_rows. reflexivity.
Qed.

(** The whole function on a frame with integer labels. *)
Lemma suggest_playlists_spec (df : DataFrame) (topk : Z) (labels : list Z) :
  "cluster" ∈ columns df -> "views" ∈ columns df -> "video_id" ∈ columns df ->
  at_column "cluster" <$> rows df = Int <$> labels ->
  exists (distinct : list Z) (playlists : list (string * list cell)),
    suggest_playlists sort_values format_float df topk = Value playlists
    /\ NoDup distinct
    /\ (forall z, z ∈ distinct <-> z ∈ labels)
    /\ Forall2 (playlist_for df topk) distinct playlists.
Proof.
  intros Hcluster Hviews Hid Hlabels.
  destruct (unique_Int labels) as (distinct & Hunique & Hnd & Hiff).
  destruct (suggest_playlists_loop_spec df topk Hcluster Hviews Hid distinct [] Hnd)
    as (entries & Hrun & Hall).
  { intros z _. apply not_elem_of_nil. }
  exists distinct, entries.
  unfold suggest_playlists. cbv zeta.
  rewrite (getitem_present "cluster" df Hcluster), bind_Value.
  rewrite Hlabels, Hunique, Hrun. repeat split; try assumption; apply Hiff.
Qed.

(** X11: on a frame with integer cluster labels and the [views] and
    [video_id] columns, and with a [sort_values] that meets the documented
    contract, [suggest_playlists] returns one playlist per distinct label,
    under distinct keys [cluster_<label>]; each holds the video ids of the
    first [topk] rows of its cluster, ranked by views, highest first. *)
Theorem suggest_playlists_ranks (df : DataFrame) (topk : Z) (labels : list Z) :
  "cluster" ∈ columns df -> "views" ∈ columns df -> "video_id" ∈ columns df ->
  at_column "cluster" <$> rows df = Int <$> labels ->
  exists (distinct : list Z) (playlists : list (string * list cell)),
    suggest_playlists sort_values format_float df topk = Value playlists
    /\ NoDup distinct
    /\ (forall z, z ∈ distinct <-> z ∈ labels)
    /\ Forall2 (playlist_for df topk) distinct playlists
    /\ NoDup playlists.*1.
Proof.
  intros Hcluster Hviews Hid Hlabels.
  destruct (suggest_playlists_spec df topk labels Hcluster Hviews Hid Hlabels)
    as (distinct & playlists & Hrun & Hnd & Hiff & Hall).
  exists distinct, playlists. repeat split; try assumption; try apply Hiff.
  rewrite (playlist_keys _ _ _ _ Hall).
  apply (NoDup_fmap_2 _ _ Hnd).
Qed.

(** X12: with a non-negative [topk] no playlist is longer than [topk], and
    every id in a playlist is the [video_id] of a row of the frame. *)
Theorem suggest_playlists_bounded (df : DataFrame) (topk : Z) (labels : list Z) :
  "cluster" ∈ columns df -> "views" ∈ columns df -> "video_id" ∈ columns df ->
  at_column "cluster" <$> rows df = Int <$> labels ->
  0 <= topk ->
  exists playlists : list (string * list cell),
    suggest_playlists sort_values format_float df topk = Value playlists
    /\ Forall (fun entry =>
                 Z.of_nat (length entry.2) <= topk
                 /\ entry.2 ⊆ at_column "video_id" <$> rows df) playlists.
Proof.
  intros Hcluster Hviews Hid Hlabels Htopk.
  destruct (suggest_playlists_spec df topk labels Hcluster Hviews Hid Hlabels)
    as (distinct & playlists & Hrun & _ & _ & Hall).
  exists playlists. split; [exact Hrun|].
  clear Hrun. induction Hall as [|z e zs es (_ & ranked & Hperm & _ & Hids) _ IH];
    constructor; [|exact IH].
  rewrite Hids. unfold head. cbn [rows].
  rewrite (proj2 (Z.leb_le 0 topk)) by exact Htopk. split.
  - rewrite length_fmap, length_take. lia.
  - intros x (r & -> & Hr)%list_elem_of_fmap.
    apply list_elem_of_fmap. exists r. split; [reflexivity|].
    apply elem_of_take in Hr as (i & Hr & _). apply list_elem_of_lookup_2 in Hr.
    rewrite Hperm in Hr. apply list_elem_of_In, filter_In in Hr as [Hr _].
    now apply list_elem_of_In.
Qed.

(** X13: when [topk] is at least the number of rows, the playlists partition
    the videos: taken together they hold the video ids of the frame, each row
    once. *)
Theorem suggest_playlists_partition (df : DataFrame) (topk : Z) (labels : list Z) :
  "cluster" ∈ columns df -> "views" ∈ columns df -> "video_id" ∈ columns df ->
  at_column "cluster" <$> rows df = Int <$> labels ->
  len_df df <= topk ->
  exists playlists : list (string * list cell),
    suggest_playlists sort_values format_float df topk = Value playlists
    /\ concat playlists.*2 ≡ₚ at_column "video_id" <$> rows df.
Proof.
  intros Hcluster Hviews Hid Hlabels Htopk.
  destruct (suggest_playlists_spec df topk labels Hcluster Hviews Hid Hlabels)
    as (distinct & playlists & Hrun & Hnd & Hiff & Hall).
  exists playlists. split; [exact Hrun|].
  assert (Hrows : Forall (fun r => exists z, at_column "cluster" r = Int z /\ z ∈ distinct)
                         (rows df)).
  { apply Forall_forall. intros r Hr.
    assert (Hc : at_column "cluster" r ∈ at_column "cluster" <$> rows df)
      by (apply list_elem_of_fmap; now exists r).
    rewrite Hlabels in Hc. apply list_elem_of_fmap in Hc as (z & Hz & Hin).
    exists z. split; [exact Hz | now apply Hiff]. }
  etransitivity;
    [|apply fmap_Permutation, (clusters_partition distinct (rows df) Hnd Hrows)].
  unfold len_df in Htopk.
  clear Hrun Hiff Hnd Hrows. induction Hall as [|z e zs es (_ & ranked & Hperm & _ & Hids) _ IH];
    [reflexivity|].
  cbn [fmap list_fmap concat]. rewrite fmap_app. apply Permutation_app; [|exact IH].
  cbn [snd]. rewrite Hids. apply fmap_Permutation.
  rewrite <- Hperm. unfold head. cbn [rows].
  assert (Hlen : (length (rows ranked) <= length (rows df))%nat).
  { rewrite Hperm. apply filter_length_le. }
  destruct (Z.leb_spec 0 topk); [|lia].
  rewrite take_ge by lia. reflexivity.
Qed.

End SuggestPlaylistsProps.

Ltac by_computation :=
  match goal with
  | |- ?P => apply (bool_decide_unpack P); vm_compute; exact I
  end.

Lemma suggest_playlists_ranks_witness :
  exists (distinct : list Z) (playlists : list (string * list cell)),
    suggest_playlists RankerExamples.merge_sort_values no_float_labels clustered_videos 2
    = Value playlists
    /\ NoDup distinct
    /\ (forall z, z ∈ distinct <-> z ∈ [1; 0; 1; 1])
    /\ Forall2 (playlist_for clustered_videos 2) distinct playlists
    /\ NoDup playlists.*1.
Proof.
  apply (suggest_playlists_ranks RankerExamples.merge_sort_values no_float_labels
           RankerTheorems.merge_sort_values_contract clustered_videos 2 [1; 0; 1; 1]).
  - by_computation.
  - by_computation.
  - by_computation.
  - vm_compute. reflexivity.
Defined.

Lemma suggest_playlists_bounded_witness :
  exists playlists : list (string * list cell),
    suggest_playlists RankerExamples.merge_sort_values no_float_labels clustered_videos 2
    = Value playlists
    /\ Forall (fun entry =>
                 Z.of_nat (length entry.2) <= 2
                 /\ entry.2 ⊆ at_column "video_id" <$> rows clustered_videos) playlists.
Proof.
  apply (suggest_playlists_bounded RankerExamples.merge_sort_values no_float_labels
           RankerTheorems.merge_sort_values_contract clustered_videos 2 [1; 0; 1; 1]).
  - by_computation.
  - by_computation.
  - by_computation.
  - vm_compute. reflexivity.
  - lia.
Defined.

Lemma suggest_playlists_partition_witness :
  exists playlists : list (string * list cell),
    suggest_playlists RankerExamples.merge_sort_values no_float_labels clustered_videos 4
    = Value playlists
    /\ concat playlists.*2 ≡ₚ at_column "video_id" <$> rows clustered_videos.
Proof.
  apply (suggest_playlists_partition RankerExamples.merge_sort_values no_float_labels
           RankerTheorems.merge_sort_values_contract clustered_videos 4 [1; 0; 1; 1]).
  - by_computation.
  - by_computation.
  - by_computation.
  - vm_compute. reflexivity.
  - vm_compute. discriminate.
Defined.

Section ClusterThenSuggest.

Variable embeddings : Type.
Variable encode : list cell -> outcome embeddings.
Variable fit_labels : Z -> embeddings -> outcome (list Z).
Variable sort_values : string -> bool -> DataFrame -> outcome DataFrame.
Variable format_float : float -> string.
Hypothesis sort_values_contract : sort_values_descending_contract sort_values.

(** X14: the two functions compose.  After [cluster_videos] has returned on
    a frame that has the [views] and [video_id] columns, [suggest_playlists]
    on the frame the caller holds returns, whatever labels the clustering
    gave: one playlist per distinct label, each the top of its cluster by
    views. *)
Theorem suggest_playlists_after_cluster_videos (df returned : ref) (n_clusters topk : Z)
    (store store' : gmap ref DataFrame) (frame : DataFrame) :
  store !! df = Some frame ->
  "views" ∈ columns frame -> "video_id" ∈ columns frame ->
  cluster_videos embeddings encode fit_labels df n_clusters store
  = Value (returned, store') ->
  exists (frame' : DataFrame) (labels distinct : list Z)
         (playlists : list (string * list cell)),
    store' !! returned = Some frame'
    /\ at_column "cluster" <$> rows frame' = Int <$> labels
    /\ length labels = length (rows frame)
    /\ suggest_playlists sort_values format_float frame' topk = Value playlists
    /\ NoDup distinct
    /\ (forall z, z ∈ distinct <-> z ∈ labels)
    /\ Forall2 (playlist_for frame' topk) distinct playlists.
Proof.
  intros Hdf Hviews Hid. unfold cluster_videos. rewrite Hdf.
  destruct (texts_of frame) as [texts | e]; [rewrite bind_Value | discriminate].
  destruct (encode texts) as [embs | e]; [rewrite bind_Value | discriminate].
  cbv zeta.
  destruct (fit_labels (Z.min n_clusters (len_df frame)) embs) as [labels | e];
    [rewrite bind_Value | discriminate].
  destruct (setitem frame "cluster" (Int <$> labels)) as [frame' | e] eqn:Hset;
    [rewrite bind_Value | discriminate].
  intros [= <- <-].
  destruct (RecommenderProps.setitem_cluster frame frame' labels Hset)
    as (Hlen & Hcluster & Hrows & Hcols & _).
  assert (Hlabels : at_column "cluster" <$> rows frame' = Int <$> labels).
  { rewrite Hrows. now apply RecommenderProps.cluster_column_written. }
  destruct (suggest_playlists_spec sort_values format_float sort_values_contract
              frame' topk labels Hcluster (Hcols _ Hviews) (Hcols _ Hid) Hlabels)
    as (distinct & playlists & Hrun & Hnd & Hiff & Hall).
  exists frame', labels, distinct, playlists.
  rewrite lookup_insert_eq. repeat split; try assumption; apply Hiff.
Qed.

End ClusterThenSuggest.

Lemma suggest_playlists_after_cluster_videos_witness :
  exists (frame' : DataFrame) (labels distinct : list Z)
         (playlists : list (string * list cell)),
    (<[1%positive := two_videos_clustered]> {[ 1%positive := two_videos ]}
       : gmap ref DataFrame) !! 1%positive = Some frame'
    /\ at_column "cluster" <$> rows frame' = Int <$> labels
    /\ length labels = length (rows two_videos)
    /\ suggest_playlists RankerExamples.merge_sort_values no_float_labels frame' 5
       = Value playlists
    /\ NoDup distinct
    /\ (forall z, z ∈ distinct <-> z ∈ labels)
    /\ Forall2 (playlist_for frame' 5) distinct playlists.
Proof.
  apply (suggest_playlists_after_cluster_videos (list cell) identity_encode one_cluster
           RankerExamples.merge_sort_values no_float_labels
           RankerTheorems.merge_sort_values_contract
           1%positive 1%positive 8 5 {[ 1%positive := two_videos ]}
           (<[1%positive := two_videos_clustered]> {[ 1%positive := two_videos ]})
           two_videos).
  - reflexivity.
  - by_computation.
  - by_computation.
  - vm_compute. reflexivity.
Defined.

Example suggest_playlists_runs :
  suggest_playlists RankerExamples.merge_sort_values no_float_labels clustered_videos 2
  = Value [("cluster_1"%string, [Str "c"; Str "a"]); ("cluster_0"%string, [Str "b"])].
Proof. vm_compute. reflexivity. Qed.

End PlaylistProps.

(** ** Properties of the single-video advice *)

Module AdviceProps.
Import Py RecommenderAdvice PyFacts.

Ltac by_computation :=
  match goal with
  | |- ?P => apply (bool_decide_unpack P); vm_compute; exact I
  end.

Ltac split_ifs :=
  repeat match goal with |- context [if ?b then _ else _] => destruct b end.

(** *** Text helpers *)

Lemma lower_char_idemp (c : ascii) : lower_char (lower_char c) = lower_char c.
Proof.
  destruct c as [[] [] [] [] [] [] [] []]; vm_compute; reflexivity.
Qed.

Lemma is_space_lower_char (c : ascii) : is_space (lower_char c) = is_space c.
Proof.
  destruct c as [[] [] [] [] [] [] [] []]; vm_compute; reflexivity.
Qed.

Lemma lower_idemp (s : string) : lower (lower s) = lower s.
Proof.
  induction s as [|c s IH]; [reflexivity|]. cbn. now rewrite lower_char_idemp, IH.
Qed.

Lemma count_words_lower (in_word : bool) (s : string) :
  count_words in_word (lower s) = count_words in_word s.
Proof.
  revert in_word. induction s as [|c s IH]; intros in_word; [reflexivity|].
  cbn. now rewrite is_space_lower_char, !IH.
Qed.

(** *** The duration field *)

Lemma duration_is_None (video_data : VideoData) :
  duration_s video_data = Some None <-> get (duration_s video_data) (Some 0) = None.
Proof. destruct (duration_s video_data) as [[d|]|]; cbn; split; congruence. Qed.

Lemma duration_is_int (video_data : VideoData) :
  duration_s video_data <> Some None ->
  exists d : Z, get (duration_s video_data) (Some 0) = Some d.
Proof.
  destruct (duration_s video_data) as [[d|]|]; cbn; intros H;
    [now exists d | congruence | now exists 0].
Qed.

(** *** The technical suggestions *)

(** The list is the view-count pair, the duration pair, and what the
    timestamp adds; the timestamp adds nothing when it is empty or when the
    library rejects it. *)
Lemma generate_technical_suggestions_parts (fromisoformat : string -> outcome datetime)
    (video_data : VideoData) (duration : Z) :
  get (duration_s video_data) (Some 0) = Some duration ->
  exists timing : list string,
    generate_technical_suggestions fromisoformat video_data
    = Value ((if get (views video_data) 0 <? 1000 then [AUDIO_QUALITY; LIGHTING] else [])
             ++ (if 600 <? duration then [PATTERN_INTERRUPTS; VISUAL_CUES] else [])
             ++ timing)
    /\ (timing = [] \/ timing = [WEEKDAY_UPLOADS] \/ timing = [UPLOAD_TIME]
        \/ timing = [WEEKDAY_UPLOADS; UPLOAD_TIME])
    /\ (get (published_at_raw video_data) EmptyString = EmptyString -> timing = [])
    /\ (forall e,
          fromisoformat (replace_Z (get (published_at_raw video_data) EmptyString))
          = Raises e -> timing = []).
Proof.
  intros Hduration. unfold generate_technical_suggestions. cbv zeta.
  rewrite Hduration. cbn [int_gt]. rewrite bind_Value.
  destruct (get (published_at_raw video_data) EmptyString) as [|c text] eqn:Hraw.
  - exists []. rewrite bind_Value. split; [|tauto]. unfold mret, outcome_ret.
    split_ifs; reflexivity.
  - destruct (fromisoformat (replace_Z (String c text))) as [pub_date | e] eqn:Hlib.
    + rewrite bind_Value. cbv zeta.
      exists ((if (weekday pub_date =? 5) || (weekday pub_date =? 6)
               then [WEEKDAY_UPLOADS] else [])
              ++ (if (0 <=? hour pub_date) && (hour pub_date <=? 6) || (22 <=? hour pub_date)
                  then [UPLOAD_TIME] else [])).
      split; [|split; [|split; discriminate]].
      * unfold try_except, mret, outcome_ret. cbn [mbind outcome_bind].
        split_ifs; reflexivity.
      * split_ifs; cbn; tauto.
    + exists []. split; [|tauto]. cbn [mbind outcome_bind try_except].
      unfold mret, outcome_ret. split_ifs; reflexivity.
Qed.

(** The comparison of line 106 fails on a duration that is [None]. *)
Lemma generate_technical_suggestions_None (fromisoformat : string -> outcome datetime)
    (video_data : VideoData) :
  duration_s video_data = Some None ->
  generate_technical_suggestions fromisoformat video_data = Raises TypeError.
Proof.
  intros H%duration_is_None. unfold generate_technical_suggestions. cbv zeta.
  rewrite H. reflexivity.
Qed.

(** X15: on a record whose [duration_s] is a number, or absent, the
    technical suggestions are produced whatever the library does with the
    timestamp; a timestamp that the library rejects gives the list of a
    record without timestamp, and no list has more than six items.  On a
    record whose [duration_s] is [None], as [fetch_video_by_url] stores it
    for a duration text that does not parse, the function raises
    [TypeError] (line 106), whatever the timestamp. *)
Theorem generate_technical_suggestions_total (fromisoformat : string -> outcome datetime)
    (video_data : VideoData) :
  (duration_s video_data = Some None ->
   generate_technical_suggestions fromisoformat video_data = Raises TypeError)
  /\ (duration_s video_data <> Some None ->
      exists suggestions : list string,
        generate_technical_suggestions fromisoformat video_data = Value suggestions
        /\ (length suggestions <= 6)%nat
        /\ (forall e,
              fromisoformat (replace_Z (get (published_at_raw video_data) EmptyString))
              = Raises e ->
              generate_technical_suggestions fromisoformat
                (mkVideoData (title video_data) (description video_data)
                   (duration_s video_data) (tags video_data) (views video_data)
                   None (category_id video_data))
              = Value suggestions)).
Proof.
  split; [apply generate_technical_suggestions_None|].
  intros [duration Hduration]%duration_is_int.
  destruct (generate_technical_suggestions_parts fromisoformat video_data duration Hduration)
    as (timing & Hrun & Hshape & _ & Hraises).
  eexists. split; [exact Hrun|]. split.
  - destruct Hshape as [-> | [-> | [-> | ->]]]; split_ifs; cbn; lia.
  - intros e He. rewrite (Hraises e He).
    destruct (generate_technical_suggestions_parts fromisoformat
                (mkVideoData (title video_data) (description video_data)
                   (duration_s video_data) (tags video_data) (views video_data)
                   None (category_id video_data)) duration Hduration)
      as (timing' & Hrun' & _ & Hempty & _).
    rewrite Hrun', (Hempty eq_refl). reflexivity.
Qed.

(** *** The five categories together *)

Lemma content_strategy_length (video_data : VideoData) (duration : Z) :
  get (duration_s video_data) (Some 0) = Some duration ->
  exists content : list string,
    generate_content_strategy_suggestions video_data = Value content
    /\ (length content <= 6)%nat.
Proof.
  intros Hduration. unfold generate_content_strategy_suggestions. cbv zeta.
  rewrite Hduration. cbn [int_lt int_gt]. rewrite bind_Value.
  destruct (duration <? 300).
  - eexists. split; [reflexivity|]. split_ifs; cbn; lia.
  - rewrite bind_Value. destruct (1200 <? duration);
      (eexists; split; [reflexivity|]; split_ifs; cbn; lia).
Qed.

(** The comparison of line 85 fails on a duration that is [None]. *)
Lemma content_strategy_None (video_data : VideoData) :
  duration_s video_data = Some None ->
  generate_content_strategy_suggestions video_data = Raises TypeError.
Proof.
  intros H%duration_is_None. unfold generate_content_strategy_suggestions. cbv zeta.
  rewrite H. reflexivity.
Qed.

Lemma engagement_tactics_parts (video_data : VideoData)
    (analysis_data : option AnalysisData) (duration : Z) :
  get (duration_s video_data) (Some 0) = Some duration ->
  exists rate_items : list string,
    generate_engagement_tactics video_data analysis_data
    = Value ((if 300 <? duration then [OPENING_HOOK; PROMISE_VALUE] else [])
             ++ (if 1000 <? get (views video_data) 0
                 then [MID_VIDEO_CTA; ASK_QUESTIONS] else [])
             ++ rate_items)
    /\ (rate_items = [] \/ rate_items = [LOW_ENGAGEMENT; CREATE_DEBATE]
        \/ rate_items = [GREAT_ENGAGEMENT]).
Proof.
  intros Hduration. unfold generate_engagement_tactics. cbv zeta.
  rewrite Hduration. cbn [int_gt]. rewrite bind_Value.
  match goal with |- context [(?r <? 2)%float] => generalize r; intros rate end.
  exists (if (rate <? 2)%float then [LOW_ENGAGEMENT; CREATE_DEBATE]
          else if (5 <? rate)%float then [GREAT_ENGAGEMENT] else []).
  unfold mret, outcome_ret. split; split_ifs; cbn; tauto.
Qed.

(** The comparison of line 136 fails on a duration that is [None]. *)
Lemma engagement_tactics_None (video_data : VideoData)
    (analysis_data : option AnalysisData) :
  duration_s video_data = Some None ->
  generate_engagement_tactics video_data analysis_data = Raises TypeError.
Proof.
  intros H%duration_is_None. unfold generate_engagement_tactics. cbv zeta.
  rewrite H. reflexivity.
Qed.

Lemma competitive_insights_parts (video_data : VideoData) :
  generate_competitive_insights video_data
  = match dict_lookup category_suggestions (get (category_id video_data) EmptyString) with
    | Some insight => [insight]
    | None => []
    end ++ [RESEARCH_TOP_VIDEOS; COLLABORATE].
Proof.
  unfold generate_competitive_insights. cbv zeta.
  destruct (dict_lookup _ _); reflexivity.
Qed.

Lemma posting_strategy_parts (video_data : VideoData) :
  generate_posting_strategy_suggestions video_data
  = (if get (views video_data) 0 <? 500 then [CONSISTENCY; PROMOTE_SOCIAL] else [])
    ++ [SHARE_COMMUNITIES; SHORT_CLIPS]
    ++ (if 1000 <? get (views video_data) 0 then [RESPOND_COMMENTS; COMMUNITY_POSTS] else [])
    ++ [SEARCH_SUGGESTIONS; CUSTOM_THUMBNAILS].
Proof.
  unfold generate_posting_strategy_suggestions. cbv zeta.
  split_ifs; reflexivity.
Qed.

(** The five lists of a record whose duration is a number. *)
Lemma get_optimization_suggestions_parts (fromisoformat : string -> outcome datetime)
    (video_data : VideoData) (analysis_data : option AnalysisData) (duration : Z) :
  get (duration_s video_data) (Some 0) = Some duration ->
  exists (content timing rate_items : list string),
    get_optimization_suggestions fromisoformat video_data analysis_data
    = Value {| content_strategy := content;
               technical_optimization :=
                 (if get (views video_data) 0 <? 1000 then [AUDIO_QUALITY; LIGHTING] else [])
                 ++ (if 600 <? duration then [PATTERN_INTERRUPTS; VISUAL_CUES] else [])
                 ++ timing;
               engagement_tactics :=
                 (if 300 <? duration then [OPENING_HOOK; PROMISE_VALUE] else [])
                 ++ (if 1000 <? get (views video_data) 0
                     then [MID_VIDEO_CTA; ASK_QUESTIONS] else [])
                 ++ rate_items;
               competitive_insights := generate_competitive_insights video_data;
               posting_strategy := generate_posting_strategy_suggestions video_data |}
    /\ (length content <= 6)%nat
    /\ (timing = [] \/ timing = [WEEKDAY_UPLOADS] \/ timing = [UPLOAD_TIME]
        \/ timing = [WEEKDAY_UPLOADS; UPLOAD_TIME])
    /\ (rate_items = [] \/ rate_items = [LOW_ENGAGEMENT; CREATE_DEBATE]
        \/ rate_items = [GREAT_ENGAGEMENT]).
Proof.
  intros Hduration. unfold get_optimization_suggestions.
  destruct (content_strategy_length video_data duration Hduration)
    as (content & -> & Hcontent).
  destruct (generate_technical_suggestions_parts fromisoformat video_data duration Hduration)
    as (timing & -> & Hshape & _).
  destruct (engagement_tactics_parts video_data analysis_data duration Hduration)
    as (items & -> & Hitems).
  rewrite !bind_Value. cbv zeta. exists content, timing, items.
  split; [reflexivity|]. tauto.
Qed.

(** X16: on a record whose [duration_s] is a number, or absent,
    [get_optimization_suggestions] returns its five lists, whatever the
    library does with the timestamp.  The posting strategy has four or six
    items (never eight: the low-view pair and the community pair exclude each
    other), the competitive insights two or three, and no other list has more
    than six.  On a record whose [duration_s] is [None], as
    [fetch_video_by_url] stores it for a duration text that does not parse,
    the call raises [TypeError] (line 85) and returns no list. *)
Theorem get_optimization_suggestions_total (fromisoformat : string -> outcome datetime)
    (video_data : VideoData) (analysis_data : option AnalysisData) :
  (duration_s video_data = Some None ->
   get_optimization_suggestions fromisoformat video_data analysis_data
   = Raises TypeError)
  /\ (duration_s video_data <> Some None ->
      exists suggestions : Suggestions,
        get_optimization_suggestions fromisoformat video_data analysis_data
        = Value suggestions
        /\ (length (content_strategy suggestions) <= 6)%nat
        /\ (length (technical_optimization suggestions) <= 6)%nat
        /\ (length (engagement_tactics suggestions) <= 6)%nat
        /\ (length (competitive_insights suggestions) = 2
            \/ length (competitive_insights suggestions) = 3)%nat
        /\ (length (posting_strategy suggestions) = 4
            \/ length (posting_strategy suggestions) = 6)%nat).
Proof.
  split.
  - intros H. unfold get_optimization_suggestions.
    now rewrite (content_strategy_None video_data H).
  - intros [duration Hduration]%duration_is_int.
    destruct (get_optimization_suggestions_parts fromisoformat video_data analysis_data
                duration Hduration)
      as (content & timing & items & -> & Hcontent & Hshape & Hitems).
    eexists. split; [reflexivity|]. cbn [content_strategy
      technical_optimization engagement_tactics competitive_insights posting_strategy].
    split; [exact Hcontent|]. split; [|split; [|split]].
    + destruct Hshape as [-> | [-> | [-> | ->]]]; split_ifs; cbn; lia.
    + destruct Hitems as [-> | [-> | ->]]; split_ifs; cbn; lia.
    + rewrite competitive_insights_parts. destruct (dict_lookup _ _); cbn; tauto.
    + rewrite posting_strategy_parts.
      destruct (Z.ltb_spec (get (views video_data) 0) 500);
        destruct (Z.ltb_spec 1000 (get (views video_data) 0)); cbn; try tauto; lia.
Qed.

(** X17: the advice that depends on the view count is consistent across the
    lists.  Under 500 views the posting strategy opens with the consistency
    pair and the technical list with the audio pair, and neither the
    call-to-action pair nor the community pair is given; above 1000 views it
    is the other way round.  This holds of the lists of every call that
    returns, and the call returns on every record whose [duration_s] is a
    number or absent. *)
Theorem view_count_advice_consistent (fromisoformat : string -> outcome datetime)
    (video_data : VideoData) (analysis_data : option AnalysisData) :
  (duration_s video_data <> Some None ->
   exists suggestions : Suggestions,
     get_optimization_suggestions fromisoformat video_data analysis_data
     = Value suggestions)
  /\ (forall suggestions : Suggestions,
        get_optimization_suggestions fromisoformat video_data analysis_data
        = Value suggestions ->
        (get (views video_data) 0 < 500 ->
         CONSISTENCY ∈ posting_strategy suggestions
         /\ AUDIO_QUALITY ∈ technical_optimization suggestions
         /\ (MID_VIDEO_CTA ∉ engagement_tactics suggestions)
         /\ (RESPOND_COMMENTS ∉ posting_strategy suggestions))
        /\ (1000 < get (views video_data) 0 ->
            RESPOND_COMMENTS ∈ posting_strategy suggestions
            /\ MID_VIDEO_CTA ∈ engagement_tactics suggestions
            /\ (AUDIO_QUALITY ∉ technical_optimization suggestions)
            /\ (CONSISTENCY ∉ posting_strategy suggestions))).
Proof.
  split.
  - intros [duration Hduration]%duration_is_int.
    destruct (get_optimization_suggestions_parts fromisoformat video_data analysis_data
                duration Hduration) as (content & timing & items & -> & _).
    now eexists.
  - intros suggestions Hrun.
    destruct (decide (duration_s video_data = Some None)) as [HNone | Hint].
    { pose proof (content_strategy_None video_data HNone) as Hraise.
      unfold get_optimization_suggestions in Hrun. rewrite Hraise in Hrun.
      discriminate. }
    apply duration_is_int in Hint as [duration Hduration].
    destruct (get_optimization_suggestions_parts fromisoformat video_data analysis_data
                duration Hduration)
      as (content & timing & items & Hparts & _ & Hshape & Hitems).
    rewrite Hparts in Hrun. injection Hrun as <-. cbn [content_strategy
      technical_optimization engagement_tactics competitive_insights posting_strategy].
    rewrite posting_strategy_parts.
    split; intros Hviews.
    + rewrite (proj2 (Z.ltb_lt _ 500)), (proj2 (Z.ltb_lt _ 1000)),
        (proj2 (Z.ltb_ge 1000 _)) by lia.
      repeat split.
      * by_computation.
      * cbn [app]. left.
      * destruct Hitems as [-> | [-> | ->]]; split_ifs; by_computation.
      * by_computation.
    + rewrite (proj2 (Z.ltb_ge _ 500)), (proj2 (Z.ltb_ge _ 1000)),
        (proj2 (Z.ltb_lt 1000 _)) by lia.
      repeat split.
      * by_computation.
      * apply elem_of_app. right. left.
      * destruct Hshape as [-> | [-> | [-> | ->]]]; split_ifs; by_computation.
      * by_computation.
Qed.

(** *** The content strategy *)

(** X18: the content strategy does not depend on the letter case of the
    title: two records that differ only in the case of the title's letters
    get the same suggestions. *)
Theorem content_strategy_ignores_case (video_data : VideoData) (title' : string) :
  lower title' = lower (get (title video_data) EmptyString) ->
  generate_content_strategy_suggestions
    (mkVideoData (Some title') (description video_data) (duration_s video_data)
       (tags video_data) (views video_data) (published_at_raw video_data)
       (category_id video_data))
  = generate_content_strategy_suggestions video_data.
Proof.
  intros Hlower. unfold generate_content_strategy_suggestions.
  cbn [title description duration_s tags get]. cbv zeta.
  rewrite Hlower.
  rewrite <- (count_words_lower false title'), Hlower, count_words_lower.
  reflexivity.
Qed.

Lemma content_strategy_ignores_case_witness :
  generate_content_strategy_suggestions
    (mkVideoData (Some "HOW TO bake bread AT HOME"%string) None (Some (Some 400)) None
       (Some 10) None None)
  = generate_content_strategy_suggestions
      (mkVideoData (Some "How to Bake Bread at Home"%string) None (Some (Some 400)) None
         (Some 10) None None).
Proof.
  apply (content_strategy_ignores_case
           (mkVideoData (Some "How to Bake Bread at Home"%string) None (Some (Some 400))
              None (Some 10) None None)
           "HOW TO bake bread AT HOME").
  vm_compute. reflexivity.
Defined.

Example python_text_runs :
  lower "How To: TIPS" = "how to: tips"%string
  /\ contains "how to" (lower "Learn How To Cook") = true
  /\ contains "guide" "a guid" = false
  /\ count_words false "  two   words " = 2
  /\ count_words false "" = 0
  /\ replace_Z "2024-05-04T23:10:00Z" = "2024-05-04T23:10:00+00:00"%string.
Proof. repeat split; vm_compute; reflexivity. Qed.

Example get_optimization_suggestions_runs :
  let video_data :=
    mkVideoData (Some "How to Bake Bread at Home"%string) None (Some (Some 700)) None
      (Some 200) (Some "2024-05-04T23:10:00Z"%string) (Some "26"%string) in
  (s ← get_optimization_suggestions saturday_night video_data None;
   mret (technical_optimization s, length (competitive_insights s)))
  = Value ([AUDIO_QUALITY; LIGHTING; PATTERN_INTERRUPTS; VISUAL_CUES;
            WEEKDAY_UPLOADS; UPLOAD_TIME], 3%nat)
  /\ (s ← get_optimization_suggestions rejects_everything video_data None;
      mret (technical_optimization s))
     = Value [AUDIO_QUALITY; LIGHTING; PATTERN_INTERRUPTS; VISUAL_CUES].
Proof. split; vm_compute; reflexivity. Qed.

(** A video whose duration text the library rejects: [fetch_video_by_url]
    stores [duration_s = None], and the advice raises [TypeError]; with a
    duration text that parses it returns. *)
Example unparsable_duration_raises :
  let video_data duration_iso :=
    fields ← YtFetchFormat.fetch_duration_fields YtFetch.ten_minutes_only duration_iso;
    mret (fetched_video_data "How to Bake Bread at Home" "" "2024-05-04T23:10:00Z" 200
            fields.1) in
  (v ← video_data (Some "ten minutes"%string); mret (duration_s v)) = Value (Some None)
  /\ (v ← video_data (Some "ten minutes"%string);
      get_optimization_suggestions saturday_night v None) = Raises TypeError
  /\ (v ← video_data (Some "ten minutes"%string);
      generate_technical_suggestions saturday_night v) = Raises TypeError
  /\ (v ← video_data (Some "ten minutes"%string);
      generate_engagement_tactics v None) = Raises TypeError
  /\ (v ← video_data (Some "PT10M"%string);
      s ← get_optimization_suggestions saturday_night v None;
      mret (content_strategy s))
     = Value [SHORT_DESCRIPTION; ADD_TIMESTAMPS; MORE_TAGS].
Proof. repeat split; vm_compute; reflexivity. Qed.

End AdviceProps.

(** ** Properties of the requests *)

Module ChunkProps.
Import Py YtFetchChunks.

Lemma range_0_50 (n : Z) :
  0 <= n ->
  range 0 n 50 = (fun k : nat => 50 * Z.of_nat k) <$> seq 0 (Z.to_nat ((n + 49) / 50)).
Proof.
  intros Hn. unfold range, seqZ.
  replace (n - 0 + 50 - 1) with (n + 49) by lia.
  assert (0 <= (n + 49) / 50) by (apply Z.div_pos; lia).
  rewrite Z.max_r by lia. rewrite <- !list_fmap_compose.
  apply list_fmap_ext. intros _ k _. cbn. lia.
Qed.

Lemma fetch_videos_chunks_seq {A} (l : list A) (k : nat) :
  (fun i => slice l i (i + 50)) <$> ((fun k : nat => 50 * Z.of_nat k) <$> seq 0 k)
  = (fun j : nat => take 50 (drop (50 * j) l)) <$> seq 0 k.
Proof.
  rewrite <- list_fmap_compose. apply list_fmap_ext. intros _ j _. cbn.
  unfold slice. f_equal; [|f_equal]; lia.
Qed.

(** Cutting a list into runs of 50 and gluing the runs gives the list back. *)
Lemma concat_runs {A} (k : nat) (l : list A) :
  (length l <= 50 * k)%nat ->
  concat ((fun j : nat => take 50 (drop (50 * j) l)) <$> seq 0 k) = l.
Proof.
  revert l. induction k as [|k IH]; intros l Hlen.
  - destruct l; [reflexivity | cbn in Hlen; lia].
  - cbn [seq fmap list_fmap concat]. rewrite <- fmap_S_seq, <- list_fmap_compose.
    assert (Hshift :
      (fun j : nat => take 50 (drop (50 * j) l)) ∘ S <$> seq 0 k
      = (fun j : nat => take 50 (drop (50 * j) (drop 50 l))) <$> seq 0 k).
    { apply list_fmap_ext. intros _ j _. cbn [compose]. rewrite drop_drop.
      do 2 f_equal. lia. }
    rewrite Hshift, IH by (rewrite length_drop; lia).
    change (50 * 0)%nat with 0%nat. rewrite drop_0. apply take_drop.
Qed.

(** X19: the loop of [fetch_videos] asks for every video id once and in
    order: the chunks glued together are the list of ids; no chunk is empty,
    none has more than 50 ids, and there are [ceil(n / 50)] of them. *)
Theorem fetch_videos_chunks_cover (video_ids : list string) :
  concat (fetch_videos_chunks video_ids) = video_ids
  /\ Forall (fun chunk => (1 <= length chunk <= 50)%nat) (fetch_videos_chunks video_ids)
  /\ Z.of_nat (length (fetch_videos_chunks video_ids))
     = (Z.of_nat (length video_ids) + 49) / 50.
Proof.
  unfold fetch_videos_chunks.
  rewrite range_0_50 by lia. rewrite fetch_videos_chunks_seq.
  set (n := Z.of_nat (length video_ids)).
  assert (Hk : 0 <= (n + 49) / 50) by (apply Z.div_pos; lia).
  assert (Hdiv : n + 49 = 50 * ((n + 49) / 50) + (n + 49) mod 50)
    by (apply Z.div_mod; lia).
  pose proof (Z.mod_pos_bound (n + 49) 50 ltac:(lia)) as Hmod.
  split; [|split].
  - apply concat_runs. lia.
  - apply Forall_fmap, Forall_forall. intros j Hj%elem_of_seq. cbn.
    rewrite length_take, length_drop. lia.
  - rewrite length_fmap, length_seq. lia.
Qed.

Example fetch_videos_requests_runs :
  fetch_videos_requests ["a"; "b"; "c"]%string = ["a,b,c"%string]
  /\ fetch_videos_requests [] = []
  /\ length <$> fetch_videos_chunks (replicate 120 "x"%string) = [50; 50; 20]%nat.
Proof. repeat split; vm_compute; reflexivity. Qed.

End ChunkProps.

(** ** The ranker on arbitrary frames *)

Module RankerShape.
Import Py Pandas Ranker RankerSpec PyFacts PandasFacts RankerProps.

(** What an assignment to a column keeps. *)
Lemma setitem_keeps (df df' : DataFrame) (c : string) (series : list cell) :
  setitem df c series = Value df' ->
  length (rows df') = length (rows df)
  /\ c ∈ columns df'
  /\ (forall k, k ∈ columns df -> k ∈ columns df')
  /\ (forall k, k ∈ columns df' -> k = c \/ k ∈ columns df)
  /\ (forall k, k <> c -> at_column k <$> rows df' = at_column k <$> rows df).
Proof.
  unfold setitem.
  destruct (Nat.eqb_spec (length series) (length (rows df))) as [Hlen | _]; [|discriminate].
  intros [= <-]. cbn [rows columns]. split; [|split; [|split; [|split]]].
  - rewrite length_zip_with. lia.
  - unfold has_column. destruct (bool_decide (c ∈ columns df)) eqn:H.
    + exact (bool_decide_eq_true_1 _ H).
    + apply elem_of_app. right. left.
  - intros k Hk. destruct (has_column c df); [exact Hk | apply elem_of_app; now left].
  - intros k Hk. destruct (has_column c df); [now right|].
    apply elem_of_app in Hk as [Hk | Hk%list_elem_of_singleton]; [now right | now left].
  - intros k Hne. revert series Hlen.
    induction (rows df) as [|r rs IH]; intros [|x xs] Hlen; try discriminate;
      [reflexivity|].
    cbn [zip_with fmap list_fmap]. rewrite at_column_insert_ne by congruence.
    f_equal. apply IH. now injection Hlen.
Qed.

(** An assignment to column [c] leaves every row as it was at the other
    columns. *)
Lemma setitem_rows (df df' : DataFrame) (c : string) (series : list cell) :
  setitem df c series = Value df' ->
  Forall2 (same_but [c]) (rows df) (rows df').
Proof.
  unfold setitem.
  destruct (Nat.eqb_spec (length series) (length (rows df))) as [Hlen | _]; [|discriminate].
  intros [= <-]. cbn [rows]. revert series Hlen.
  induction (rows df) as [|r rs IH]; intros [|x xs] Hlen; try discriminate;
    cbn [zip_with]; constructor.
  - intros k Hk. apply lookup_insert_ne. intros ->. apply Hk. now left.
  - apply IH. now injection Hlen.
Qed.

Lemma same_but_compose (w1 w2 : list string)
    (l1 l2 l3 : list (gmap string cell)) :
  Forall2 (same_but w1) l1 l2 -> Forall2 (same_but w2) l2 l3 ->
  Forall2 (same_but (w1 ++ w2)) l1 l3.
Proof.
  intros H. revert l3. induction H as [|x y l k Hxy _ IH]; intros l3 H3.
  - inversion H3. constructor.
  - inversion H3 as [|y' z k' l3' Hyz Hrest]; subst. constructor; [|now apply IH].
    intros c Hc. rewrite Hyz, Hxy; [reflexivity|..];
      intros Hin; apply Hc, elem_of_app; [now left | now right].
Qed.

Lemma same_but_weaken (w w' : list string) (l l' : list (gmap string cell)) :
  (forall k, k ∈ w -> k ∈ w') ->
  Forall2 (same_but w) l l' -> Forall2 (same_but w') l l'.
Proof.
  intros Hsub H. apply (Forall2_impl _ _ _ _ H). intros r r' Hr k Hk. apply Hr.
  intros Hin. apply Hk, Hsub, Hin.
Qed.

Lemma getitem_Value (df : DataFrame) (c : string) (series : list cell) :
  getitem df c = Value series -> c ∈ columns df.
Proof.
  unfold getitem, has_column. destruct (bool_decide (c ∈ columns df)) eqn:H; [|discriminate].
  intros _. exact (bool_decide_eq_true_1 _ H).
Qed.

Lemma getitem_missing (df : DataFrame) (c : string) :
  c ∉ columns df -> getitem df c = Raises KeyError.
Proof. intros H. unfold getitem. now rewrite has_column_false. Qed.

Ltac step H :=
  match goal with
  | |- (?m ≫= _) = Value _ -> _ =>
      destruct m eqn:H; [rewrite bind_Value | discriminate]
  end.

Ltac keeps H :=
  apply setitem_keeps in H;
  let Hlen := fresh "Hlen" in
  let Hnew := fresh "Hnew" in
  let Hold := fresh "Hold" in
  let Hback := fresh "Hback" in
  let Hcells := fresh "Hcells" in
  destruct H as (Hlen & Hnew & Hold & Hback & Hcells).

Section ComputePotentialShape.

Variable to_numeric_text : string -> cell.
Variable sort_values : string -> bool -> DataFrame -> outcome DataFrame.

(** X20: a frame without the [duration_s] column, or without the [views]
    column, is refused: [compute_potential] raises, whatever the library
    functions do, and the exception is [KeyError] when [duration_s] is the
    missing column or when the fallback branch is taken. *)
Theorem compute_potential_missing_column (df : DataFrame) :
  "views"%string ∉ columns df \/ "duration_s"%string ∉ columns df ->
  exists e : exn,
    compute_potential to_numeric_text sort_values df = Raises e
    /\ ("duration_s"%string ∉ columns df \/ "avgViewDuration"%string ∉ columns df ->
        e = KeyError).
Proof.
  intros Hmissing. unfold compute_potential, copy. cbv zeta.
  destruct (has_column "avgViewDuration" df) eqn:Havg.
  - apply bool_decide_eq_true_1 in Havg.
    rewrite (getitem_present _ _ Havg), bind_Value.
    destruct (setitem df "avgViewDuration" _) as [df1 | e] eqn:H1;
      [rewrite bind_Value | ].
    2:{ unfold setitem in H1.
        rewrite length_to_numeric, !length_fmap, Nat.eqb_refl in H1. discriminate. }
    keeps H1.
    destruct (decide ("duration_s"%string ∈ columns df)) as [Hduration | Hduration].
    + destruct Hmissing as [Hviews | ?]; [|contradiction].
      rewrite (getitem_present _ df1 (Hold _ Hduration)), bind_Value.
      destruct (setitem df1 "duration_s" _) as [df2 | e] eqn:H2;
        [rewrite bind_Value | ].
      2:{ unfold setitem in H2.
          rewrite length_to_numeric, !length_fmap, Nat.eqb_refl in H2. discriminate. }
      keeps H2.
      destruct (getitem df2 "duration_s") as [duration | e];
        [rewrite bind_Value | exists e; split; [reflexivity | tauto]].
      destruct (getitem df2 "avgViewDuration") as [avg | e];
        [rewrite bind_Value | exists e; split; [reflexivity | tauto]].
      destruct (series_sub duration avg) as [gap | e];
        [rewrite bind_Value | exists e; split; [reflexivity | tauto]].
      destruct (clip 0 gap) as [clipped | e];
        [rewrite bind_Value | exists e; split; [reflexivity | tauto]].
      destruct (setitem df2 "potential_seconds_per_view" clipped) as [df3 | e] eqn:H3;
        [rewrite bind_Value | exists e; split; [reflexivity | tauto]].
      keeps H3.
      rewrite (getitem_missing df3 "views").
      * exists KeyError. split; [reflexivity | tauto].
      * intros Hin. apply Hback1 in Hin as [Hin | Hin]; [discriminate|].
        apply Hback0 in Hin as [Hin | Hin]; [discriminate|].
        apply Hback in Hin as [Hin | Hin]; [discriminate | contradiction].
    + rewrite (getitem_missing df1 "duration_s").
      * exists KeyError. split; [reflexivity | tauto].
      * intros Hin. apply Hback in Hin as [Hin | Hin]; [discriminate | contradiction].
  - exists KeyError. split; [|reflexivity].
    destruct (decide ("views"%string ∈ columns df)) as [Hviews | Hviews].
    + rewrite (getitem_present _ _ Hviews), bind_Value.
      destruct Hmissing as [? | Hduration]; [contradiction|].
      now rewrite (getitem_missing df "duration_s").
    + now rewrite (getitem_missing df "views").
Qed.

End ComputePotentialShape.

Lemma compute_potential_missing_column_witness :
  exists e : exn,
    compute_potential RankerExamples.coerce_text_to_nan RankerExamples.merge_sort_values
      Recommender.two_videos = Raises e
    /\ ("duration_s"%string ∉ columns Recommender.two_videos
        \/ "avgViewDuration"%string ∉ columns Recommender.two_videos ->
        e = KeyError).
Proof.
  apply (compute_potential_missing_column RankerExamples.coerce_text_to_nan
           RankerExamples.merge_sort_values Recommender.two_videos).
  right. apply (bool_decide_unpack _). vm_compute. exact I.
Defined.


Section ComputePotentialKeeps.

Variable to_numeric_text : string -> cell.
Variable sort_values : string -> bool -> DataFrame -> outcome DataFrame.
Hypothesis sort_values_contract : sort_values_descending_contract sort_values.

(** X21: whatever the cells of the frame hold, a frame that
    [compute_potential] returns has as many rows as the input and every
    column of the input, and its rows are the rows of the input in a new
    order, each one unchanged at every column the function does not write:
    the [video_id], [views], [title], ... of one output row are those of one
    and the same input row, no video is lost and none is repeated.  In
    particular each such column holds the cells of the input, in the new
    order. *)
Theorem compute_potential_keeps (df out : DataFrame) :
  compute_potential to_numeric_text sort_values df = Value out ->
  length (rows out) = length (rows df)
  /\ (forall c, c ∈ columns df -> c ∈ columns out)
  /\ (exists annotated : list (gmap string cell),
        rows out ≡ₚ annotated
        /\ Forall2 (fun r r' =>
                      forall k : string,
                        k ∉ ["avgViewDuration"; "duration_s"; "potential_seconds_per_view";
                             "potential_watch_seconds"; "potential_score"]%string ->
                        r' !! k = r !! k)
             (rows df) annotated)
  /\ (forall k : string,
        k ∉ ["avgViewDuration"; "duration_s"; "potential_seconds_per_view";
             "potential_watch_seconds"; "potential_score"]%string ->
        at_column k <$> rows out ≡ₚ at_column k <$> rows df).
Proof.
  unfold compute_potential, copy. cbv zeta.
  destruct (has_column "avgViewDuration" df).
  - step Ha. step H1. step Hd. step H2. step Hd'. step Ha'. step Hgap. step Hclip.
    step H3. step Hv. step Hp. step Hw. step H4.
    pose proof (setitem_rows _ _ _ _ H1) as R1.
    pose proof (setitem_rows _ _ _ _ H2) as R2.
    pose proof (setitem_rows _ _ _ _ H3) as R3.
    pose proof (setitem_rows _ _ _ _ H4) as R4.
    keeps H1. keeps H2. keeps H3. keeps H4.
    destruct (sort_values_contract "potential_watch_seconds" _ Hnew2)
      as (out' & -> & Hcols & Hperm & _).
    intros [= <-]. split; [|split; [|split]].
    + rewrite Hperm. congruence.
    + intros c Hc. rewrite Hcols. auto.
    + eexists. split; [exact Hperm|].
      apply (same_but_weaken
               ((["avgViewDuration"] ++ ["duration_s"])
                ++ ["potential_seconds_per_view"] ++ ["potential_watch_seconds"])%list).
      * intros k Hk%list_elem_of_In. apply list_elem_of_In. cbn in *. tauto.
      * eapply same_but_compose; eapply same_but_compose; eassumption.
    + intros k Hk. rewrite Hperm.
      rewrite Hcells2, Hcells1, Hcells0, Hcells; [reflexivity|..];
        intros ->; apply Hk; repeat constructor.
  - step Hv. step Hd. step Hclip. step Hscore. step H1.
    pose proof (setitem_rows _ _ _ _ H1) as R1.
    keeps H1.
    destruct (sort_values_contract "potential_score" _ Hnew)
      as (out' & -> & Hcols & Hperm & _).
    intros [= <-]. split; [|split; [|split]].
    + rewrite Hperm. congruence.
    + intros c Hc. rewrite Hcols. auto.
    + eexists. split; [exact Hperm|].
      apply (same_but_weaken ["potential_score"%string]); [|exact R1].
      intros k Hk%list_elem_of_In. apply list_elem_of_In. cbn in *. tauto.
    + intros k Hk. rewrite Hperm.
      rewrite Hcells; [reflexivity|]. intros ->; apply Hk; repeat constructor.
Qed.

End ComputePotentialKeeps.

Lemma compute_potential_keeps_witness :
  exists out : DataFrame,
    compute_potential RankerExamples.coerce_text_to_nan RankerExamples.merge_sort_values
      RankerExamples.retention_batch = Value out
    /\ length (rows out) = length (rows RankerExamples.retention_batch)
    /\ (forall c, c ∈ columns RankerExamples.retention_batch -> c ∈ columns out)
    /\ (exists annotated : list (gmap string cell),
          rows out ≡ₚ annotated
          /\ Forall2 (fun r r' =>
                        forall k : string,
                          k ∉ ["avgViewDuration"; "duration_s"; "potential_seconds_per_view";
                               "potential_watch_seconds"; "potential_score"]%string ->
                          r' !! k = r !! k)
               (rows RankerExamples.retention_batch) annotated)
    /\ (forall k : string,
          k ∉ ["avgViewDuration"; "duration_s"; "potential_seconds_per_view";
               "potential_watch_seconds"; "potential_score"]%string ->
          at_column k <$> rows out ≡ₚ at_column k <$> rows RankerExamples.retention_batch).
Proof.
  eexists. split; [vm_compute; reflexivity|].
  apply (compute_potential_keeps RankerExamples.coerce_text_to_nan
           RankerExamples.merge_sort_values RankerTheorems.merge_sort_values_contract
           RankerExamples.retention_batch).
  vm_compute. reflexivity.
Defined.

End RankerShape.

(** ** The advice sections on an analysis *)

Module DisplayProps.
Import Py Analytics AnalyticsSuggestions DashboardDisplay.

(** X22: for the suggestions and action items that the analysis builds, the
    dashboard never shows either of its two notices: both sections are lists
    of markdown lines, one per suggestion and one per action item, at least
    two and at least three of them. *)
Theorem display_never_falls_back (video_data : VideoData) (engagement_rate : float)
    (duration views optimization_score : Z) (action_items : list string) :
  let suggestions := generate_suggestions video_data engagement_rate duration views in
  generate_action_items video_data optimization_score suggestions = Value action_items ->
  Forall (fun w => exists body, w = markdown body) (display_suggestions (Some suggestions))
  /\ Forall (fun w => exists body, w = markdown body)
       (display_action_items (Some action_items))
  /\ length (display_suggestions (Some suggestions)) = length suggestions
  /\ (2 <= length suggestions)%nat
  /\ length (display_action_items (Some action_items)) = length action_items
  /\ (3 <= length action_items)%nat.
Proof.
  cbv zeta. intros Hitems.
  assert (Hs : exists first rest second,
             generate_suggestions video_data engagement_rate duration views
             = first :: rest ++ [second]).
  { rewrite SuggestionProps.generate_suggestions_parts.
    change ([?x] ++ ?l) with (x :: l). rewrite !(assoc_L (++)).
    eexists _, _, _. reflexivity. }
  destruct Hs as (first & rest & second & ->).
  assert (Ha : exists first rest, action_items = first :: rest /\ (2 <= length rest)%nat).
  { revert Hitems. unfold generate_action_items. cbv zeta.
    destruct (truediv _ _) as [rate|]; [|discriminate].
    cbn [mbind outcome_bind mret outcome_ret]. intros [= <-].
    repeat match goal with |- context [if ?b then _ else _] => destruct b end;
      cbn [app]; eexists _, _; (split; [reflexivity | cbn; lia]). }
  destruct Ha as (item & items & -> & Hlen).
  unfold display_suggestions, display_action_items. cbn [get].
  split; [|split; [|split; [|split; [|split]]]].
  - apply Forall_forall. intros w (i & s & -> & _)%elem_of_lookup_imap. now eexists.
  - apply Forall_fmap, Forall_forall. intros s _. now eexists.
  - now rewrite length_imap.
  - cbn. rewrite length_app. cbn. lia.
  - now rewrite length_fmap.
  - cbn. lia.
Qed.

Lemma display_never_falls_back_witness :
  let video_data :=
    mkVideoData (Some 90) (Some 500) (Some 1) (Some 0) (Some "Short clip"%string) in
  let suggestions := generate_suggestions video_data 0.002%float 90 500 in
  let action_items :=
    [HIGH_PRIORITY_RETENTION; HIGH_PRIORITY_TITLE; TEST_LONGER_FORMAT;
     INTERACTIVE_ELEMENTS; MONITOR_RETENTION; AB_TEST_THUMBNAILS] in
  Forall (fun w => exists body, w = markdown body) (display_suggestions (Some suggestions))
  /\ Forall (fun w => exists body, w = markdown body)
       (display_action_items (Some action_items))
  /\ length (display_suggestions (Some suggestions)) = length suggestions
  /\ (2 <= length suggestions)%nat
  /\ length (display_action_items (Some action_items)) = length action_items
  /\ (3 <= length action_items)%nat.
Proof.
  apply (display_never_falls_back
           (mkVideoData (Some 90) (Some 500) (Some 1) (Some 0) (Some "Short clip"%string))
           0.002%float 90 500 25).
  vm_compute. reflexivity.
Defined.

Example display_runs :
  display_suggestions (Some ["first"; "second"]%string)
  = [markdown "1. first"; markdown "2. second"]%string
  /\ (exists notice, display_suggestions (Some []) = [info notice])
  /\ (exists notice, display_suggestions None = [info notice])
  /\ exists notice, display_action_items (Some []) = [info notice].
Proof. repeat split; try (eexists; reflexivity); vm_compute; reflexivity. Qed.

End DisplayProps.

(** ** The score grows with views and with engagement *)

Module ScoreMonotone.
Import Py Analytics ScoreSpec.

Ltac compare_cases :=
  repeat match goal with
  | |- context [Z.compare ?a ?b] => destruct (Z.compare_spec a b)
  | |- context [PosDef.Pos.compare_cont Eq ?a ?b] =>
      change (PosDef.Pos.compare_cont Eq a b) with (Pos.compare a b);
      destruct (Pos.compare_spec a b)
  end.

(** Below a positive finite value: what is not above something below it. *)
Lemma SFleb_ltb_trans (x y : spec_float) (m : positive) (e : Z) :
  SFleb x y = true ->
  SFltb y (S754_finite false m e) = true ->
  SFltb x (S754_finite false m e) = true.
Proof.
  unfold SFleb, SFltb.
  destruct x as [sx | sx | | sx mx ex], y as [sy | sy | | sy my ey];
    try destruct sx; try destruct sy; cbn; try discriminate; try reflexivity;
    compare_cases; cbn; intros; subst; try discriminate; try reflexivity; lia.
Qed.

(** Above a positive finite value: what is not below something above it. *)
Lemma SFltb_leb_trans (x y : spec_float) (m : positive) (e : Z) :
  SFltb (S754_finite false m e) x = true ->
  SFleb x y = true ->
  SFltb (S754_finite false m e) y = true.
Proof.
  unfold SFleb, SFltb.
  destruct x as [sx | sx | | sx mx ex], y as [sy | sy | | sy my ey];
    try destruct sx; try destruct sy; cbn; try discriminate; try reflexivity;
    compare_cases; cbn; intros; subst; try discriminate; try reflexivity; lia.
Qed.

Lemma spec_views_adjustments_mono (w1 w2 : Z) :
  w1 <= w2 -> spec_views_adjustments w1 <= spec_views_adjustments w2.
Proof.
  intros H. unfold spec_views_adjustments, adjust.
  repeat match goal with
    | |- context [Z.ltb ?a ?b] => destruct (Z.ltb_spec a b)
    end; cbn [andb negb]; lia.
Qed.

Lemma spec_engagement_adjustments_mono (r1 r2 : float) :
  (r1 <=? r2)%float = true ->
  spec_engagement_adjustments r1 <= spec_engagement_adjustments r2.
Proof.
  intros Hle. rewrite leb_spec in Hle.
  assert (H05 : (0.05 <? r1)%float = true -> (0.05 <? r2)%float = true).
  { rewrite !ltb_spec, FloatFacts.threshold_05. intros H.
    exact (SFltb_leb_trans _ _ _ _ H Hle). }
  assert (H02 : (0.02 <? r1)%float = true -> (0.02 <? r2)%float = true).
  { rewrite !ltb_spec, FloatFacts.threshold_02. intros H.
    exact (SFltb_leb_trans _ _ _ _ H Hle). }
  assert (H005 : (r2 <? 0.005)%float = true -> (r1 <? 0.005)%float = true).
  { rewrite !ltb_spec, FloatFacts.threshold_005. intros H.
    exact (SFleb_ltb_trans _ _ _ _ Hle H). }
  pose proof (FloatFacts.below_0005_not_above r1) as Hlow1.
  pose proof (FloatFacts.below_0005_not_above r2) as Hlow2.
  unfold spec_engagement_adjustments, adjust.
  destruct (0.05 <? r1)%float, (0.02 <? r1)%float, (r1 <? 0.005)%float,
           (0.05 <? r2)%float, (0.02 <? r2)%float, (r2 <? 0.005)%float;
    cbn [andb negb]; try lia;
    try (destruct (Hlow1 eq_refl); discriminate);
    try (destruct (Hlow2 eq_refl); discriminate);
    try (specialize (H05 eq_refl); discriminate);
    try (specialize (H02 eq_refl); discriminate);
    try (specialize (H005 eq_refl); discriminate).
Qed.

(** X23: at a fixed engagement rate, more views never lower the score. *)
Theorem score_monotone_in_views (video_data : VideoData) (engagement_rate : float)
    (views1 views2 : Z) :
  views1 <= views2 ->
  calculate_optimization_score
    (mkVideoData (duration_s video_data) (Some views1) (likes video_data)
       (comments video_data) (title video_data)) engagement_rate
  <= calculate_optimization_score
       (mkVideoData (duration_s video_data) (Some views2) (likes video_data)
          (comments video_data) (title video_data)) engagement_rate.
Proof.
  intros H. rewrite !ScoreProps.score_is_clamped_sum.
  cbn [duration_s views title get].
  unfold clamp_0_100, spec_adjustments.
  pose proof (spec_views_adjustments_mono views1 views2 H). lia.
Qed.

Lemma score_monotone_in_views_witness :
  calculate_optimization_score
    (mkVideoData (Some 600) (Some 500) (Some 10) (Some 2) (Some "Short clip"%string))
    0.024%float
  <= calculate_optimization_score
       (mkVideoData (Some 600) (Some 20000) (Some 10) (Some 2) (Some "Short clip"%string))
       0.024%float.
Proof.
  apply (score_monotone_in_views
           (mkVideoData (Some 600) None (Some 10) (Some 2) (Some "Short clip"%string))
           0.024%float 500 20000).
  lia.
Defined.

(** X24: on one record, a higher engagement rate never lowers the score:
    for two rates that compare by [<=] (so neither is NaN), the score at the
    smaller rate is at most the score at the larger. *)
Theorem score_monotone_in_engagement (video_data : VideoData) (rate1 rate2 : float) :
  (rate1 <=? rate2)%float = true ->
  calculate_optimization_score video_data rate1
  <= calculate_optimization_score video_data rate2.
Proof.
  intros H. rewrite !ScoreProps.score_is_clamped_sum.
  unfold clamp_0_100, spec_adjustments.
  pose proof (spec_engagement_adjustments_mono rate1 rate2 H). lia.
Qed.

Lemma score_monotone_in_engagement_witness :
  calculate_optimization_score
    (mkVideoData (Some 600) (Some 500) (Some 10) (Some 2) (Some "Short clip"%string))
    0.01%float
  <= calculate_optimization_score
       (mkVideoData (Some 600) (Some 500) (Some 10) (Some 2) (Some "Short clip"%string))
       0.03%float.
Proof.
  apply (score_monotone_in_engagement
           (mkVideoData (Some 600) (Some 500) (Some 10) (Some 2) (Some "Short clip"%string))
           0.01%float 0.03%float).
  reflexivity.
Defined.

End ScoreMonotone.
